(** * teach-cert-pro: the objectives pipeline and the PDF validator

    A shallow embedding of the parts of the repository that its
    specification makes claims about:

    - [scripts/inference.py]   ([Module Inference]),
    - [scripts/validation.py]  ([Module Validation]),
    - [scripts/discovery.py]   ([Module Discovery], de-duplication),
    - [src/validator.py]       ([Module PDFValidator]),
    - [scripts/main.py] and [scripts/database.py] ([Module Orchestrator]).

    Conventions of the embedding.

    - A Python [str] is a [string]; every character stands for the code
      point of the same number (0..255).  [lower], [split] and the
      substring test [in] follow Python on that range.
    - A dictionary that the code only reads through fixed keys is a record
      with one field per key.  A field whose value is only tested for truth
      is an [option]: [None] stands for an absent key and for the value
      [None], which such a test does not tell apart.  Where the value
      itself is used (the key tuple of the de-duplication), the field is a
      [Field], which keeps the absent key, [None] and a string apart.
    - Where the code only compares a confidence score with a decimal
      literal, the score is a rational number and the literals denote
      themselves.  Where the code computes with scores
      ([enhance_confidence], the average of [validate_objectives_set]),
      a score is a binary64 float as in Python, a decimal literal is the
      float nearest to it, and the operations round as IEEE 754 does.
    - [enhance_confidence] updates the dictionaries of its argument in
      place: there a dictionary is an object of a store, and a list holds
      references to objects.
    - An exception is the text [str(e)] that the handlers of the code log
      or store. *)

From Stdlib Require Import String Ascii List Bool Arith NArith ZArith QArith Lia.
From Stdlib Require Import DecimalString Floats.
Import ListNotations.

Set Implicit Arguments.
(* A decimal literal of the source that is no float denotes the float
   nearest to it, as it does in Python. *)
Set Warnings "-inexact-float".
Local Open Scope list_scope.
Local Open Scope string_scope.

(* ================================================================== *)
(** ** Python built-ins on strings and lists *)

Module Py.

(** Truth value of a [str]: the empty string is false. *)
Definition truthy (s : string) : bool :=
  match s with
  | EmptyString => false
  | String _ _ => true
  end.

(** Truth value of the result of [d.get(k)] when the values are strings. *)
Definition truthy_opt (o : option string) : bool :=
  match o with
  | None => false
  | Some s => truthy s
  end.

(** [d.get(k, '')] *)
Definition get_str (o : option string) : string :=
  match o with
  | None => ""
  | Some s => s
  end.

(** [str.lower] on one code point below 256: [A]-[Z] and the Latin-1
    capitals (192..222 without the multiplication sign 215) move up by 32. *)
Definition lower_char (c : ascii) : ascii :=
  let n := N_of_ascii c in
  if ((65 <=? n) && (n <=? 90) ||
      (192 <=? n) && (n <=? 222) && negb (n =? 215))%N
  then ascii_of_N (n + 32)
  else c.

Fixpoint lower (s : string) : string :=
  match s with
  | EmptyString => EmptyString
  | String c r => String (lower_char c) (lower r)
  end.

(** The code points that [str.split()] and [str.strip()] treat as
    white space: TAB LF VT FF CR, FS GS RS US, SPACE, NEL and NBSP. *)
Definition is_space (c : ascii) : bool :=
  let n := N_of_ascii c in
  ((9 <=? n) && (n <=? 13) || (28 <=? n) && (n <=? 32) ||
   (n =? 133) || (n =? 160))%N.

(** [s.split()]: the maximal runs of characters that are not white space.
    [cur] is the run being read, if one has started. *)
Fixpoint split_from (cur : option string) (s : string) : list string :=
  match s with
  | EmptyString =>
      match cur with
      | Some w => [w]
      | None => []
      end
  | String c r =>
      if is_space c then
        match cur with
        | Some w => w :: split_from None r
        | None => split_from None r
        end
      else
        split_from (Some (get_str cur ++ String c "")) r
  end.

Definition split (s : string) : list string := split_from None s.

(** [needle in hay] for two strings. *)
Fixpoint contains (needle hay : string) : bool :=
  String.prefix needle hay ||
  match hay with
  | EmptyString => false
  | String _ r => contains needle r
  end.

(** [s.endswith(suffix)] *)
Definition endswith (s suffix : string) : bool :=
  let n := String.length s in
  let m := String.length suffix in
  (m <=? n)%nat && String.eqb (substring (n - m) m s) suffix.

(** [any(p in text for p in patterns)] *)
Definition any_in (patterns : list string) (text : string) : bool :=
  existsb (fun p => contains p text) patterns.

(** [str(n)] for a natural number and for an integer. *)
Definition str_nat (n : nat) : string :=
  NilZero.string_of_uint (Nat.to_uint n).

Definition str_int (z : Z) : string :=
  NilZero.string_of_int (Z.to_int z).

(** [enumerate(l)], counting from [i]. *)
Fixpoint enumerate_from {A} (i : nat) (l : list A) : list (nat * A) :=
  match l with
  | [] => []
  | x :: r => (i, x) :: enumerate_from (S i) r
  end.

Definition enumerate {A} (l : list A) : list (nat * A) := enumerate_from 0 l.

(** The two-argument [min(a, b)] of Python on floats: [b] when [b < a],
    else [a]. *)
Definition min (a b : float) : float :=
  if PrimFloat.ltb b a then b else a.

(** [float(n)] for an integer below 2^63, which every [len] of CPython
    is: the float nearest to [n]. *)
Definition float_of_len (n : nat) : float :=
  PrimFloat.of_uint63 (Uint63.of_Z (Z.of_nat n)).

Definition float_of_Z (z : Z) : float :=
  if (z <? 0)%Z then PrimFloat.opp (PrimFloat.of_uint63 (Uint63.of_Z (- z)))
  else PrimFloat.of_uint63 (Uint63.of_Z z).

(** The float that a rational score [n/d] is in Python.  For [n] and [d]
    below 2^53 both are floats and the division rounds once, to the float
    nearest to [n/d]: the float that Python reads in a decimal literal. *)
Definition binary64 (q : Q) : float :=
  PrimFloat.div (float_of_Z (Qnum q)) (float_of_Z (Zpos (Qden q))).

(** [a >= b] on numbers. *)
Definition ge (a b : Q) : bool := Qle_bool b a.

End Py.

(* ================================================================== *)
(** ** Results and exceptions

    A call either returns a value or raises; [Raise e] carries [str(e)]. *)

Inductive Result (A : Type) : Type :=
| Ok (a : A)
| Raise (e : string).

Arguments Ok {A} a.
Arguments Raise {A} e.

(** The three things [d.get(k)] can find under a key whose values are
    strings: no such key, the value [None], or a string. *)
Inductive Field : Type :=
| Absent
| PyNone
| Str (s : string).

(** [d.get(k, default)]: a value that is [None] or a string. *)
Definition get_default (f : Field) (default : string) : option string :=
  match f with
  | Absent => Some default
  | PyNone => None
  | Str s => Some s
  end.

(* ================================================================== *)
(** ** Objective records

    The dictionary that [inference.py] and [discovery.py] build for one
    objective and that [validation.py] and [main.py] read. *)

Record Objective := mkObjective {
  objective_index : nat;
  objective_text : string;
  evidence_excerpt : option string;
  evidence_url : option string;
  is_inferred : bool;
  confidence : Q;
  rationale : option string;
  validation_status : string
}.

(* ================================================================== *)
(** ** scripts/inference.py *)

Module Inference.

(** The metadata dictionary [test_info], read with [get(k, '')].  A key
    that is present holds a string ([test_name] and [test_system] are
    [TEXT NOT NULL] columns); [None] is the absent key, and for
    [subject_area], which is only tested for truth and membership, also
    the value [None]. *)
Record TestInfo := mkTestInfo {
  test_name : option string;
  subject_area : option string;
  test_system : option string;
  official_source_url : option string
}.

(** [test_info = {}] *)
Definition empty_info : TestInfo := mkTestInfo None None None None.

Definition intasc_standards : list string :=
  [ "Learner Development: Understands how learners grow and develop";
    "Learning Differences: Uses understanding of individual differences and diverse cultures";
    "Learning Environments: Works with others to create environments that support learning";
    "Content Knowledge: Understands the central concepts and tools of inquiry";
    "Application of Content: Connects concepts using differing perspectives";
    "Assessment: Understands and uses multiple methods of assessment";
    "Planning for Instruction: Plans instruction that supports every student";
    "Instructional Strategies: Understands and uses a variety of instructional strategies";
    "Professional Learning: Engages in ongoing professional learning";
    "Leadership and Collaboration: Seeks leadership roles and collaborates" ].

Definition elementary_education_template : list string :=
  [ "Demonstrate knowledge of child development and learning theory";
    "Apply effective instructional strategies for diverse learners";
    "Integrate literacy instruction across content areas";
    "Use formative and summative assessment to guide instruction";
    "Create inclusive and culturally responsive classroom environments";
    "Understand and teach mathematics concepts and problem-solving";
    "Implement science inquiry and investigation methods";
    "Teach social studies content and citizenship concepts";
    "Develop students' critical thinking and communication skills" ].

Definition mathematics_template : list string :=
  [ "Demonstrate deep understanding of mathematical concepts and procedures";
    "Apply mathematical reasoning and problem-solving strategies";
    "Connect mathematics to real-world applications and other disciplines";
    "Use technology to enhance mathematical learning";
    "Assess student understanding of mathematical concepts";
    "Differentiate instruction for diverse mathematical learners";
    "Teach number sense, operations, and algebraic thinking";
    "Develop geometric and spatial reasoning in students";
    "Apply statistical and probabilistic reasoning" ].

Definition english_language_arts_template : list string :=
  [ "Demonstrate knowledge of reading processes and comprehension strategies";
    "Teach writing processes and composition across genres";
    "Develop students' speaking and listening skills";
    "Analyze and teach literary and informational texts";
    "Apply linguistics and language development principles";
    "Integrate technology and media literacy instruction";
    "Assess and support literacy development";
    "Differentiate instruction for diverse language learners" ].

Definition science_template : list string :=
  [ "Apply scientific inquiry and investigation methods";
    "Demonstrate content knowledge in physical sciences";
    "Demonstrate content knowledge in life sciences";
    "Demonstrate content knowledge in earth and space sciences";
    "Use technology and laboratory equipment safely and effectively";
    "Connect science concepts across disciplines";
    "Develop students' scientific reasoning and critical thinking";
    "Assess student understanding of scientific concepts" ].

Definition social_studies_template : list string :=
  [ "Teach historical thinking and chronological reasoning";
    "Develop students' geographic literacy and spatial thinking";
    "Apply civic knowledge and promote civic engagement";
    "Teach economic concepts and financial literacy";
    "Integrate primary and secondary source analysis";
    "Promote cultural awareness and global perspectives";
    "Use inquiry-based approaches to social studies instruction" ].

Definition special_education_template : list string :=
  [ "Understand characteristics of students with disabilities";
    "Apply individualized education program (IEP) development and implementation";
    "Use evidence-based instructional strategies for diverse learners";
    "Implement positive behavior supports and interventions";
    "Collaborate with families, educators, and service providers";
    "Apply assessment for eligibility, progress monitoring, and instruction";
    "Ensure access to general education curriculum";
    "Understand legal and ethical responsibilities in special education" ].

(** [self.subject_templates]: a dictionary with six keys, in the order
    of the source. *)
Definition subject_templates : list (string * list string) :=
  [ ("Elementary Education", elementary_education_template);
    ("Mathematics", mathematics_template);
    ("English Language Arts", english_language_arts_template);
    ("Science", science_template);
    ("Social Studies", social_studies_template);
    ("Special Education", special_education_template) ].

(** [d[k]], when [k in d]. *)
Fixpoint lookup (d : list (string * list string)) (k : string)
  : option (list string) :=
  match d with
  | [] => None
  | (k', v) :: r => if String.eqb k k' then Some v else lookup r k
  end.

(** [_get_generic_test_objectives] *)
Definition get_generic_test_objectives (system name : string) : list string :=
  let generic_objectives :=
    [ "Demonstrate content knowledge in " ++ name;
      "Apply pedagogical principles and instructional strategies";
      "Assess and evaluate student learning and progress";
      "Create inclusive and equitable learning environments";
      "Integrate technology and resources to enhance learning";
      "Collaborate with colleagues, families, and communities";
      "Engage in professional growth and ethical practice" ] in
  if Py.contains "praxis" (Py.lower system) then
    (generic_objectives ++
     ["Apply Educational Testing Service (ETS) standards for teacher readiness"])%list
  else if Py.contains "nes" (Py.lower system) then
    (generic_objectives ++
     ["Meet state-specific educator preparation standards"])%list
  else generic_objectives.

(** The dictionary appended to [inferred] in each of the four loops. *)
Definition emit (url : option string) (conf : Q) (why : string)
           (entry : nat * string) : Objective :=
  {| objective_index := fst entry;
     objective_text := snd entry;
     evidence_excerpt := None;
     evidence_url := url;
     is_inferred := true;
     confidence := conf;
     rationale := Some why;
     validation_status := "inferred" |}.

Definition intasc_url : string := "https://ccsso.org/intasc".

(** The four strategies of [infer_objectives], as the [if]/[elif] chain
    selects them. *)
Inductive Strategy :=
| SubjectTemplate (subject : string) (objectives : list string)
| IntascStandards
| GenericSystem (system : string)
| MinimalFallback.

Definition select_strategy (test_info : TestInfo) : Strategy :=
  let name := Py.get_str (test_name test_info) in
  let subject := Py.get_str (subject_area test_info) in
  let system := Py.get_str (test_system test_info) in
  match (if Py.truthy subject then lookup subject_templates subject else None) with
  | Some objectives => SubjectTemplate subject objectives
  | None =>
      if Py.contains "elementary" (Py.lower name)
         || Py.contains "general" (Py.lower name)
      then IntascStandards
      else if Py.truthy system then GenericSystem system
      else MinimalFallback
  end.

(** The list [inferred] of [infer_objectives], as it stands when the
    threshold filter is reached. *)
Definition infer_candidates (test_info : TestInfo) : list Objective :=
  let name := Py.get_str (test_name test_info) in
  match select_strategy test_info with
  | SubjectTemplate subject objectives =>
      map (emit None 0.75
             ("Inferred from standard " ++ subject ++
              " teacher certification competency frameworks"))
          (Py.enumerate objectives)
  | IntascStandards =>
      map (emit (Some intasc_url) 0.70
             "Inferred from InTASC Model Core Teaching Standards, applicable to general teaching licenses")
          (Py.enumerate intasc_standards)
  | GenericSystem system =>
      map (emit None 0.60
             ("Inferred from typical " ++ system ++
              " test structure and common teacher competencies"))
          (Py.enumerate (get_generic_test_objectives system name))
  | MinimalFallback =>
      map (emit (Some intasc_url) 0.40
             "Minimal inference based on general teaching standards; official objectives not found")
          (Py.enumerate (firstn 5 intasc_standards))
  end.

(** [infer_objectives(test_info, confidence_threshold)] *)
Definition infer_objectives (test_info : TestInfo) (confidence_threshold : Q)
  : list Objective :=
  filter (fun obj => Py.ge (confidence obj) confidence_threshold)
         (infer_candidates test_info).

(** The default of the parameter [confidence_threshold]. *)
Definition default_confidence_threshold : Q := 0.5.

(** The text that [enhance_confidence] appends to a rationale. *)
Definition support_note (supporting_evidence : list string) : string :=
  " | Supported by " ++ Py.str_nat (length supporting_evidence) ++
  " additional source(s)".

End Inference.

(* ================================================================== *)
(** ** scripts/inference.py: [enhance_confidence]

    The function adds to the confidence of the dictionaries of its
    argument and writes the sum back under the same key.  The scores are
    floats here, a dictionary is an object of a store, and the list of
    objectives is a list of references: two items of a list may be one
    and the same dictionary. *)

Module Enhancement.

(** What is under the key ['confidence']: no such key, the value [None],
    or a number, which is a float or an [int] that the addition converts
    to a float. *)
Inductive Score : Type :=
| NoScore
| NoneScore
| Number (x : float).

(** The dictionary of one objective.  [is_inferred] is the truth value of
    [obj.get('is_inferred')]. *)
Record Dict := mkDict {
  objective_index : nat;
  objective_text : string;
  evidence_excerpt : option string;
  evidence_url : option string;
  is_inferred : bool;
  confidence : Score;
  rationale : Field;
  validation_status : string
}.

Definition Ref : Type := nat.

(** The objects, by reference. *)
Definition Store : Type := Ref -> Dict.

Definition write (store : Store) (ref : Ref) (dict : Dict) : Store :=
  fun r => if Nat.eqb r ref then dict else store r.

(** [obj['confidence'] = score] *)
Definition set_confidence (obj : Dict) (score : float) : Dict :=
  {| objective_index := objective_index obj;
     objective_text := objective_text obj;
     evidence_excerpt := evidence_excerpt obj;
     evidence_url := evidence_url obj;
     is_inferred := is_inferred obj;
     confidence := Number score;
     rationale := rationale obj;
     validation_status := validation_status obj |}.

(** [obj['rationale'] = text] *)
Definition set_rationale (obj : Dict) (text : string) : Dict :=
  {| objective_index := objective_index obj;
     objective_text := objective_text obj;
     evidence_excerpt := evidence_excerpt obj;
     evidence_url := evidence_url obj;
     is_inferred := is_inferred obj;
     confidence := confidence obj;
     rationale := Str text;
     validation_status := validation_status obj |}.

(** [min(len(supporting_evidence) * 0.1, 0.3)] *)
Definition boost (supporting_evidence : list string) : float :=
  Py.min (PrimFloat.mul (Py.float_of_len (length supporting_evidence)) 0.1)
         0.3.

(** The body of the loop, for the dictionary that [obj] refers to.  The
    confidence is written before the rationale is read: when the second
    statement raises, the first has taken effect. *)
Definition enhance_one (supporting_evidence : list string) (obj : Ref)
           (store : Store) : Result unit * Store :=
  if is_inferred (store obj) && negb (Nat.eqb (length supporting_evidence) 0)
  then
    match confidence (store obj) with
    | NoScore => (Raise "'confidence'", store)
    | NoneScore =>
        (Raise "unsupported operand type(s) for +: 'NoneType' and 'float'",
         store)
    | Number old =>
        let score :=
          Py.min (PrimFloat.add old (boost supporting_evidence)) 1.0 in
        let store1 := write store obj (set_confidence (store obj) score) in
        match rationale (store1 obj) with
        | Absent => (Raise "'rationale'", store1)
        | PyNone =>
            (Raise "unsupported operand type(s) for +=: 'NoneType' and 'str'",
             store1)
        | Str why =>
            (Ok tt,
             write store1 obj
                   (set_rationale (store1 obj)
                      (why ++ Inference.support_note supporting_evidence)))
        end
    end
  else (Ok tt, store).

(** [for obj in objectives: ...] *)
Fixpoint enhance_loop (objectives : list Ref)
         (supporting_evidence : list string) (store : Store)
  : Result unit * Store :=
  match objectives with
  | [] => (Ok tt, store)
  | obj :: rest =>
      match enhance_one supporting_evidence obj store with
      | (Ok _, store1) => enhance_loop rest supporting_evidence store1
      | (Raise e, store1) => (Raise e, store1)
      end
  end.

(** [enhance_confidence(objectives, supporting_evidence)]: what it
    returns, which is its first argument, and the store it leaves. *)
Definition enhance_confidence (objectives : list Ref)
           (supporting_evidence : list string) (store : Store)
  : Result (list Ref) * Store :=
  match enhance_loop objectives supporting_evidence store with
  | (Ok _, store1) => (Ok objectives, store1)
  | (Raise e, store1) => (Raise e, store1)
  end.

End Enhancement.

(* ================================================================== *)
(** ** scripts/validation.py *)

Module Validation.

(** The entries of the list [issues].  [issue_text] gives the string
    that the code appends for each of them. *)
Inductive Issue : Type :=
| TooShort (word_count : nat)
| NoActionVerb
| Boilerplate
| InvalidConfidence (confidence : Q)
| MissingRationale.


Definition action_verbs : list string :=
  [ "understand"; "demonstrate"; "apply"; "analyze"; "evaluate";
    "identify"; "explain"; "describe"; "compare"; "create";
    "develop"; "design"; "implement"; "use"; "integrate";
    "teach"; "assess"; "plan"; "collaborate"; "communicate" ].

Definition boilerplate_phrases : list string :=
  [ "click here"; "read more"; "download"; "next page";
    "table of contents"; "copyright"; "all rights reserved" ].

(** [len(obj_text.split())] *)
Definition word_count (obj_text : string) : nat :=
  length (Py.split obj_text).

(** [0 <= confidence <= 1.0] *)
Definition confidence_in_range (c : Q) : bool :=
  Qle_bool 0 c && Qle_bool c 1.0.

(** The list [issues] of [validate_objective], built in the order of the
    four checks. *)
Definition objective_issues (objective_data : Objective) : list Issue :=
  let obj_text := objective_text objective_data in
  let n := word_count obj_text in
  ((if (n <? 6)%nat then [TooShort n] else []) ++
   (if Py.any_in action_verbs (Py.lower obj_text) then [] else [NoActionVerb]) ++
   (if Py.any_in boilerplate_phrases (Py.lower obj_text) then [Boilerplate] else []) ++
   (if is_inferred objective_data then
      (if confidence_in_range (confidence objective_data) then []
       else [InvalidConfidence (confidence objective_data)]) ++
      (if Py.truthy_opt (rationale objective_data) then []
       else [MissingRationale])
    else []))%list.

(** [validate_objective(objective_data)]: [(len(issues) == 0, issues)]. *)
Definition validate_objective (objective_data : Objective)
  : bool * list Issue :=
  let issues := objective_issues objective_data in
  (Nat.eqb (length issues) 0, issues).

(** [assign_validation_status(objective)] *)
Definition assign_validation_status (objective : Objective) : string :=
  if is_inferred objective then
    if Py.ge (confidence objective) 0.7 then "partial" else "inferred"
  else
    if Py.truthy_opt (evidence_url objective) then "verified" else "partial".

End Validation.

(* ================================================================== *)
(** ** scripts/discovery.py: de-duplication of the discovered tests *)

Module Discovery.

(** A discovered test, as [_extract_tests_from_url] and the callers of
    [_deduplicate_tests] build it.  Every key may be missing, and
    [test_code] is [None] for a pattern without a group. *)
Record TestCandidate := mkTestCandidate {
  test_system : Field;
  test_name : Field;
  test_code : Field;
  provider : Field;
  official_source_url : Field;
  source_content : Field
}.

(** The tuple [key]: each component is [None] or a string. *)
Definition Key : Type := option string * option string * option string.

Definition test_key (test : TestCandidate) : Key :=
  (get_default (test_system test) "",
   get_default (test_name test) "",
   get_default (test_code test) "").

Definition value_eqb (a b : option string) : bool :=
  match a, b with
  | None, None => true
  | Some x, Some y => String.eqb x y
  | _, _ => false
  end.

(** Equality of two key tuples. *)
Definition key_eqb (a b : Key) : bool :=
  let '(a1, a2, a3) := a in
  let '(b1, b2, b3) := b in
  value_eqb a1 b1 && value_eqb a2 b2 && value_eqb a3 b3.

(** [key in seen] *)
Definition seen_mem (key : Key) (seen : list Key) : bool :=
  existsb (key_eqb key) seen.

(** The loop of [_deduplicate_tests], from the state [(seen, unique)]. *)
Fixpoint dedup_loop (tests : list TestCandidate) (seen : list Key)
         (unique : list TestCandidate) : list TestCandidate :=
  match tests with
  | [] => unique
  | test :: rest =>
      let key := test_key test in
      if seen_mem key seen then dedup_loop rest seen unique
      else dedup_loop rest (key :: seen) (unique ++ [test])%list
  end.

(** [_deduplicate_tests(tests)] *)
Definition deduplicate_tests (tests : list TestCandidate)
  : list TestCandidate :=
  dedup_loop tests [] [].

End Discovery.

(* ================================================================== *)
(** ** teacher_cert_pdf_validator/src/validator.py *)

Module PDFValidator.

(** The exceptions that the handlers of [is_valid_pdf] tell apart. *)
Inductive RequestError : Type :=
| Timeout
| ConnectionError
| TooManyRedirects
| OtherException (message : string).

(** The outcome of a call that goes to the network or to a library. *)
Inductive Outcome (A : Type) : Type :=
| Returns (a : A)
| Fails (e : RequestError).

Arguments Returns {A} a.
Arguments Fails {A} e.

(** What the code reads of a [requests.Response]: the status code, the
    [Content-Type] header if there is one, the final URL after redirects,
    and the first item of [iter_content(chunk_size=8)], [None] when the
    body yields nothing. *)
Record Response := mkResponse {
  status_code : Z;
  content_type : option string;
  url : string;
  first_chunk : Outcome (option (list Byte.byte))
}.

(** The two components of [urlparse(url)] that the code reads. *)
Record Parsed := mkParsed {
  scheme : string;
  netloc : string
}.

(** What the outside world answers during one call of [is_valid_pdf]:
    the result of [urlparse(url)], of [session.head(url, ...)], of the
    [session.get(url, ...)] issued when HEAD is not 200, and of the
    [session.get(url, ...)] issued before the signature is read. *)
Record Exchange := mkExchange {
  parsed : Outcome Parsed;
  head_response : Outcome Response;
  get_response : Outcome Response;
  signature_response : Outcome Response
}.

(** [b'%PDF'] *)
Definition pdf_signature : list Byte.byte :=
  [Byte.x25; Byte.x50; Byte.x44; Byte.x46].

(** [chunk.startswith(prefix)] on [bytes]. *)
Fixpoint startswith (chunk prefix : list Byte.byte) : bool :=
  match prefix, chunk with
  | [], _ => true
  | _ :: _, [] => false
  | p :: ps, c :: cs => Byte.eqb c p && startswith cs ps
  end.

(** Truth value of [chunk]: [None] and [b''] are false. *)
Definition chunk_truthy (chunk : option (list Byte.byte)) : bool :=
  match chunk with
  | Some (_ :: _) => true
  | _ => false
  end.

Definition chunk_is_pdf (chunk : option (list Byte.byte)) : bool :=
  match chunk with
  | Some bytes => chunk_truthy chunk && startswith bytes pdf_signature
  | None => false
  end.

(** The four [except] clauses. *)
Definition on_exception (e : RequestError) : bool * string :=
  match e with
  | Timeout => (false, "Request timeout")
  | ConnectionError => (false, "Connection failed")
  | TooManyRedirects => (false, "Too many redirects")
  | OtherException message => (false, "Error: " ++ substring 0 50 message)
  end.

(** The last test of the [try] block, on the response then at hand. *)
Definition check_final_url (response : Response) : bool * string :=
  if Py.contains ".pdf" (Py.lower (url response))
  then (true, "Valid PDF (URL extension)")
  else (false, "Not a PDF file").

(** [is_valid_pdf(url)].  A [requests.Response] always has the attribute
    [raw], so the second GET is always issued on the signature path. *)
Definition is_valid_pdf (target : string) (net : Exchange) : bool * string :=
  match parsed net with
  | Fails e => on_exception e
  | Returns p =>
      if negb (Py.truthy (scheme p)) || negb (Py.truthy (netloc p)) then
        (false, "Invalid URL format")
      else
        match head_response net with
        | Fails e => on_exception e
        | Returns head =>
            match (if negb (status_code head =? 200)%Z
                   then get_response net else Returns head) with
            | Fails e => on_exception e
            | Returns response =>
                if negb (status_code response =? 200)%Z then
                  (false, "HTTP " ++ Py.str_int (status_code response))
                else if Py.contains "application/pdf"
                          (Py.lower (Py.get_str (content_type response))) then
                  (true, "Valid PDF (Content-Type)")
                else if Py.endswith (Py.lower target) ".pdf"
                        || Py.endswith (Py.lower (url response)) ".pdf" then
                  match signature_response net with
                  | Fails e => on_exception e
                  | Returns response' =>
                      match first_chunk response' with
                      | Fails e => on_exception e
                      | Returns chunk =>
                          if chunk_is_pdf chunk then
                            (true, "Valid PDF (signature check)")
                          else if chunk_truthy chunk then
                            (false, "File exists but not a PDF")
                          else check_final_url response'
                      end
                  end
                else check_final_url response
            end
        end
  end.

End PDFValidator.

(* ================================================================== *)
(** ** scripts/database.py and scripts/main.py *)

Module Orchestrator.

(** *** A state monad with exceptions *)

Definition M (S A : Type) : Type := S -> Result A * S.

Definition ret {S A} (a : A) : M S A := fun s => (Ok a, s).

Definition raise {S A} (e : string) : M S A := fun s => (Raise e, s).

Definition bind {S A B} (m : M S A) (k : A -> M S B) : M S B :=
  fun s =>
    match m s with
    | (Ok a, s') => k a s'
    | (Raise e, s') => (Raise e, s')
    end.

(** [try: m except Exception as e: handler(str(e))] *)
Definition try_except {S A} (m : M S A) (handler : string -> M S A) : M S A :=
  fun s =>
    match m s with
    | (Ok a, s') => (Ok a, s')
    | (Raise e, s') => handler e s'
    end.

Notation "x <- m ;; k" := (bind m (fun x => k))
  (at level 61, m at next level, right associativity).
Notation "m ;;; k" := (bind m (fun _ => k))
  (at level 61, right associativity).

(** [for x in l: body(x)] *)
Fixpoint for_each {S A} (l : list A) (body : A -> M S unit) : M S unit :=
  match l with
  | [] => ret tt
  | x :: rest => body x ;;; for_each rest body
  end.

(** *** Records of the four tables *)

(** The dictionary [test_data] of [_generate_sample_tests], without the
    key [state_id] that [process_state] adds. *)
Record TestData := mkTestData {
  test_system : string;
  test_name : string;
  test_code : option string;
  subject_area : option string;
  grade_band : option string;
  provider : option string;
  official_source_url : option string;
  source_last_updated : option string
}.

(** The dictionary [counts]. *)
Record Counts := mkCounts {
  tests_found : nat;
  objectives_found : nat;
  objectives_inferred : nat;
  queries_run : nat
}.

Record StateRow := mkStateRow {
  state_id : nat;
  state_name : string;
  state_abbrev : string
}.

Record TestRow := mkTestRow {
  test_id : nat;
  test_state_id : nat;
  test_data : TestData
}.

Record ObjectiveRow := mkObjectiveRow {
  objective_id : nat;
  objective_test_id : nat;
  objective_data : Objective
}.

Record AuditRow := mkAuditRow {
  audit_id : nat;
  audit_state_id : nat;
  status : string;
  audit_counts : Counts;
  notes : option string
}.

(** The SQLite database behind one connection: its four tables, rows in
    order of insertion (nothing is ever deleted); the row id of the last
    insertion, which [cursor.lastrowid] reads; and, for the two tables
    with a [UNIQUE] constraint, the last id that [AUTOINCREMENT] has
    handed out (the row of the table in [sqlite_sequence]).  SQLite takes
    the next id before it sees a conflict, so an [INSERT OR IGNORE] that
    is ignored and an [INSERT ... ON CONFLICT DO UPDATE] that updates have
    used up an id, and the last id of [states] and of [tests] can be above
    the number of their rows.  No insertion into [objectives] or [audits]
    is turned into nothing or into an update, and an insertion that raises
    leaves the sequence as it was, so the next id of these two tables is
    their length plus one.  The time stamps are left out; the code
    modelled here never reads them. *)
Record Database := mkDatabase {
  states : list StateRow;
  tests : list TestRow;
  objectives : list ObjectiveRow;
  audits : list AuditRow;
  lastrowid : nat;
  state_seq : nat;
  test_seq : nat
}.

Definition empty_database : Database := mkDatabase [] [] [] [] 0 0 0.

(** The calls that [main.py] makes on what is around it: the log file of
    a state, the database, the reports. *)
Inductive Call : Type :=
| CallUpsertState (name abbrev : string)
| CallStartAudit (state : nat)
| CallUpsertTest (state : nat) (data : TestData)
| CallInsertObjective (test : nat) (data : Objective)
| CallCompleteAudit (audit : nat) (new_status : string) (counts : Counts)
                    (new_notes : option string)
| CallGetStateLogger (name : string)
| CallGenerateReports.

Definition opt_eqb (a b : option string) : bool :=
  match a, b with
  | Some x, Some y => String.eqb x y
  | _, _ => false
  end.

Section WithEnvironment.

(** The failures of what is around the orchestrator: of SQLite (a locked
    or full database, an I/O error), of [logging.FileHandler] when
    [get_state_logger] opens the log file of a state whose logger has no
    handler yet (a name that is no file name, a directory that cannot be
    written), of the report generator.  [faulty call db] is the message
    of the exception that [call] raises when the database is [db], if it
    raises one there; a call that raises leaves the database as it was. *)
Variable faulty : Call -> Database -> option string.

(** The step that produces the tests of a state, which may raise. *)
Variable discover : string -> string -> Result (list TestData).

(** A call: the fault, if any, else the statement. *)
Definition sql {A} (call : Call) (statement : M Database A) : M Database A :=
  fun db =>
    match faulty call db with
    | Some e => (Raise e, db)
    | None => statement db
    end.

(** *** scripts/database.py *)

(** [INSERT OR IGNORE INTO states]: both columns are [UNIQUE].  The id
    is taken from the sequence in both cases; an ignored insertion leaves
    the rows and the last row id as they were. *)
Definition insert_or_ignore_state (name abbrev : string) (db : Database)
  : Database :=
  let id := S (state_seq db) in
  if existsb (fun r => String.eqb (state_name r) name
                       || String.eqb (state_abbrev r) abbrev) (states db)
  then
    {| states := states db;
       tests := tests db;
       objectives := objectives db;
       audits := audits db;
       lastrowid := lastrowid db;
       state_seq := id;
       test_seq := test_seq db |}
  else
    {| states := (states db ++ [mkStateRow id name abbrev])%list;
       tests := tests db;
       objectives := objectives db;
       audits := audits db;
       lastrowid := id;
       state_seq := id;
       test_seq := test_seq db |}.

(** [upsert_state]: [fetchone()[0]] raises a [TypeError] when no row
    has the name. *)
Definition upsert_state (name abbrev : string) : M Database nat :=
  sql (CallUpsertState name abbrev)
    (fun db =>
       let db' := insert_or_ignore_state name abbrev db in
       match find (fun r => String.eqb (state_name r) name) (states db') with
       | Some r => (Ok (state_id r), db')
       | None => (Raise "'NoneType' object is not subscriptable", db')
       end).

(** [start_audit] *)
Definition start_audit (state : nat) : M Database nat :=
  sql (CallStartAudit state)
    (fun db =>
       let id := S (length (audits db)) in
       (Ok id,
        {| states := states db;
           tests := tests db;
           objectives := objectives db;
           audits := (audits db ++
                      [mkAuditRow id state "running" (mkCounts 0 0 0 0) None])%list;
           lastrowid := id;
           state_seq := state_seq db;
           test_seq := test_seq db |})).

(** The conflict target of [upsert_test]: the four columns of the
    [UNIQUE] constraint agree; a [NULL] code agrees with nothing. *)
Definition same_test (state : nat) (data : TestData) (r : TestRow) : bool :=
  Nat.eqb (test_state_id r) state
  && String.eqb (test_system (test_data r)) (test_system data)
  && String.eqb (test_name (test_data r)) (test_name data)
  && opt_eqb (test_code (test_data r)) (test_code data).

(** [DO UPDATE SET]: the five columns taken from the new values. *)
Definition update_test (data : TestData) (r : TestRow) : TestRow :=
  mkTestRow (test_id r) (test_state_id r)
    {| test_system := test_system (test_data r);
       test_name := test_name (test_data r);
       test_code := test_code (test_data r);
       subject_area := subject_area data;
       grade_band := grade_band data;
       provider := provider data;
       official_source_url := official_source_url data;
       source_last_updated := source_last_updated data |}.

(** [upsert_test]: returns [cursor.lastrowid], which an update leaves
    at the row id of the last insertion of the connection.  The id is
    taken from the sequence whether the row is inserted or updated. *)
Definition upsert_test (state : nat) (data : TestData) : M Database nat :=
  sql (CallUpsertTest state data)
    (fun db =>
       let id := S (test_seq db) in
       if existsb (same_test state data) (tests db) then
         (Ok (lastrowid db),
          {| states := states db;
             tests := map (fun r => if same_test state data r
                                    then update_test data r else r) (tests db);
             objectives := objectives db;
             audits := audits db;
             lastrowid := lastrowid db;
             state_seq := state_seq db;
             test_seq := id |})
       else
         (Ok id,
          {| states := states db;
             tests := (tests db ++ [mkTestRow id state data])%list;
             objectives := objectives db;
             audits := audits db;
             lastrowid := id;
             state_seq := state_seq db;
             test_seq := id |})).

(** [insert_objective], for [obj] with [obj['test_id'] = test]. *)
Definition insert_objective (test : nat) (obj : Objective) : M Database nat :=
  sql (CallInsertObjective test obj)
    (fun db =>
       let id := S (length (objectives db)) in
       (Ok id,
        {| states := states db;
           tests := tests db;
           objectives := (objectives db ++ [mkObjectiveRow id test obj])%list;
           audits := audits db;
           lastrowid := id;
           state_seq := state_seq db;
           test_seq := test_seq db |})).

(** The [UPDATE audits ... WHERE id = ?] of [complete_audit] on one row. *)
Definition close_row (audit : nat) (new_status : string) (counts : Counts)
           (new_notes : option string) (r : AuditRow) : AuditRow :=
  if Nat.eqb (audit_id r) audit
  then mkAuditRow (audit_id r) (audit_state_id r) new_status counts new_notes
  else r.

(** [complete_audit] *)
Definition complete_audit (audit : nat) (new_status : string)
           (counts : Counts) (new_notes : option string) : M Database unit :=
  sql (CallCompleteAudit audit new_status counts new_notes)
    (fun db =>
       (Ok tt,
        {| states := states db;
           tests := tests db;
           objectives := objectives db;
           audits := map (close_row audit new_status counts new_notes)
                         (audits db);
           lastrowid := lastrowid db;
           state_seq := state_seq db;
           test_seq := test_seq db |})).

(** *** scripts/main.py *)

(** The state of the [try] block of [process_state]: the dictionary
    [counts], which it updates in place, and the database. *)
Definition Env : Type := (Counts * Database)%type.

Definition on_db {A} (m : M Database A) : M Env A :=
  fun '(counts, db) =>
    match m db with
    | (r, db') => (r, (counts, db'))
    end.

Definition get_counts : M Env Counts :=
  fun '(counts, db) => (Ok counts, (counts, db)).

Definition update_counts (f : Counts -> Counts) : M Env unit :=
  fun '(counts, db) => (Ok tt, (f counts, db)).

Definition lift {S A} (r : Result A) : M S A := fun s => (r, s).

Definition add_test (c : Counts) : Counts :=
  mkCounts (tests_found c + 1) (objectives_found c)
           (objectives_inferred c) (queries_run c).

Definition add_found (c : Counts) : Counts :=
  mkCounts (tests_found c) (objectives_found c + 1)
           (objectives_inferred c) (queries_run c).

Definition add_inferred (c : Counts) : Counts :=
  mkCounts (tests_found c) (objectives_found c)
           (objectives_inferred c + 1) (queries_run c).

(** The dictionary [test_info] that [process_state] builds. *)
Definition test_info_of (data : TestData) : Inference.TestInfo :=
  {| Inference.test_name := Some (test_name data);
     Inference.test_system := Some (test_system data);
     Inference.subject_area := subject_area data;
     Inference.official_source_url := official_source_url data |}.

(** The body of [for obj in objectives]. *)
Definition store_objective (test : nat) (obj : Objective) : M Env unit :=
  if fst (Validation.validate_objective obj) then
    on_db (insert_objective test obj) ;;;
    update_counts (if is_inferred obj then add_inferred else add_found)
  else ret tt.

(** The body of [for test_data in sample_tests]. *)
Definition process_test (state : nat) (data : TestData) : M Env unit :=
  test <- on_db (upsert_test state data) ;;
  update_counts add_test ;;;
  for_each (Inference.infer_objectives (test_info_of data) 0.4)
           (store_objective test).

Definition closing_status (counts : Counts) : string :=
  if (0 <? tests_found counts)%nat then "complete" else "partial".

Definition closing_notes (counts : Counts) : string :=
  "Demo mode: generated " ++ Py.str_nat (tests_found counts) ++ " tests".

(** The [try] block of [process_state]. *)
Definition guarded_work (name abbrev : string) (state audit : nat)
  : M Env unit :=
  sample_tests <- lift (discover name abbrev) ;;
  for_each sample_tests (process_test state) ;;;
  counts <- get_counts ;;
  on_db (complete_audit audit (closing_status counts) counts
                        (Some (closing_notes counts))).

(** The [except Exception as e] clause of [process_state]. *)
Definition on_failure (audit : nat) (e : string) : M Env unit :=
  counts <- get_counts ;;
  on_db (complete_audit audit "error" counts (Some e)).

(** [get_state_logger(state_name)]: the first call for a state opens its
    log file, which can fail; nothing depends on the logger it returns. *)
Definition get_state_logger (name : string) : M Database unit :=
  sql (CallGetStateLogger name) (ret tt).

(** [process_state(state_name, state_abbrev)], with the tests of the
    state taken from [discover].  The logger is obtained before anything
    else, outside the [try] block; the calls that write to it are left
    out: [logging] does not let the failure of a handler reach its
    caller. *)
Definition process_state_with (name abbrev : string) : M Database Counts :=
  get_state_logger name ;;;
  state <- upsert_state name abbrev ;;
  audit <- start_audit state ;;
  fun db =>
    match try_except (guarded_work name abbrev state audit)
                     (on_failure audit) (mkCounts 0 0 0 0, db) with
    | (Ok _, (counts, db')) => (Ok counts, db')
    | (Raise e, (_, db')) => (Raise e, db')
    end.

(** The dictionary [total_counts]. *)
Record Totals := mkTotals {
  states_processed : nat;
  total_tests : nat;
  total_objectives : nat;
  total_verified : nat;
  total_inferred : nat
}.

Definition add_counts (t : Totals) (c : Counts) : Totals :=
  mkTotals (states_processed t + 1)
           (total_tests t + tests_found c)
           (total_objectives t + (objectives_found c + objectives_inferred c))
           (total_verified t + objectives_found c)
           (total_inferred t + objectives_inferred c).

(** The loop of [run_full_pipeline] over [states_to_process], from the
    totals reached so far. *)
Fixpoint pipeline_loop (states_to_process : list (string * string))
         (total_counts : Totals) : M Database Totals :=
  match states_to_process with
  | [] => ret total_counts
  | (name, abbrev) :: rest =>
      counts <- process_state_with name abbrev ;;
      pipeline_loop rest (add_counts total_counts counts)
  end.

(** [generate_all_reports()]: it reads the database and writes files,
    which can fail; what it returns is only logged. *)
Definition generate_all_reports : M Database unit :=
  sql CallGenerateReports (ret tt).

(** [run_full_pipeline(states_to_process)]: the loop, then the reports,
    then [total_counts] is returned. *)
Definition run_full_pipeline_with (states_to_process : list (string * string))
  : M Database Totals :=
  total_counts <- pipeline_loop states_to_process (mkTotals 0 0 0 0 0) ;;
  generate_all_reports ;;;
  ret total_counts.

End WithEnvironment.

(** [_generate_sample_tests(state_name, state_abbrev)] *)
Definition generate_sample_tests (name abbrev : string) : list TestData :=
  [ {| test_system := "Praxis";
       test_name := "Elementary Education: Multiple Subjects";
       test_code := Some "5001";
       subject_area := Some "Elementary Education";
       grade_band := Some "K-6";
       provider := Some "ETS";
       official_source_url := Some "https://www.ets.org/praxis/prepare/materials/5001";
       source_last_updated := Some "2024" |};
    {| test_system := "Praxis";
       test_name := "Mathematics: Content Knowledge";
       test_code := Some "5161";
       subject_area := Some "Mathematics";
       grade_band := Some "7-12";
       provider := Some "ETS";
       official_source_url := Some "https://www.ets.org/praxis/prepare/materials/5161";
       source_last_updated := Some "2024" |};
    {| test_system := abbrev ++ " State Exam";
       test_name := name ++ " Teaching Foundations";
       test_code := None;
       subject_area := Some "General Education";
       grade_band := Some "All";
       provider := Some "State DOE";
       official_source_url :=
         Some ("https://" ++ Py.lower abbrev ++ ".gov/education/teacher-certification");
       source_last_updated := Some "2024" |} ].

(** The call [self._generate_sample_tests(state_name, state_abbrev)],
    which does not raise. *)
Definition sample_discovery (name abbrev : string) : Result (list TestData) :=
  Ok (generate_sample_tests name abbrev).

(** [process_state] and [run_full_pipeline] as the source has them: the
    tests of a state are its sample tests. *)
Definition process_state (faulty : Call -> Database -> option string)
  : string -> string -> M Database Counts :=
  process_state_with faulty sample_discovery.

Definition run_full_pipeline (faulty : Call -> Database -> option string)
  : list (string * string) -> M Database Totals :=
  run_full_pipeline_with faulty sample_discovery.

(** Surroundings in which no call fails: the log files open, the
    database answers, the reports are written. *)
Definition no_fault : Call -> Database -> option string := fun _ _ => None.

(** The row of the table [audits] with a given id. *)
Definition audit_row (db : Database) (audit : nat) : option AuditRow :=
  find (fun r => Nat.eqb (audit_id r) audit) (audits db).

End Orchestrator.


(* ================================================================== *)
(** ** The specification's reading of some operations

    Definitions that follow the words of the specification, to be compared
    with the definitions above, which follow the code. *)

Module Claimed.

(** "has an evidence URL": the key holds a string that is not empty. *)
Definition has_evidence_url (objective : Objective) : Prop :=
  exists u, evidence_url objective = Some u /\ u <> ""%string.

(** The boost of [enhance_confidence] as the specification words it:
    [min(0.1 * count(supporting_urls), 0.3)]. *)
Definition boost (supporting_urls : list string) : float :=
  Py.min (PrimFloat.mul 0.1 (Py.float_of_len (length supporting_urls))) 0.3.

(** What [enhance_confidence] does to one objective according to the
    specification: an inferred objective gets the clamped confidence
    [min(old_confidence + boost, 1.0)] and the note, everything else stays
    as it was. *)
Definition enhanced (supporting_urls : list string)
           (before after : Enhancement.Dict) : Prop :=
  if Enhancement.is_inferred before then
    (exists old,
       Enhancement.confidence before = Enhancement.Number old /\
       Enhancement.confidence after =
         Enhancement.Number
           (Py.min (PrimFloat.add old (boost supporting_urls)) 1.0)) /\
    (exists why,
       Enhancement.rationale before = Str why /\
       Enhancement.rationale after =
         Str (why ++ Inference.support_note supporting_urls)%string) /\
    Enhancement.objective_index after = Enhancement.objective_index before /\
    Enhancement.objective_text after = Enhancement.objective_text before /\
    Enhancement.evidence_excerpt after = Enhancement.evidence_excerpt before /\
    Enhancement.evidence_url after = Enhancement.evidence_url before /\
    Enhancement.is_inferred after = true /\
    Enhancement.validation_status after = Enhancement.validation_status before
  else after = before.

(** What the statements about [enhance_confidence] ask of a dictionary:
    when it is inferred, its confidence is a number and its rationale a
    string. *)
Definition enhanceable (obj : Enhancement.Dict) : Prop :=
  Enhancement.is_inferred obj = true ->
  (exists old, Enhancement.confidence obj = Enhancement.Number old) /\
  (exists why, Enhancement.rationale obj = Str why).

(** "preserving encounter order": [kept] is [all] with some items left
    out, the others in their order. *)
Inductive subsequence {A : Type} : list A -> list A -> Prop :=
| subsequence_nil : subsequence [] []
| subsequence_skip (x : A) (kept all : list A) :
    subsequence kept all -> subsequence kept (x :: all)
| subsequence_keep (x : A) (kept all : list A) :
    subsequence kept all -> subsequence (x :: kept) (x :: all).

(** "the first candidate encountered" with a given key. *)
Definition first_with_key (key : Discovery.Key)
           (tests : list Discovery.TestCandidate)
  : option Discovery.TestCandidate :=
  find (fun test => Discovery.key_eqb (Discovery.test_key test) key) tests.

(** "identical key", read on the candidates themselves: the test system,
    the test name and the test code of the two candidates are the same,
    where a field that is missing counts as the empty string and the
    value [None] as itself. *)
Definition same_identity (a b : Discovery.TestCandidate) : Prop :=
  get_default (Discovery.test_system a) "" = get_default (Discovery.test_system b) "" /\
  get_default (Discovery.test_name a) "" = get_default (Discovery.test_name b) "" /\
  get_default (Discovery.test_code a) "" = get_default (Discovery.test_code b) "".

(** The two grounds on which the specification lets [is_valid_pdf]
    accept: the Content-Type of the response, or a ".pdf" ending of the
    URL (or of the final URL) together with the signature at the head of
    the first bytes. *)
Definition accepted_by_content_type (response : PDFValidator.Response) : Prop :=
  Py.contains "application/pdf"
    (Py.lower (Py.get_str (PDFValidator.content_type response))) = true.

Definition accepted_by_signature (target : string)
           (response : PDFValidator.Response)
           (chunk : option (list Byte.byte)) : Prop :=
  (Py.endswith (Py.lower target) ".pdf" = true \/
   Py.endswith (Py.lower (PDFValidator.url response)) ".pdf" = true) /\
  exists bytes, chunk = Some bytes /\
                PDFValidator.startswith bytes PDFValidator.pdf_signature = true.

(** The third ground that the code has: ".pdf" occurs somewhere in the
    final URL. *)
Definition accepted_by_url (response : PDFValidator.Response) : Prop :=
  Py.contains ".pdf" (Py.lower (PDFValidator.url response)) = true.

(** *** The run of the orchestrator *)

Section Runs.

Variable faulty : Orchestrator.Call -> Orchestrator.Database -> option string.
Variable discover : string -> string -> Result (list Orchestrator.TestData).

(** The ids of the table [audits] are 1, 2, ... in the order of the rows,
    as [AUTOINCREMENT] hands them out. *)
Definition audit_ids_in_order (db : Orchestrator.Database) : Prop :=
  map Orchestrator.audit_id (Orchestrator.audits db)
  = seq 1 (length (Orchestrator.audits db)).

(** The database in which [process_state] leaves its caller, whether it
    returns or raises. *)
Definition database_after (name abbrev : string) (db : Orchestrator.Database)
  : Orchestrator.Database :=
  snd (Orchestrator.process_state_with faulty discover name abbrev db).

(** The steps that the batch takes outside the [try] blocks succeed, at
    the database that the run has reached: for every unit, the log file of
    the state is opened, the state record is obtained, the audit is
    started, and the write that closes this audit as "error" is not one
    that fails; and after the last unit the reports are generated. *)
Fixpoint unguarded_steps_succeed (units : list (string * string))
         (db : Orchestrator.Database) : Prop :=
  match units with
  | [] => faulty Orchestrator.CallGenerateReports db = None
  | (name, abbrev) :: rest =>
      (exists state db1 audit db2,
         faulty (Orchestrator.CallGetStateLogger name) db = None /\
         Orchestrator.upsert_state faulty name abbrev db = (Ok state, db1) /\
         Orchestrator.start_audit faulty state db1 = (Ok audit, db2) /\
         forall counts e d,
           faulty (Orchestrator.CallCompleteAudit audit "error" counts (Some e)) d
           = None) /\
      unguarded_steps_succeed rest (database_after name abbrev db)
  end.

(** How the audit row of one unit has been closed, given what the [try]
    block of the unit did: without an exception, "complete" when a test
    was counted and "partial" when none was; with an exception [e],
    "error" with [e] as notes.  In both cases the row holds the counts
    reached. *)
Definition closed_as (outcome : Result unit * Orchestrator.Env)
           (row : Orchestrator.AuditRow) : Prop :=
  match outcome with
  | (Ok _, (counts, _)) =>
      Orchestrator.status row
        = (if (0 <? Orchestrator.tests_found counts)%nat
           then "complete" else "partial")%string /\
      Orchestrator.audit_counts row = counts
  | (Raise e, (counts, _)) =>
      Orchestrator.status row = "error"%string /\
      Orchestrator.notes row = Some e /\
      Orchestrator.audit_counts row = counts
  end.

(** Every unit of the batch, in turn, has started its audit under the id
    of its row and has closed it according to the outcome of its [try]
    block. *)
Fixpoint audits_closed (units : list (string * string))
         (rows : list Orchestrator.AuditRow) (db : Orchestrator.Database)
  : Prop :=
  match units, rows with
  | [], [] => True
  | (name, abbrev) :: units', row :: rows' =>
      (exists state db1 db2,
         Orchestrator.upsert_state faulty name abbrev db = (Ok state, db1) /\
         Orchestrator.start_audit faulty state db1
           = (Ok (Orchestrator.audit_id row), db2) /\
         closed_as
           (Orchestrator.guarded_work faulty discover name abbrev state
              (Orchestrator.audit_id row)
              (Orchestrator.mkCounts 0 0 0 0, db2))
           row) /\
      audits_closed units' rows' (database_after name abbrev db)
  | _, _ => False
  end.

(** The totals that the batch reports are the sums of the counts in the
    audit rows of its units. *)
Definition totals_cover (totals : Orchestrator.Totals)
           (rows : list Orchestrator.AuditRow) : Prop :=
  Orchestrator.states_processed totals = length rows /\
  Orchestrator.total_tests totals
    = list_sum (map (fun r => Orchestrator.tests_found (Orchestrator.audit_counts r)) rows) /\
  Orchestrator.total_verified totals
    = list_sum (map (fun r => Orchestrator.objectives_found (Orchestrator.audit_counts r)) rows) /\
  Orchestrator.total_inferred totals
    = list_sum (map (fun r => Orchestrator.objectives_inferred (Orchestrator.audit_counts r)) rows) /\
  Orchestrator.total_objectives totals
    = (Orchestrator.total_verified totals + Orchestrator.total_inferred totals)%nat.

End Runs.

(** The objectives of a list that pass the validation gate. *)
Definition gate (objectives : list Objective) : list Objective :=
  filter (fun obj => fst (Validation.validate_objective obj)) objectives.

(** The objectives of one test that pass the validation gate. *)
Definition accepted (data : Orchestrator.TestData) : list Objective :=
  gate (Inference.infer_objectives (Orchestrator.test_info_of data) 0.4).

(** "the number of objectives that passed the validation gate across all
    of the unit's tests" *)
Definition accepted_count (tests : list Orchestrator.TestData) : nat :=
  list_sum (map (fun data => length (accepted data)) tests).

End Claimed.

(* ================================================================== *)
(** ** Environments for concrete runs *)

Module Scenarios.

(** SQLite refuses every write to the tables [tests] and [objectives] and
    every update of [audits] (the disk is full), but still answers the two
    calls that open a unit; the log files open. *)
Definition disk_full : Orchestrator.Call -> Orchestrator.Database -> option string :=
  fun call _ =>
    match call with
    | Orchestrator.CallGetStateLogger _ => None
    | Orchestrator.CallUpsertState _ _ => None
    | Orchestrator.CallStartAudit _ => None
    | _ => Some "database or disk is full"%string
    end.

(** The log file of one state cannot be opened (its name is no file
    name); nothing else fails. *)
Definition log_fails_for (failing : string)
  : Orchestrator.Call -> Orchestrator.Database -> option string :=
  fun call _ =>
    match call with
    | Orchestrator.CallGetStateLogger name =>
        if String.eqb name failing
        then Some "[Errno 2] No such file or directory"%string
        else None
    | _ => None
    end.

(** A discovery step that raises for one state and yields the sample
    tests for every other. *)
Definition discovery_fails_for (failing : string) (name abbrev : string)
  : Result (list Orchestrator.TestData) :=
  if String.eqb name failing
  then Raise "search failed: connection timed out"
  else Orchestrator.sample_discovery name abbrev.

(** Three dictionaries in a store: an objective of the minimal fallback
    of [infer_objectives], a verified objective without a rationale, and
    an inferred objective that has no key ['rationale']. *)
Definition objects : Enhancement.Store :=
  fun ref =>
    match ref with
    | 0%nat =>
        Enhancement.mkDict 0
          "Learner Development: Understands how learners grow and develop"
          None (Some Inference.intasc_url) true (Enhancement.Number 0.4)
          (Str "Minimal inference based on general teaching standards; official objectives not found")
          "inferred"
    | 1%nat =>
        Enhancement.mkDict 1
          "Demonstrate content knowledge in physical sciences"
          None (Some "https://www.ets.org/praxis") false
          (Enhancement.Number 1.0) PyNone "verified"
    | _ =>
        Enhancement.mkDict 2
          "Apply mathematical reasoning and problem-solving strategies"
          None None true (Enhancement.Number 0.75) Absent "inferred"
    end.

Definition four_urls : list string :=
  ["https://a.gov/1"; "https://b.edu/2"; "https://c.gov/3"; "https://d.edu/4"].

Definition three_states : list (string * string) :=
  [("Alabama", "AL"); ("Alaska", "AK"); ("Arizona", "AZ")]%string.

(** The database of a fresh run after the two calls that open the unit
    Alabama. *)
Definition alabama_opened : Orchestrator.Database :=
  snd (Orchestrator.start_audit Orchestrator.no_fault 1
         (snd (Orchestrator.upsert_state Orchestrator.no_fault "Alabama" "AL"
                 Orchestrator.empty_database))).

End Scenarios.

(* ================================================================== *)
(** ** More of the code

    The functions of the same files that the definitions above leave out,
    as far as they compute on strings, lists and the tables. *)

Module PyText.

(** [s.lstrip()], [s.rstrip()] and [s.strip()]. *)
Fixpoint lstrip (s : string) : string :=
  match s with
  | EmptyString => EmptyString
  | String c r => if Py.is_space c then lstrip r else s
  end.

Fixpoint rstrip (s : string) : string :=
  match s with
  | EmptyString => EmptyString
  | String c r =>
      match rstrip r with
      | EmptyString => if Py.is_space c then EmptyString else String c EmptyString
      | String d r' => String c (String d r')
      end
  end.

Definition strip (s : string) : string := rstrip (lstrip s).

(** The line feed, the separator of [s.split('\n')]. *)
Definition LF : ascii := ascii_of_N 10.

(** [s.split('\n')]: the pieces between the line feeds, at least one.
    [cur] is the piece being read. *)
Fixpoint split_lines_from (cur s : string) : list string :=
  match s with
  | EmptyString => [cur]
  | String c r =>
      if Ascii.eqb c LF then cur :: split_lines_from EmptyString r
      else split_lines_from (cur ++ String c EmptyString) r
  end.

Definition split_lines (s : string) : list string :=
  split_lines_from EmptyString s.

(** [s[:n]] *)
Definition take (n : nat) (s : string) : string := substring 0 n s.

End PyText.

(** *** scripts/inference.py: [synthesize_from_standards] *)

Module Synthesis.

Definition synthesis_verbs : list string :=
  ["understand"; "demonstrate"; "apply"].

(** The test of the loop on a stripped line. *)
Definition is_standard_line (line : string) : bool :=
  (20 <? String.length line)%nat
  && Py.any_in synthesis_verbs (Py.lower line).

(** The dictionary appended for a line that passes the test. *)
Definition synthesized (url : option string) (idx : nat) (line : string)
  : Objective :=
  {| objective_index := idx;
     objective_text := line;
     evidence_excerpt := Some (PyText.take 200 line);
     evidence_url := url;
     is_inferred := true;
     confidence := 0.65;
     rationale := Some "Synthesized from state curriculum standards aligned with test";
     validation_status := "partial" |}.

(** The loop over [lines], from the value of [idx] reached. *)
Fixpoint synthesize_loop (url : option string) (idx : nat)
         (lines : list string) : list Objective :=
  match lines with
  | [] => []
  | raw :: rest =>
      let line := PyText.strip raw in
      if is_standard_line line
      then synthesized url idx line :: synthesize_loop url (S idx) rest
      else synthesize_loop url idx rest
  end.

(** [synthesize_from_standards(state_standards, test_info)] *)
Definition synthesize_from_standards (state_standards : string)
           (test_info : Inference.TestInfo) : list Objective :=
  synthesize_loop (Inference.official_source_url test_info) 0
                  (PyText.split_lines state_standards).

End Synthesis.

(** *** scripts/validation.py: tests, sets of objectives, domains *)

Module Structure.

(** The keys of [test_data] that [validate_test_structure] reads, each
    with [get]: [None] is the absent key or the value [None]. *)
Record TestFields := mkTestFields {
  test_name : option string;
  test_system : option string;
  official_source_url : option string;
  provider : option string
}.

Inductive StructureIssue : Type :=
| MissingField (field : string)
| NameTooShort
| UnrecognizedProvider (provider : string).

(** The message of each entry of [issues]. *)
Definition structure_issue_text (i : StructureIssue) : string :=
  match i with
  | MissingField field => "Missing required field: " ++ field
  | NameTooShort => "Test name too short"
  | UnrecognizedProvider p => "Unrecognized provider: " ++ p
  end.

Definition valid_providers : list string :=
  ["ETS"; "Pearson"; "State DOE"; "edTPA"; "NES"; "Unknown"].

(** [x in valid_providers] *)
Definition is_valid_provider (p : string) : bool :=
  existsb (String.eqb p) valid_providers.

Definition missing (field : string) (value : option string)
  : list StructureIssue :=
  if Py.truthy_opt value then [] else [MissingField field].

(** The list [issues] of [validate_test_structure]. *)
Definition structure_issues (test_data : TestFields) : list StructureIssue :=
  (missing "test_name" (test_name test_data) ++
   missing "test_system" (test_system test_data) ++
   missing "official_source_url" (official_source_url test_data) ++
   (if Py.truthy_opt (test_name test_data)
       && (String.length (Py.get_str (test_name test_data)) <? 3)%nat
    then [NameTooShort] else []) ++
   (if Py.truthy_opt (provider test_data)
       && negb (is_valid_provider (Py.get_str (provider test_data)))
    then [UnrecognizedProvider (Py.get_str (provider test_data))] else []))%list.

(** [validate_test_structure(test_data)] *)
Definition validate_test_structure (test_data : TestFields)
  : bool * list StructureIssue :=
  let issues := structure_issues test_data in
  (Nat.eqb (length issues) 0, issues).

(** The fields of a test of [main.py], as [validate_test_structure] would
    read them. *)
Definition fields_of (data : Orchestrator.TestData) : TestFields :=
  {| test_name := Some (Orchestrator.test_name data);
     test_system := Some (Orchestrator.test_system data);
     official_source_url := Orchestrator.official_source_url data;
     provider := Orchestrator.provider data |}.

(** The patterns of [_is_authoritative_domain]. *)
Definition authoritative_patterns : list string :=
  [".gov"; ".edu"; "ets.org"; "pearson.com"; "nesinc.com"; "edtpa.com";
   "act.org"; "state."; "doe."; "education."].

(** [_is_authoritative_domain(netloc)] *)
Definition is_authoritative_domain (netloc : string) : bool :=
  Py.any_in authoritative_patterns (Py.lower netloc).

(** The dictionary [metrics] of [validate_objectives_set]. *)
Record Metrics := mkMetrics {
  total_objectives : nat;
  valid_objectives : nat;
  issues_found : nat;
  avg_confidence : float;
  inferred_count : nat;
  verified_count : nat
}.

(** The state of the loop of [validate_objectives_set]: [valid_count],
    [issues_found], [inferred_count], [verified_count], [confidence_sum]. *)
Definition Tally : Type := (nat * nat * nat * nat * float)%type.

Definition tally_one (t : Tally) (obj : Objective) : Tally :=
  let '(valid, issues, inferred, verified, total) := t in
  let '(is_valid, found) := Validation.validate_objective obj in
  ((if is_valid then valid + 1 else valid)%nat,
   (if is_valid then issues else issues + length found)%nat,
   (if is_inferred obj then inferred + 1 else inferred)%nat,
   (if is_inferred obj then verified else verified + 1)%nat,
   PrimFloat.add total (Py.binary64 (confidence obj))).

(** [validate_objectives_set(objectives)] *)
Definition validate_objectives_set (objectives : list Objective) : Metrics :=
  match objectives with
  | [] => mkMetrics 0 0 0 0.0 0 0
  | _ :: _ =>
      let '(valid, issues, inferred, verified, total) :=
        fold_left tally_one objectives
                  (0%nat, 0%nat, 0%nat, 0%nat, 0.0%float) in
      mkMetrics (length objectives) valid issues
                (PrimFloat.div total (Py.float_of_len (length objectives)))
                inferred verified
  end.

End Structure.

(** *** scripts/discovery.py: objectives parsed from fetched content *)

Module Extraction.

(** The action verbs of [_looks_like_objective], fewer than those of the
    validation engine. *)
Definition action_verbs : list string :=
  [ "understand"; "demonstrate"; "apply"; "analyze"; "evaluate";
    "identify"; "explain"; "describe"; "compare"; "create";
    "develop"; "design"; "implement"; "use"; "integrate" ].

(** The characters of the class of the list-marker pattern that are code
    points below 256: a digit, or one of [.], [)], [-], [*].  The bullet
    U+2022 of the class is beyond the strings of this model. *)
Definition is_marker_char (c : ascii) : bool :=
  let n := N_of_ascii c in
  ((48 <=? n) && (n <=? 57) || (n =? 46) || (n =? 41) || (n =? 45) || (n =? 42))%N.

Fixpoint skip_markers (s : string) : string :=
  match s with
  | EmptyString => EmptyString
  | String c r => if is_marker_char c then skip_markers r else s
  end.

(** [bool(re.match(r'^[\d\.\)\-\*\u2022]+\s+', text))]: one marker character or
    more, then white space. *)
Definition has_marker (text : string) : bool :=
  match text with
  | EmptyString => false
  | String c r =>
      is_marker_char c &&
      match skip_markers r with
      | EmptyString => false
      | String d _ => Py.is_space d
      end
  end.

(** [_looks_like_objective(text)] *)
Definition looks_like_objective (text : string) : bool :=
  if (length (Py.split text) <? 6)%nat then false
  else Py.any_in action_verbs (Py.lower text) || has_marker text.

(** The dictionary appended for a line that looks like an objective; it
    has no key [rationale]. *)
Definition extracted (url : string) (index : nat) (line : string) : Objective :=
  {| objective_index := index;
     objective_text := line;
     evidence_excerpt := Some (PyText.take 200 line);
     evidence_url := Some url;
     is_inferred := false;
     confidence := 1.0;
     rationale := None;
     validation_status := "verified" |}.

(** The loop of [_parse_objectives_from_content], from the value of
    [index] reached. *)
Fixpoint parse_loop (url : string) (index : nat) (lines : list string)
  : list Objective :=
  match lines with
  | [] => []
  | raw :: rest =>
      let line := PyText.strip raw in
      if negb (Py.truthy line) || (String.length line <? 10)%nat then
        parse_loop url index rest
      else if looks_like_objective line then
        extracted url index line :: parse_loop url (S index) rest
      else parse_loop url index rest
  end.

(** [_parse_objectives_from_content(content, url, test_info, logger)] *)
Definition parse_objectives_from_content (content url : string)
  : list Objective :=
  parse_loop url 0 (PyText.split_lines content).

(** [extract_objectives(test_info, logger)]: [url] is
    [test_info.get('official_source_url', '')], and [web_fetch] is the
    function given to the engine, which returns the content (a string or
    [None]) or raises.  Without a URL nothing is fetched; an exception of
    the fetch is logged and leaves the list empty. *)
Definition extract_objectives (web_fetch : string -> Result (option string))
           (url : option string) : list Objective :=
  if negb (Py.truthy_opt url) then []
  else
    match web_fetch (Py.get_str url) with
    | Ok content =>
        if Py.truthy_opt content
        then parse_objectives_from_content (Py.get_str content) (Py.get_str url)
        else []
    | Raise _ => []
    end.

(** The patterns of [_is_authoritative_source]. *)
Definition authoritative_domains : list string :=
  [".gov"; ".edu"; "ets.org"; "pearson.com"; "nesinc.com"; "edtpa.com";
   "state."; "doe."; "education."].

(** [_is_authoritative_source(url)], from [urlparse(url).netloc] on. *)
Definition is_authoritative_netloc (netloc : string) : bool :=
  Py.any_in authoritative_domains (Py.lower netloc).

(** The dictionary [abbrevs] of [_get_state_abbrev]. *)
Definition abbrevs : list (string * string) :=
  [
    ("Alabama", "AL"); ("Alaska", "AK"); ("Arizona", "AZ"); ("Arkansas", "AR");
    ("California", "CA"); ("Colorado", "CO"); ("Connecticut", "CT"); ("Delaware", "DE");
    ("Florida", "FL"); ("Georgia", "GA"); ("Hawaii", "HI"); ("Idaho", "ID");
    ("Illinois", "IL"); ("Indiana", "IN"); ("Iowa", "IA"); ("Kansas", "KS");
    ("Kentucky", "KY"); ("Louisiana", "LA"); ("Maine", "ME"); ("Maryland", "MD");
    ("Massachusetts", "MA"); ("Michigan", "MI"); ("Minnesota", "MN"); ("Mississippi", "MS");
    ("Missouri", "MO"); ("Montana", "MT"); ("Nebraska", "NE"); ("Nevada", "NV");
    ("New Hampshire", "NH"); ("New Jersey", "NJ"); ("New Mexico", "NM"); ("New York", "NY");
    ("North Carolina", "NC"); ("North Dakota", "ND"); ("Ohio", "OH"); ("Oklahoma", "OK");
    ("Oregon", "OR"); ("Pennsylvania", "PA"); ("Rhode Island", "RI"); ("South Carolina", "SC");
    ("South Dakota", "SD"); ("Tennessee", "TN"); ("Texas", "TX"); ("Utah", "UT");
    ("Vermont", "VT"); ("Virginia", "VA"); ("Washington", "WA"); ("West Virginia", "WV");
    ("Wisconsin", "WI"); ("Wyoming", "WY")
  ].

Fixpoint lookup_abbrev (d : list (string * string)) (name : string)
  : option string :=
  match d with
  | [] => None
  | (k, v) :: r => if String.eqb name k then Some v else lookup_abbrev r name
  end.

(** [_get_state_abbrev(state_name)]; [upper] stands for [str.upper]. *)
Definition get_state_abbrev (upper : string -> string) (state_name : string)
  : string :=
  match lookup_abbrev abbrevs state_name with
  | Some abbrev => abbrev
  | None => upper (PyText.take 2 state_name)
  end.

(** The table [US_STATES] of [scripts/main.py]. *)
Definition US_STATES : list (string * string) :=
  [
    ("Alabama", "AL"); ("Alaska", "AK"); ("Arizona", "AZ"); ("Arkansas", "AR");
    ("California", "CA"); ("Colorado", "CO"); ("Connecticut", "CT"); ("Delaware", "DE");
    ("Florida", "FL"); ("Georgia", "GA"); ("Hawaii", "HI"); ("Idaho", "ID");
    ("Illinois", "IL"); ("Indiana", "IN"); ("Iowa", "IA"); ("Kansas", "KS");
    ("Kentucky", "KY"); ("Louisiana", "LA"); ("Maine", "ME"); ("Maryland", "MD");
    ("Massachusetts", "MA"); ("Michigan", "MI"); ("Minnesota", "MN"); ("Mississippi", "MS");
    ("Missouri", "MO"); ("Montana", "MT"); ("Nebraska", "NE"); ("Nevada", "NV");
    ("New Hampshire", "NH"); ("New Jersey", "NJ"); ("New Mexico", "NM"); ("New York", "NY");
    ("North Carolina", "NC"); ("North Dakota", "ND"); ("Ohio", "OH"); ("Oklahoma", "OK");
    ("Oregon", "OR"); ("Pennsylvania", "PA"); ("Rhode Island", "RI"); ("South Carolina", "SC");
    ("South Dakota", "SD"); ("Tennessee", "TN"); ("Texas", "TX"); ("Utah", "UT");
    ("Vermont", "VT"); ("Virginia", "VA"); ("Washington", "WA"); ("West Virginia", "WV");
    ("Wisconsin", "WI"); ("Wyoming", "WY")
  ].

End Extraction.

(** *** teacher_cert_pdf_validator: [validate_multiple] and [search] *)

Module PDFSearch.

(** One entry of [checked_urls]. *)
Record Checked := mkChecked {
  checked_url : string;
  valid : bool;
  reason : string
}.

(** The dictionary that [validate_multiple] returns. *)
Record Found := mkFound {
  found : bool;
  found_url : option string;
  checked_urls : list Checked
}.

(** The loop of [validate_multiple], from the list [checked_urls] built so
    far; each URL comes with what the outside world answers when it is
    validated. *)
Fixpoint validate_loop (urls : list (string * PDFValidator.Exchange))
         (checked : list Checked) : Found :=
  match urls with
  | [] => mkFound false None checked
  | (target, net) :: rest =>
      let '(is_valid, why) := PDFValidator.is_valid_pdf target net in
      let checked' := (checked ++ [mkChecked target is_valid why])%list in
      if is_valid then mkFound true (Some target) checked'
      else validate_loop rest checked'
  end.

(** [validate_multiple(urls)] *)
Definition validate_multiple (urls : list (string * PDFValidator.Exchange))
  : Found :=
  validate_loop urls [].





End PDFSearch.

(** *** scripts/database.py: [get_statistics] *)

Module Statistics.

Record Stats := mkStats {
  total_states : nat;
  total_tests : nat;
  total_objectives : nat;
  inferred_objectives : nat;
  verified_objectives : nat
}.

(** [get_statistics()]: the five [SELECT COUNT( * )]. *)
Definition get_statistics (db : Orchestrator.Database) : Stats :=
  {| total_states := length (Orchestrator.states db);
     total_tests := length (Orchestrator.tests db);
     total_objectives := length (Orchestrator.objectives db);
     inferred_objectives :=
       length (filter (fun r => is_inferred (Orchestrator.objective_data r))
                      (Orchestrator.objectives db));
     verified_objectives :=
       length (filter (fun r => negb (is_inferred (Orchestrator.objective_data r)))
                      (Orchestrator.objectives db)) |}.

End Statistics.

(** *** scripts/validation.py: [validate_source_url] *)

Module SourceCheck.

(** The exceptions that the three [except] clauses of
    [validate_source_url] tell apart; [message] is [str(e)]. *)
Inductive Failure : Type :=
| Timeout
| ConnectionError
| OtherException (message : string).

Inductive Outcome (A : Type) : Type :=
| Returns (a : A)
| Fails (e : Failure).

Arguments Returns {A} a.
Arguments Fails {A} e.

Definition on_failure (e : Failure) : bool * string :=
  match e with
  | Timeout => (false, "Request timeout")
  | ConnectionError => (false, "Connection failed")
  | OtherException message => (false, "Error: " ++ substring 0 50 message)
  end.

(** [validate_source_url(url)], given the result of [urlparse(url)] and
    the status code of [session.head(url, ...)]; [url] is [None] for the
    value [None]. *)
Definition validate_source_url (url : option string)
           (parsed : Outcome PDFValidator.Parsed) (head : Outcome Z)
  : bool * string :=
  if negb (Py.truthy_opt url) then (false, "No URL provided")
  else
    match parsed with
    | Fails e => on_failure e
    | Returns p =>
        if negb (Py.truthy (PDFValidator.scheme p))
           || negb (Py.truthy (PDFValidator.netloc p)) then
          (false, "Invalid URL format")
        else if negb (Structure.is_authoritative_domain (PDFValidator.netloc p)) then
          (false, "Non-authoritative domain: " ++ PDFValidator.netloc p)
        else
          match head with
          | Fails e => on_failure e
          | Returns status_code =>
              if (status_code =? 200)%Z then (true, "Valid and accessible")
              else if (status_code =? 404)%Z then (false, "URL not found (404)")
              else (false, "HTTP " ++ Py.str_int status_code)
          end
    end.

End SourceCheck.

(** *** Notions used to state the properties of these functions *)

Module Described.

(** The test that [_parse_objectives_from_content] makes on a stripped
    line: ten characters at least, and the look of an objective. *)
Definition is_objective_line (line : string) : bool :=
  (10 <=? String.length line)%nat && Extraction.looks_like_objective line.

(** The confidences of a list of objectives as floats, added to 0.0 one
    after the other from the first to the last. *)
Definition confidence_sum (objectives : list Objective) : float :=
  fold_left (fun total obj => PrimFloat.add total (Py.binary64 (confidence obj)))
            objectives 0.0%float.

(** Two states of a dictionary of an objective that differ at most under
    the keys ['confidence'] and ['rationale']. *)
Definition same_description (before after : Enhancement.Dict) : Prop :=
  Enhancement.objective_index after = Enhancement.objective_index before /\
  Enhancement.objective_text after = Enhancement.objective_text before /\
  Enhancement.evidence_excerpt after = Enhancement.evidence_excerpt before /\
  Enhancement.evidence_url after = Enhancement.evidence_url before /\
  Enhancement.is_inferred after = Enhancement.is_inferred before /\
  Enhancement.validation_status after = Enhancement.validation_status before.

(** The confidence of a dictionary is a number, and [1.0 < confidence]
    does not hold. *)
Definition not_above_one (obj : Enhancement.Dict) : Prop :=
  exists score,
    Enhancement.confidence obj = Enhancement.Number score /\
    PrimFloat.ltb 1.0 score = false.

(** The number of issues that [validate_objective] finds in a list of
    objectives, all together. *)
Definition issue_total (objectives : list Objective) : nat :=
  list_sum (map (fun obj => length (snd (Validation.validate_objective obj)))
                objectives).



(** The verdict of [is_valid_pdf] on one URL of the list given to
    [validate_multiple]. *)
Definition verdict (entry : string * PDFValidator.Exchange) : bool :=
  fst (PDFValidator.is_valid_pdf (fst entry) (snd entry)).

(** The entry of [checked_urls] for one URL. *)
Definition check (entry : string * PDFValidator.Exchange) : PDFSearch.Checked :=
  PDFSearch.mkChecked (fst entry)
    (fst (PDFValidator.is_valid_pdf (fst entry) (snd entry)))
    (snd (PDFValidator.is_valid_pdf (fst entry) (snd entry))).

(** The database after an insertion into [states] that was ignored, or
    after an upsert into [tests] that has updated: an id of the sequence
    of the table is used up, and the rows and the last row id are as they
    were. *)
Definition state_id_used_up (db : Orchestrator.Database) : Orchestrator.Database :=
  Orchestrator.mkDatabase
    (Orchestrator.states db) (Orchestrator.tests db)
    (Orchestrator.objectives db) (Orchestrator.audits db)
    (Orchestrator.lastrowid db)
    (S (Orchestrator.state_seq db)) (Orchestrator.test_seq db).

(** The objectives that a run in demonstration mode stores for one
    state: those of its three sample tests that pass the gate, test by
    test. *)
Definition unit_objectives (unit : string * string) : list Objective :=
  flat_map Claimed.accepted
           (Orchestrator.generate_sample_tests (fst unit) (snd unit)).

(** The state of a batch in demonstration mode on a fresh database, when
    nothing around it fails, after the states [units] have been processed:
    what the four tables and the two sequences hold and what the totals
    say. *)
Record batch_state (units : list (string * string))
       (db : Orchestrator.Database) (totals : Orchestrator.Totals) : Prop := {
  states_stored :
    map (fun r => (Orchestrator.state_name r, Orchestrator.state_abbrev r))
        (Orchestrator.states db) = units;
  states_numbered : Orchestrator.state_seq db = length units;
  tests_stored : length (Orchestrator.tests db) = (3 * length units)%nat;
  tests_numbered : Orchestrator.test_seq db = (3 * length units)%nat;
  tests_of_known_states :
    Forall (fun r => (Orchestrator.test_state_id r <= length units)%nat)
           (Orchestrator.tests db);
  objectives_stored :
    map Orchestrator.objective_data (Orchestrator.objectives db)
    = flat_map unit_objectives units;
  audits_in_order : Claimed.audit_ids_in_order db;
  audits_stored : length (Orchestrator.audits db) = length units;
  audits_complete :
    Forall (fun row => Orchestrator.status row = "complete" /\
                       Orchestrator.tests_found (Orchestrator.audit_counts row) = 3%nat)
           (Orchestrator.audits db);
  states_counted : Orchestrator.states_processed totals = length units;
  tests_counted : Orchestrator.total_tests totals = (3 * length units)%nat;
  objectives_counted :
    Orchestrator.total_objectives totals = length (flat_map unit_objectives units);
  inferred_counted :
    Orchestrator.total_inferred totals
    = length (filter is_inferred (flat_map unit_objectives units));
  verified_counted :
    Orchestrator.total_verified totals
    = length (filter (fun obj => negb (is_inferred obj))
                     (flat_map unit_objectives units))
}.

End Described.

(** *** Databases for concrete runs *)

Module Examples.

(** The database after the state Alabama has been processed once in
    demonstration mode, and after a second run for Alabama has obtained
    its state record and has started its audit. *)
Definition alabama_done : Orchestrator.Database :=
  snd (Orchestrator.process_state Orchestrator.no_fault "Alabama" "AL"
         Orchestrator.empty_database).

Definition alabama_reopened : Orchestrator.Database :=
  snd (Orchestrator.start_audit Orchestrator.no_fault 1
         (snd (Orchestrator.upsert_state Orchestrator.no_fault "Alabama" "AL"
                 alabama_done))).

(** The first sample test, which has the code 5001. *)
Definition praxis_5001 : Orchestrator.TestData :=
  hd (Orchestrator.mkTestData "" "" None None None None None None)
     (Orchestrator.generate_sample_tests "Alabama" "AL").

End Examples.

(* ================================================================== *)
(** * Properties *)

Local Open Scope Q_scope.

(** ** Lists and strings *)

Lemma filter_keeps_all {A} (f : A -> bool) (l : list A) :
  Forall (fun x => f x = true) l -> filter f l = l.
Proof.
  induction 1 as [| x l Hx _ IH]; simpl.
  - reflexivity.
  - rewrite Hx, IH. reflexivity.
Qed.

Lemma filter_drops_all {A} (f : A -> bool) (l : list A) :
  Forall (fun x => f x = false) l -> filter f l = [].
Proof.
  induction 1 as [| x l Hx _ IH]; simpl.
  - reflexivity.
  - rewrite Hx. exact IH.
Qed.

Lemma truthy_false_iff (s : string) : Py.truthy s = false <-> s = ""%string.
Proof.
  destruct s; simpl; split; intro H; try reflexivity; discriminate.
Qed.

(** ** Inference: the candidates and the threshold *)

Lemma enumerate_from_nonempty {A} (i : nat) (l : list A) :
  l <> [] -> Py.enumerate_from i l <> [].
Proof.
  destruct l; simpl; [congruence | discriminate].
Qed.

Lemma emitted_nonempty url conf why (l : list string) :
  l <> [] -> map (Inference.emit url conf why) (Py.enumerate l) <> [].
Proof.
  intros Hl. destruct l as [| x r]; [congruence |].
  simpl. discriminate.
Qed.

Lemma subject_template_nonempty (s : string) (l : list string) :
  Inference.lookup Inference.subject_templates s = Some l -> l <> [].
Proof.
  unfold Inference.subject_templates. simpl.
  repeat match goal with
         | |- context [String.eqb s ?k] =>
             destruct (String.eqb s k);
             [ intros H; injection H as <-; discriminate | ]
         end.
  discriminate.
Qed.

Lemma generic_objectives_nonempty (system name : string) :
  Inference.get_generic_test_objectives system name <> [].
Proof.
  unfold Inference.get_generic_test_objectives.
  destruct (Py.contains "praxis" (Py.lower system)); [discriminate |].
  destruct (Py.contains "nes" (Py.lower system)); discriminate.
Qed.

Lemma emitted_confidence url conf why (l : list (nat * string)) :
  Forall (fun obj => confidence obj = conf) (map (Inference.emit url conf why) l).
Proof.
  induction l; simpl; constructor; auto.
Qed.

(** Every strategy emits its items with a confidence of at least 0.40. *)
Lemma candidates_confidence_floor (test_info : Inference.TestInfo) :
  Forall (fun obj => 0.40 <= confidence obj)
         (Inference.infer_candidates test_info).
Proof.
  unfold Inference.infer_candidates.
  destruct (Inference.select_strategy test_info);
    (eapply Forall_impl; [| apply emitted_confidence]);
    intros obj ->; unfold Qle; simpl; lia.
Qed.

(** The four conditions under which no strategy but the last applies
    select the minimal fallback. *)
Lemma fallback_selected (test_info : Inference.TestInfo) :
  Inference.lookup Inference.subject_templates
    (Py.get_str (Inference.subject_area test_info)) = None ->
  Py.contains "elementary"
    (Py.lower (Py.get_str (Inference.test_name test_info))) = false ->
  Py.contains "general"
    (Py.lower (Py.get_str (Inference.test_name test_info))) = false ->
  Py.get_str (Inference.test_system test_info) = ""%string ->
  Inference.select_strategy test_info = Inference.MinimalFallback.
Proof.
  intros Hsubject Helem Hgen Hsys.
  unfold Inference.select_strategy.
  rewrite Hsubject, Helem, Hgen, Hsys.
  destruct (Py.truthy (Py.get_str (Inference.subject_area test_info)));
    reflexivity.
Qed.

(** Each of the four strategies emits at least one item. *)
Lemma candidates_nonempty (test_info : Inference.TestInfo) :
  Inference.infer_candidates test_info <> [].
Proof.
  unfold Inference.infer_candidates.
  destruct (Inference.select_strategy test_info) as [s l | | sys |] eqn:Hsel.
  - apply emitted_nonempty.
    unfold Inference.select_strategy in Hsel.
    destruct (Py.truthy (Py.get_str (Inference.subject_area test_info))).
    + destruct (Inference.lookup Inference.subject_templates
                  (Py.get_str (Inference.subject_area test_info))) eqn:Hl.
      * injection Hsel as _ <-. eapply subject_template_nonempty; eauto.
      * repeat match type of Hsel with
               | (if ?b then _ else _) = _ => destruct b
               end; discriminate.
    + repeat match type of Hsel with
             | (if ?b then _ else _) = _ => destruct b
             end; discriminate.
  - discriminate.
  - apply emitted_nonempty, generic_objectives_nonempty.
  - discriminate.
Qed.

(** C1. Whatever [test_info] is, the list that [infer_objectives] has built
    when it reaches the threshold filter is not empty.  When the subject is
    not a key of the templates, the test name contains neither
    "elementary" nor "general" and there is no test system, that list is
    the first five InTASC statements, in order, indexed from 0, each with
    confidence 0.40, and a threshold of 0.4 keeps all of them. *)
Theorem infer_candidates_never_empty :
  forall test_info : Inference.TestInfo,
    Inference.infer_candidates test_info <> [] /\
    (Inference.lookup Inference.subject_templates
       (Py.get_str (Inference.subject_area test_info)) = None ->
     Py.contains "elementary"
       (Py.lower (Py.get_str (Inference.test_name test_info))) = false ->
     Py.contains "general"
       (Py.lower (Py.get_str (Inference.test_name test_info))) = false ->
     Py.get_str (Inference.test_system test_info) = ""%string ->
     map objective_text (Inference.infer_candidates test_info)
       = firstn 5 Inference.intasc_standards /\
     map objective_index (Inference.infer_candidates test_info)
       = [0; 1; 2; 3; 4]%nat /\
     Forall (fun obj => confidence obj = 0.40 /\ is_inferred obj = true)
            (Inference.infer_candidates test_info) /\
     Inference.infer_objectives test_info 0.4
       = Inference.infer_candidates test_info).
Proof.
  intros test_info. split.
  - apply candidates_nonempty.
  - intros Hsubject Helem Hgen Hsys.
    unfold Inference.infer_objectives, Inference.infer_candidates.
    rewrite (fallback_selected test_info Hsubject Helem Hgen Hsys).
    repeat split; try reflexivity.
    repeat constructor.
Qed.

(** C4. With the default threshold 0.5 the public interface can return the
    empty list: it does so for every [test_info] that reaches the minimal
    fallback, [test_info = {}] among them.  A threshold guarantees a
    non-empty result for every [test_info] exactly when it is at most 0.40. *)
Theorem default_threshold_drops_fallback :
  (forall test_info : Inference.TestInfo,
     Inference.lookup Inference.subject_templates
       (Py.get_str (Inference.subject_area test_info)) = None ->
     Py.contains "elementary"
       (Py.lower (Py.get_str (Inference.test_name test_info))) = false ->
     Py.contains "general"
       (Py.lower (Py.get_str (Inference.test_name test_info))) = false ->
     Py.get_str (Inference.test_system test_info) = ""%string ->
     Inference.infer_objectives test_info
       Inference.default_confidence_threshold = []) /\
  Inference.infer_objectives Inference.empty_info
    Inference.default_confidence_threshold = [] /\
  (forall threshold : Q,
     (forall test_info, Inference.infer_objectives test_info threshold <> [])
     <-> threshold <= 0.40).
Proof.
  split; [| split].
  - intros test_info Hsubject Helem Hgen Hsys.
    unfold Inference.infer_objectives, Inference.infer_candidates.
    rewrite (fallback_selected test_info Hsubject Helem Hgen Hsys).
    reflexivity.
  - reflexivity.
  - intros threshold. split.
    + intros Hall. specialize (Hall Inference.empty_info).
      destruct (Qlt_le_dec 0.40 threshold) as [Hlt | Hle]; [| exact Hle].
      exfalso. apply Hall.
      unfold Inference.infer_objectives. apply filter_drops_all.
      change (Inference.infer_candidates Inference.empty_info)
        with (map (Inference.emit (Some Inference.intasc_url) 0.40
                     "Minimal inference based on general teaching standards; official objectives not found")
                  (Py.enumerate (firstn 5 Inference.intasc_standards))).
      eapply Forall_impl; [| apply emitted_confidence].
      intros obj ->. unfold Py.ge.
      destruct (Qle_bool threshold 0.40) eqn:Hb; [| reflexivity].
      apply Qle_bool_iff in Hb. exfalso.
      exact (Qlt_not_le _ _ Hlt Hb).
    + intros Hle test_info.
      unfold Inference.infer_objectives.
      rewrite filter_keeps_all.
      * apply candidates_nonempty.
      * eapply Forall_impl; [| apply candidates_confidence_floor].
        intros obj Hobj. unfold Py.ge. apply Qle_bool_iff.
        eapply Qle_trans; eauto.
Qed.

(** C5. For a [test_info] whose subject area is "Mathematics", whatever
    its other keys hold, [infer_objectives] with threshold 0.4 returns the
    nine statements of the Mathematics template in their order, indexed
    0..8, each inferred with confidence 0.75, status "inferred", no
    evidence, and the rationale that names the Mathematics frameworks. *)
Theorem mathematics_template_returned :
  forall test_info : Inference.TestInfo,
    Inference.subject_area test_info = Some "Mathematics"%string ->
    map objective_text (Inference.infer_objectives test_info 0.4)
      = Inference.mathematics_template /\
    map objective_index (Inference.infer_objectives test_info 0.4)
      = seq 0 9 /\
    Forall (fun obj =>
              confidence obj = 0.75 /\
              is_inferred obj = true /\
              validation_status obj = "inferred"%string /\
              rationale obj =
                Some "Inferred from standard Mathematics teacher certification competency frameworks"%string /\
              evidence_url obj = None /\
              evidence_excerpt obj = None)
           (Inference.infer_objectives test_info 0.4).
Proof.
  intros test_info Hsubject.
  unfold Inference.infer_objectives, Inference.infer_candidates,
    Inference.select_strategy.
  rewrite Hsubject. simpl.
  repeat split; try reflexivity.
  repeat constructor.
Qed.

Lemma mathematics_template_returned_witness :
  Inference.subject_area
    (Inference.mkTestInfo (Some "Mathematics: Content Knowledge"%string)
       (Some "Mathematics"%string) (Some "Praxis"%string) None)
    = Some "Mathematics"%string /\
  map objective_text
    (Inference.infer_objectives
       (Inference.mkTestInfo (Some "Mathematics: Content Knowledge"%string)
          (Some "Mathematics"%string) (Some "Praxis"%string) None) 0.4)
    = Inference.mathematics_template.
Proof.
  split.
  - reflexivity.
  - apply (mathematics_template_returned
             (Inference.mkTestInfo (Some "Mathematics: Content Knowledge"%string)
                (Some "Mathematics"%string) (Some "Praxis"%string) None)).
    reflexivity.
Defined.

(** ** Inference: [enhance_confidence] *)

(** The product of two floats does not depend on their order. *)
Lemma SFmul_comm (prec emax : Z) (x y : spec_float) :
  SFmul prec emax x y = SFmul prec emax y x.
Proof.
  unfold SFmul.
  destruct x as [sx | sx | | sx mx ex], y as [sy | sy | | sy my ey];
    try reflexivity; try (rewrite xorb_comm; reflexivity).
  rewrite xorb_comm, Pos.mul_comm, Z.add_comm. reflexivity.
Qed.

Lemma float_mul_comm (x y : float) : PrimFloat.mul x y = PrimFloat.mul y x.
Proof.
  apply Prim2SF_inj. rewrite !mul_spec. unfold SF64mul. apply SFmul_comm.
Qed.

(** The boost of the code is the boost of the specification. *)
Lemma boost_is_claimed (urls : list string) :
  Enhancement.boost urls = Claimed.boost urls.
Proof.
  unfold Enhancement.boost, Claimed.boost.
  rewrite float_mul_comm. reflexivity.
Qed.

(** What [min(x, 1.0)] returns is not above 1.0. *)
Lemma clamped_not_above_one (x : float) :
  PrimFloat.ltb 1.0 (Py.min x 1.0) = false.
Proof.
  unfold Py.min. destruct (PrimFloat.ltb 1.0 x) eqn:Hx; [reflexivity | exact Hx].
Qed.

Lemma write_same (store : Enhancement.Store) (ref : Enhancement.Ref)
      (dict : Enhancement.Dict) :
  Enhancement.write store ref dict ref = dict.
Proof.
  unfold Enhancement.write. rewrite Nat.eqb_refl. reflexivity.
Qed.

Lemma write_other (store : Enhancement.Store) (ref other : Enhancement.Ref)
      (dict : Enhancement.Dict) :
  other <> ref -> Enhancement.write store ref dict other = store other.
Proof.
  intros Hne. unfold Enhancement.write.
  destruct (Nat.eqb_spec other ref) as [E | _]; [contradiction | reflexivity].
Qed.

(** One pass of the loop body writes to the dictionary of its item only. *)
Lemma enhance_one_elsewhere (urls : list string)
      (obj other : Enhancement.Ref) (store : Enhancement.Store) :
  other <> obj ->
  snd (Enhancement.enhance_one urls obj store) other = store other.
Proof.
  intros Hne. unfold Enhancement.enhance_one.
  destruct (Enhancement.is_inferred (store obj) && negb (Nat.eqb (length urls) 0));
    [| reflexivity].
  destruct (Enhancement.confidence (store obj)) as [| | old]; try reflexivity.
  cbv zeta. rewrite write_same. cbn [Enhancement.rationale Enhancement.set_confidence].
  destruct (Enhancement.rationale (store obj)) as [| | why]; cbn [snd];
    rewrite ?write_other by exact Hne; reflexivity.
Qed.

(** Without a supporting URL, and for an objective that is not inferred,
    the loop body does nothing. *)
Lemma enhance_one_skips (urls : list string) (obj : Enhancement.Ref)
      (store : Enhancement.Store) :
  urls = [] \/ Enhancement.is_inferred (store obj) = false ->
  Enhancement.enhance_one urls obj store = (Ok tt, store).
Proof.
  intros [-> | Hinf]; unfold Enhancement.enhance_one.
  - cbn [length Nat.eqb negb]. rewrite andb_false_r. reflexivity.
  - rewrite Hinf. reflexivity.
Qed.

(** With evidence at hand, the dictionary of an inferred objective that has
    a score and a rationale is updated as the specification says. *)
Lemma enhance_one_inferred (urls : list string) (obj : Enhancement.Ref)
      (store : Enhancement.Store) :
  urls <> [] ->
  Enhancement.is_inferred (store obj) = true ->
  Claimed.enhanceable (store obj) ->
  exists after,
    Enhancement.enhance_one urls obj store = (Ok tt, after) /\
    Claimed.enhanced urls (store obj) (after obj).
Proof.
  intros Hurls Hinf Hable.
  destruct (Hable Hinf) as [[old Hold] [why Hwhy]].
  unfold Enhancement.enhance_one. rewrite Hinf, Hold.
  destruct urls as [| u urls']; [congruence |].
  cbn [length Nat.eqb negb andb]. cbv zeta.
  rewrite write_same. cbn [Enhancement.rationale Enhancement.set_confidence].
  rewrite Hwhy.
  eexists. split; [reflexivity |].
  rewrite write_same. unfold Claimed.enhanced. rewrite Hinf.
  cbn [Enhancement.confidence Enhancement.rationale Enhancement.set_rationale
       Enhancement.objective_index Enhancement.objective_text
       Enhancement.evidence_excerpt Enhancement.evidence_url
       Enhancement.is_inferred Enhancement.validation_status].
  split.
  { exists old. split; [exact Hold |]. rewrite boost_is_claimed. reflexivity. }
  split.
  { exists why. split; [exact Hwhy | reflexivity]. }
  repeat split; try reflexivity. exact Hinf.
Qed.

(** Either way the loop body returns for a dictionary that can be
    enhanced. *)
Lemma enhance_one_enhances (urls : list string) (obj : Enhancement.Ref)
      (store : Enhancement.Store) :
  urls <> [] ->
  Claimed.enhanceable (store obj) ->
  exists after,
    Enhancement.enhance_one urls obj store = (Ok tt, after) /\
    Claimed.enhanced urls (store obj) (after obj).
Proof.
  intros Hurls Hable.
  destruct (Enhancement.is_inferred (store obj)) eqn:Hinf.
  - apply enhance_one_inferred; assumption.
  - exists store. split.
    + apply enhance_one_skips. right. exact Hinf.
    + unfold Claimed.enhanced. rewrite Hinf. reflexivity.
Qed.

Lemma enhance_loop_without_evidence (objectives : list Enhancement.Ref)
      (store : Enhancement.Store) :
  Enhancement.enhance_loop objectives [] store = (Ok tt, store).
Proof.
  induction objectives as [| obj rest IH]; [reflexivity |].
  cbn [Enhancement.enhance_loop].
  rewrite enhance_one_skips by (left; reflexivity). exact IH.
Qed.

(** The loop writes to the dictionaries of its list only. *)
Lemma enhance_loop_elsewhere (urls : list string) (other : Enhancement.Ref) :
  forall (objectives : list Enhancement.Ref) (store : Enhancement.Store),
    ~ In other objectives ->
    snd (Enhancement.enhance_loop objectives urls store) other = store other.
Proof.
  induction objectives as [| obj rest IH]; intros store Hout; [reflexivity |].
  cbn [Enhancement.enhance_loop].
  assert (Hone := @enhance_one_elsewhere urls obj other store).
  destruct (Enhancement.enhance_one urls obj store) as [[[] | e] store1];
    cbn [snd] in *.
  - rewrite IH by (intros Hin; apply Hout; right; exact Hin).
    apply Hone. intros ->. apply Hout. left. reflexivity.
  - apply Hone. intros ->. apply Hout. left. reflexivity.
Qed.

(** The loop over a list that holds no dictionary twice. *)
Lemma enhance_loop_distinct (urls : list string) :
  urls <> [] ->
  forall (objectives : list Enhancement.Ref) (store : Enhancement.Store),
    NoDup objectives ->
    Forall (fun obj => Claimed.enhanceable (store obj)) objectives ->
    exists after,
      Enhancement.enhance_loop objectives urls store = (Ok tt, after) /\
      (forall obj, In obj objectives ->
                   Claimed.enhanced urls (store obj) (after obj)).
Proof.
  intros Hurls.
  induction objectives as [| obj rest IH]; intros store Hdistinct Hable.
  - exists store. split; [reflexivity |]. intros obj [].
  - inversion Hdistinct as [| ? ? Hfresh Hrest]; subst.
    inversion Hable as [| ? ? Hfirst Hothers]; subst.
    destruct (enhance_one_enhances obj store Hurls Hfirst)
      as [store1 [Hone Hclaim]].
    assert (Hsame : forall other, other <> obj -> store1 other = store other).
    { intros other Hne.
      rewrite <- (@enhance_one_elsewhere urls obj other store Hne).
      rewrite Hone. reflexivity. }
    destruct (IH store1 Hrest) as [after [Hloop Hall]].
    { apply Forall_forall. intros other Hin.
      rewrite Hsame by (intros ->; contradiction).
      rewrite Forall_forall in Hothers. apply Hothers. exact Hin. }
    exists after. split.
    + cbn [Enhancement.enhance_loop]. rewrite Hone. exact Hloop.
    + intros other [<- | Hin].
      * assert (Hkeep := @enhance_loop_elsewhere urls obj rest store1 Hfresh).
        rewrite Hloop in Hkeep. cbn [snd] in Hkeep. rewrite Hkeep. exact Hclaim.
      * rewrite <- (Hsame other) by (intros ->; contradiction).
        apply Hall. exact Hin.
Qed.

(** The score that the specification gives to an inferred objective is
    not above 1.0. *)
Lemma enhanced_not_above_one (urls : list string)
      (before after : Enhancement.Dict) (score : float) :
  Claimed.enhanced urls before after ->
  Enhancement.is_inferred before = true ->
  Enhancement.confidence after = Enhancement.Number score ->
  PrimFloat.ltb 1.0 score = false.
Proof.
  unfold Claimed.enhanced. intros Hclaim Hinf Hscore. rewrite Hinf in Hclaim.
  destruct Hclaim as [[old [_ Hafter]] _].
  rewrite Hafter in Hscore. injection Hscore as <-.
  apply clamped_not_above_one.
Qed.

(** C6, as the specification states it, fails in three ways.  When no
    supporting URL is given, the guard [and supporting_evidence] skips the
    update, so the rationale of an inferred objective gets no note.  When
    the list holds a dictionary twice, the dictionary is updated twice: a
    confidence of 0.4 becomes 0.6 with one supporting URL, not 0.5.  When
    an inferred objective has no rationale, the call raises, after it has
    written the new confidence. *)
Lemma enhance_confidence_without_evidence_counterexample :
  (~ exists after,
       Enhancement.enhance_confidence [0%nat] [] Scenarios.objects
       = (Ok [0%nat], after) /\
       Claimed.enhanced [] (Scenarios.objects 0%nat) (after 0%nat)) /\
  (let run := Enhancement.enhance_confidence
                [0%nat; 0%nat] ["https://a.gov/1"] Scenarios.objects in
   fst run = Ok [0%nat; 0%nat] /\
   Enhancement.confidence (snd run 0%nat) = Enhancement.Number 0.6 /\
   Py.min (PrimFloat.add 0.4 (Claimed.boost ["https://a.gov/1"])) 1.0
   = 0.5%float /\
   ~ Claimed.enhanced ["https://a.gov/1"]
       (Scenarios.objects 0%nat) (snd run 0%nat)) /\
  (let run := Enhancement.enhance_confidence
                [2%nat] ["https://a.gov/1"] Scenarios.objects in
   fst run = Raise "'rationale'" /\
   Enhancement.confidence (Scenarios.objects 2%nat) = Enhancement.Number 0.75 /\
   Enhancement.confidence (snd run 2%nat) = Enhancement.Number 0.85).
Proof.
  split; [| split].
  - intros [after [Hrun Hclaim]].
    unfold Enhancement.enhance_confidence in Hrun.
    rewrite enhance_loop_without_evidence in Hrun.
    injection Hrun as <-.
    unfold Claimed.enhanced in Hclaim. cbn in Hclaim.
    destruct Hclaim as [_ [[why [Hbefore Hafter]] _]].
    injection Hbefore as <-.
    vm_compute in Hafter. discriminate Hafter.
  - cbv zeta. split; [vm_compute; reflexivity |].
    split; [vm_compute; reflexivity |].
    split; [vm_compute; reflexivity |].
    intros Hclaim. unfold Claimed.enhanced in Hclaim.
    cbn [Scenarios.objects Enhancement.is_inferred] in Hclaim.
    destruct Hclaim as [_ [[why [Hbefore Hafter]] _]].
    cbn [Enhancement.rationale] in Hbefore. injection Hbefore as <-.
    vm_compute in Hafter. discriminate Hafter.
  - cbv zeta. repeat split; vm_compute; reflexivity.
Qed.

(** C6, amended.  Without a supporting URL [enhance_confidence] returns
    its list and changes nothing.  With at least one, when the list holds
    no dictionary twice and every inferred objective of it has a number as
    its confidence and a string as its rationale, [enhance_confidence]
    returns its list, in which each inferred objective has its confidence
    set to [min(old + min(0.1 * count, 0.3), 1.0)], computed in floats as
    Python does, which is not above 1.0, and the note appended to its
    rationale; each other objective of the list is as it was, and so is
    every dictionary outside the list. *)
Theorem enhance_confidence_with_evidence :
  forall (objectives : list Enhancement.Ref) (supporting_urls : list string)
         (store : Enhancement.Store),
    (supporting_urls = [] ->
     Enhancement.enhance_confidence objectives supporting_urls store
     = (Ok objectives, store)) /\
    (supporting_urls <> [] ->
     NoDup objectives ->
     Forall (fun obj => Claimed.enhanceable (store obj)) objectives ->
     exists after,
       Enhancement.enhance_confidence objectives supporting_urls store
       = (Ok objectives, after) /\
       (forall obj, In obj objectives ->
          Claimed.enhanced supporting_urls (store obj) (after obj)) /\
       (forall obj score, In obj objectives ->
          Enhancement.is_inferred (store obj) = true ->
          Enhancement.confidence (after obj) = Enhancement.Number score ->
          PrimFloat.ltb 1.0 score = false) /\
       (forall other, ~ In other objectives -> after other = store other)).
Proof.
  intros objectives urls store. split.
  - intros ->. unfold Enhancement.enhance_confidence.
    rewrite enhance_loop_without_evidence. reflexivity.
  - intros Hurls Hdistinct Hable.
    destruct (@enhance_loop_distinct urls Hurls objectives store Hdistinct Hable)
      as [after [Hloop Hall]].
    exists after. split; [| split; [| split]].
    + unfold Enhancement.enhance_confidence. rewrite Hloop. reflexivity.
    + exact Hall.
    + intros obj score Hin Hinf Hscore.
      exact (@enhanced_not_above_one urls _ _ score (Hall obj Hin) Hinf Hscore).
    + intros other Hout.
      assert (Hkeep := @enhance_loop_elsewhere urls other objectives store Hout).
      rewrite Hloop in Hkeep. exact Hkeep.
Qed.

Lemma enhance_confidence_with_evidence_witness :
  Scenarios.four_urls <> [] /\
  NoDup [0%nat; 1%nat] /\
  Forall (fun obj => Claimed.enhanceable (Scenarios.objects obj))
         [0%nat; 1%nat] /\
  (exists after,
     Enhancement.enhance_confidence [0%nat; 1%nat] Scenarios.four_urls
                                    Scenarios.objects
     = (Ok [0%nat; 1%nat], after) /\
     Claimed.enhanced Scenarios.four_urls
                      (Scenarios.objects 0%nat) (after 0%nat) /\
     Enhancement.confidence (after 0%nat) = Enhancement.Number 0.7 /\
     Enhancement.rationale (after 0%nat)
     = Str "Minimal inference based on general teaching standards; official objectives not found | Supported by 4 additional source(s)" /\
     after 1%nat = Scenarios.objects 1%nat /\
     after 2%nat = Scenarios.objects 2%nat).
Proof.
  assert (Hurls : Scenarios.four_urls <> []) by discriminate.
  assert (Hdistinct : NoDup [0%nat; 1%nat]).
  { constructor; [intros [H | []]; discriminate H |].
    constructor; [intros [] | constructor]. }
  assert (Hable : Forall (fun obj => Claimed.enhanceable (Scenarios.objects obj))
                         [0%nat; 1%nat]).
  { constructor; [| constructor; [| constructor]].
    - intros _. split; eexists; reflexivity.
    - intros H. discriminate H. }
  split; [exact Hurls |]. split; [exact Hdistinct |]. split; [exact Hable |].
  destruct (proj2 (enhance_confidence_with_evidence
                     [0%nat; 1%nat] Scenarios.four_urls Scenarios.objects)
                  Hurls Hdistinct Hable)
    as [after [Hrun [Hall [_ Hout]]]].
  assert (Hafter : after = snd (Enhancement.enhance_confidence
                                  [0%nat; 1%nat] Scenarios.four_urls
                                  Scenarios.objects))
    by (rewrite Hrun; reflexivity).
  exists after. split; [exact Hrun |]. split; [| split; [| split; [| split]]].
  - apply Hall. left. reflexivity.
  - rewrite Hafter. vm_compute. reflexivity.
  - rewrite Hafter. vm_compute. reflexivity.
  - exact (Hall 1%nat (or_intror (or_introl eq_refl))).
  - apply Hout. intros [H | [H | []]]; discriminate H.
Defined.

(** ** Validation *)

Lemma length_zero_iff_nil {A} (l : list A) :
  Nat.eqb (length l) 0 = true <-> l = [].
Proof.
  destruct l; simpl; split; intro H; try reflexivity; discriminate.
Qed.

Lemma any_in_true_iff (patterns : list string) (text : string) :
  Py.any_in patterns text = true <->
  exists p, In p patterns /\ Py.contains p text = true.
Proof.
  unfold Py.any_in. apply existsb_exists.
Qed.



Lemma truthy_opt_iff (o : option string) :
  Py.truthy_opt o = true <-> exists s, o = Some s /\ s <> ""%string.
Proof.
  destruct o as [[| c s] |]; simpl; split.
  - discriminate.
  - intros [s [Hs Hne]]. injection Hs as <-. congruence.
  - intros _. eexists. split; [reflexivity | discriminate].
  - reflexivity.
  - discriminate.
  - intros [s [Hs _]]. discriminate.
Qed.



(** C8. [assign_validation_status] returns "verified" exactly for an
    objective that is not inferred and has an evidence URL, "partial"
    exactly for one that is not inferred and has none or is inferred with
    confidence at least 0.7, "inferred" exactly for one that is inferred
    with confidence below 0.7; it returns nothing else. *)
Theorem assign_validation_status_cases :
  forall objective : Objective,
    (Validation.assign_validation_status objective = "verified"%string <->
     is_inferred objective = false /\ Claimed.has_evidence_url objective) /\
    (Validation.assign_validation_status objective = "partial"%string <->
     (is_inferred objective = false /\ ~ Claimed.has_evidence_url objective) \/
     (is_inferred objective = true /\ 0.7 <= confidence objective)) /\
    (Validation.assign_validation_status objective = "inferred"%string <->
     is_inferred objective = true /\ confidence objective < 0.7) /\
    (Validation.assign_validation_status objective = "verified"%string \/
     Validation.assign_validation_status objective = "partial"%string \/
     Validation.assign_validation_status objective = "inferred"%string).
Proof.
  intros objective.
  unfold Validation.assign_validation_status, Claimed.has_evidence_url, Py.ge.
  pose proof (truthy_opt_iff (evidence_url objective)) as Hurl.
  destruct (is_inferred objective).
  - destruct (Qle_bool 0.7 (confidence objective)) eqn:Hc.
    + apply Qle_bool_iff in Hc.
      split; [| split; [| split]].
      * split; [intros E; discriminate E | intros [E _]; discriminate E].
      * split; [intros _; right; split; [reflexivity | exact Hc] | reflexivity].
      * split; [intros E; discriminate E |].
        intros [_ Hlt]. exfalso. exact (Qlt_not_le _ _ Hlt Hc).
      * right. left. reflexivity.
    + assert (Hlt : confidence objective < 0.7).
      { apply Qnot_le_lt. intros Hle. apply Qle_bool_iff in Hle.
        rewrite Hle in Hc. discriminate. }
      split; [| split; [| split]].
      * split; [intros E; discriminate E | intros [E _]; discriminate E].
      * split; [intros E; discriminate E |].
        intros [[E _] | [_ Hle]]; [discriminate E |].
        exfalso. exact (Qlt_not_le _ _ Hlt Hle).
      * split; [intros _; split; [reflexivity | exact Hlt] | reflexivity].
      * right. right. reflexivity.
  - destruct (Py.truthy_opt (evidence_url objective)) eqn:Ht.
    + assert (Hhas : exists u, evidence_url objective = Some u /\ u <> ""%string)
        by (apply Hurl; reflexivity).
      split; [| split; [| split]].
      * split; [intros _; split; [reflexivity | exact Hhas] | reflexivity].
      * split; [intros E; discriminate E |].
        intros [[_ Hno] | [E _]]; [contradiction | discriminate E].
      * split; [intros E; discriminate E | intros [E _]; discriminate E].
      * left. reflexivity.
    + assert (Hno : ~ exists u, evidence_url objective = Some u /\ u <> ""%string).
      { intros Hhas. apply Hurl in Hhas. discriminate. }
      split; [| split; [| split]].
      * split; [intros E; discriminate E | intros [_ Hhas]; contradiction].
      * split; [intros _; left; split; [reflexivity | exact Hno] | reflexivity].
      * split; [intros E; discriminate E | intros [E _]; discriminate E].
      * right. left. reflexivity.
Qed.

(** ** Discovery: de-duplication *)

Lemma value_eqb_eq (a b : option string) :
  Discovery.value_eqb a b = true <-> a = b.
Proof.
  destruct a as [x |], b as [y |]; simpl; split; intro H;
    try reflexivity; try discriminate.
  - apply String.eqb_eq in H. congruence.
  - injection H as ->. apply String.eqb_refl.
Qed.

Lemma key_eqb_eq (a b : Discovery.Key) :
  Discovery.key_eqb a b = true <-> a = b.
Proof.
  destruct a as [[a1 a2] a3], b as [[b1 b2] b3]. simpl.
  rewrite !andb_true_iff, !value_eqb_eq. split.
  - intros [[-> ->] ->]. reflexivity.
  - intros H. injection H as -> -> ->. auto.
Qed.

Lemma key_eqb_refl (a : Discovery.Key) : Discovery.key_eqb a a = true.
Proof.
  apply key_eqb_eq. reflexivity.
Qed.

Lemma key_eqb_neq (a b : Discovery.Key) :
  Discovery.key_eqb a b = false <-> a <> b.
Proof.
  split.
  - intros H E. apply key_eqb_eq in E. congruence.
  - intros H. destruct (Discovery.key_eqb a b) eqn:E; [| reflexivity].
    apply key_eqb_eq in E. contradiction.
Qed.

Lemma seen_mem_iff (key : Discovery.Key) (seen : list Discovery.Key) :
  Discovery.seen_mem key seen = true <-> In key seen.
Proof.
  unfold Discovery.seen_mem. rewrite existsb_exists. split.
  - intros [k [Hin Heq]]. apply key_eqb_eq in Heq. subst. exact Hin.
  - intros Hin. exists key. split; [exact Hin | apply key_eqb_refl].
Qed.

Lemma seen_mem_false_iff (key : Discovery.Key) (seen : list Discovery.Key) :
  Discovery.seen_mem key seen = false <-> ~ In key seen.
Proof.
  rewrite <- seen_mem_iff. destruct (Discovery.seen_mem key seen); split;
    congruence.
Qed.

(** The list [unique] only grows at its end: the loop started with some
    [unique] returns it followed by what the loop started with [[]] builds. *)
Lemma dedup_loop_unique tests :
  forall seen unique,
    Discovery.dedup_loop tests seen unique
    = (unique ++ Discovery.dedup_loop tests seen [])%list.
Proof.
  induction tests as [| test rest IH]; intros seen unique; simpl.
  - rewrite app_nil_r. reflexivity.
  - destruct (Discovery.seen_mem (Discovery.test_key test) seen).
    + apply IH.
    + rewrite IH. rewrite (IH _ [test]).
      rewrite <- app_assoc. reflexivity.
Qed.

Lemma dedup_loop_cons test rest seen :
  Discovery.dedup_loop (test :: rest) seen []
  = if Discovery.seen_mem (Discovery.test_key test) seen
    then Discovery.dedup_loop rest seen []
    else test :: Discovery.dedup_loop rest (Discovery.test_key test :: seen) [].
Proof.
  simpl. destruct (Discovery.seen_mem (Discovery.test_key test) seen).
  - reflexivity.
  - rewrite dedup_loop_unique. reflexivity.
Qed.

Lemma dedup_loop_in tests :
  forall seen test,
    In test (Discovery.dedup_loop tests seen []) ->
    In test tests /\ ~ In (Discovery.test_key test) seen.
Proof.
  induction tests as [| t rest IH]; intros seen test Hin.
  - destruct Hin.
  - rewrite dedup_loop_cons in Hin.
    destruct (Discovery.seen_mem (Discovery.test_key t) seen) eqn:Hmem.
    + destruct (IH _ _ Hin) as [H1 H2]. split; [right; exact H1 | exact H2].
    + destruct Hin as [<- | Hin].
      * split; [left; reflexivity | apply seen_mem_false_iff; exact Hmem].
      * destruct (IH _ _ Hin) as [H1 H2]. split; [right; exact H1 |].
        intros Hs. apply H2. right. exact Hs.
Qed.

Lemma dedup_loop_keys_nodup tests :
  forall seen,
    NoDup (map Discovery.test_key (Discovery.dedup_loop tests seen [])).
Proof.
  induction tests as [| t rest IH]; intros seen.
  - constructor.
  - rewrite dedup_loop_cons.
    destruct (Discovery.seen_mem (Discovery.test_key t) seen).
    + apply IH.
    + simpl. constructor; [| apply IH].
      intros Hin. apply in_map_iff in Hin as [u [Hkey Hu]].
      apply dedup_loop_in in Hu as [_ Hnot].
      apply Hnot. left. symmetry. exact Hkey.
Qed.

Lemma dedup_loop_subsequence tests :
  forall seen,
    Claimed.subsequence (Discovery.dedup_loop tests seen []) tests.
Proof.
  induction tests as [| t rest IH]; intros seen.
  - constructor.
  - rewrite dedup_loop_cons.
    destruct (Discovery.seen_mem (Discovery.test_key t) seen).
    + apply Claimed.subsequence_skip. apply IH.
    + apply Claimed.subsequence_keep. apply IH.
Qed.

Lemma dedup_loop_first tests :
  forall seen key,
    ~ In key seen ->
    Claimed.first_with_key key (Discovery.dedup_loop tests seen [])
    = Claimed.first_with_key key tests.
Proof.
  unfold Claimed.first_with_key.
  induction tests as [| t rest IH]; intros seen key Hnot.
  - reflexivity.
  - rewrite dedup_loop_cons.
    destruct (Discovery.seen_mem (Discovery.test_key t) seen) eqn:Hmem.
    + apply seen_mem_iff in Hmem. cbn [find].
      assert (Hne : Discovery.key_eqb (Discovery.test_key t) key = false).
      { apply key_eqb_neq. intros E. apply Hnot. rewrite <- E. exact Hmem. }
      rewrite Hne. apply IH. exact Hnot.
    + cbn [find].
      destruct (Discovery.key_eqb (Discovery.test_key t) key) eqn:Hk.
      * reflexivity.
      * apply IH. intros [E | Hs]; [| exact (Hnot Hs)].
        apply key_eqb_neq in Hk. contradiction.
Qed.

(** A list whose keys are pairwise distinct and unseen is left as it is. *)
Lemma dedup_loop_fixed tests :
  forall seen,
    NoDup (map Discovery.test_key tests) ->
    (forall test, In test tests -> ~ In (Discovery.test_key test) seen) ->
    Discovery.dedup_loop tests seen [] = tests.
Proof.
  induction tests as [| t rest IH]; intros seen Hnd Hunseen.
  - reflexivity.
  - rewrite dedup_loop_cons.
    assert (Hmem : Discovery.seen_mem (Discovery.test_key t) seen = false).
    { apply seen_mem_false_iff. apply Hunseen. left. reflexivity. }
    rewrite Hmem. f_equal.
    simpl in Hnd. apply NoDup_cons_iff in Hnd as [Hfresh Hnd].
    apply IH; [exact Hnd |].
    intros u Hu [E | Hs].
    + apply Hfresh. rewrite E. apply in_map. exact Hu.
    + apply (Hunseen u); [right; exact Hu | exact Hs].
Qed.

(** The key of a candidate is made of its three fields and of nothing
    else. *)
Lemma test_key_identity (a b : Discovery.TestCandidate) :
  Discovery.test_key a = Discovery.test_key b <-> Claimed.same_identity a b.
Proof.
  unfold Discovery.test_key, Claimed.same_identity. split.
  - intros H. injection H as H1 H2 H3. auto.
  - intros [H1 [H2 H3]]. rewrite H1, H2, H3. reflexivity.
Qed.

Lemma nodup_keys_pairwise (tests : list Discovery.TestCandidate) :
  NoDup (map Discovery.test_key tests) <->
  ForallOrdPairs (fun a b => ~ Claimed.same_identity a b) tests.
Proof.
  induction tests as [| t rest IH]; cbn [map].
  - split; constructor.
  - split.
    + intros Hnd. apply NoDup_cons_iff in Hnd as [Hfresh Hnd].
      constructor; [| apply IH; exact Hnd].
      apply Forall_forall. intros u Hu Hsame.
      apply Hfresh. apply test_key_identity in Hsame. rewrite Hsame.
      apply in_map. exact Hu.
    + intros Hpairs. inversion Hpairs as [| ? ? Hfirst Hrest]; subst.
      apply NoDup_cons_iff. split; [| apply IH; exact Hrest].
      intros Hin. apply in_map_iff in Hin as [u [Hkey Hu]].
      rewrite Forall_forall in Hfirst. apply (Hfirst u Hu).
      apply test_key_identity. symmetry. exact Hkey.
Qed.

(** What [find] finds is the first item that passes the test. *)
Lemma find_first {A} (f : A -> bool) (l : list A) (x : A) :
  find f l = Some x ->
  exists before after,
    l = (before ++ x :: after)%list /\
    Forall (fun y => f y = false) before /\ f x = true.
Proof.
  induction l as [| y rest IH]; [discriminate |].
  cbn [find]. destruct (f y) eqn:Hy.
  - intros H. injection H as <-. exists [], rest.
    split; [reflexivity |]. split; [constructor | exact Hy].
  - intros H. destruct (IH H) as [before [after [Hl [Hbefore Hx]]]].
    exists (y :: before), after.
    split; [rewrite Hl; reflexivity |].
    split; [constructor; assumption | exact Hx].
Qed.

(** Every candidate of the argument is represented in the result by the
    first candidate of the argument that has its three fields. *)
Lemma dedup_keeps_first_of_each (tests : list Discovery.TestCandidate)
      (test : Discovery.TestCandidate) :
  In test tests ->
  exists kept before after,
    In kept (Discovery.dedup_loop tests [] []) /\
    Claimed.same_identity kept test /\
    tests = (before ++ kept :: after)%list /\
    Forall (fun earlier => ~ Claimed.same_identity earlier test) before.
Proof.
  intros Hin.
  pose proof (@dedup_loop_first tests [] (Discovery.test_key test) (fun H => H))
    as Hfirst.
  unfold Claimed.first_with_key in Hfirst.
  destruct (find (fun t => Discovery.key_eqb (Discovery.test_key t)
                                             (Discovery.test_key test)) tests)
    as [kept |] eqn:Hfind.
  - apply find_some in Hfirst as [Hkept _].
    apply find_first in Hfind as [before [after [Hl [Hbefore Hsame]]]].
    exists kept, before, after.
    split; [exact Hkept |].
    split; [apply test_key_identity, key_eqb_eq; exact Hsame |].
    split; [exact Hl |].
    eapply Forall_impl; [| exact Hbefore].
    intros earlier Hne Hsame'. cbn beta in Hne.
    apply test_key_identity, key_eqb_eq in Hsame'. congruence.
  - exfalso. apply (find_none _ _ Hfind) in Hin.
    rewrite key_eqb_refl in Hin. discriminate.
Qed.

(** C9. [_deduplicate_tests] leaves out items of its argument and keeps
    the others in their order; the keys [(test_system, test_name,
    test_code)] of the result are pairwise distinct; for every key, the
    first candidate of the result with that key is the first candidate of
    the argument with it (none when the argument has none).  Hence two
    candidates with the same key are collapsed to the first, whatever
    their other fields, and deduplicating twice is deduplicating once.
    The key is the three fields and nothing else: two candidates have the
    same key exactly when their test system, test name and test code are
    the same; two candidates that differ in one of the three are both
    kept; no two candidates of the result have the same three fields; and
    every candidate of the argument is represented in the result by the
    first candidate of the argument that has its three fields. *)
Theorem deduplicate_tests_keeps_first :
  forall tests : list Discovery.TestCandidate,
    Claimed.subsequence (Discovery.deduplicate_tests tests) tests /\
    NoDup (map Discovery.test_key (Discovery.deduplicate_tests tests)) /\
    (forall key,
       Claimed.first_with_key key (Discovery.deduplicate_tests tests)
       = Claimed.first_with_key key tests) /\
    Discovery.deduplicate_tests (Discovery.deduplicate_tests tests)
      = Discovery.deduplicate_tests tests /\
    (forall first second,
       Discovery.test_key first = Discovery.test_key second ->
       Discovery.deduplicate_tests [first; second] = [first]) /\
    (forall a b,
       Discovery.test_key a = Discovery.test_key b <-> Claimed.same_identity a b) /\
    (forall first second,
       ~ Claimed.same_identity first second ->
       Discovery.deduplicate_tests [first; second] = [first; second]) /\
    ForallOrdPairs (fun a b => ~ Claimed.same_identity a b)
                   (Discovery.deduplicate_tests tests) /\
    (forall test,
       In test tests ->
       exists kept before after,
         In kept (Discovery.deduplicate_tests tests) /\
         Claimed.same_identity kept test /\
         tests = (before ++ kept :: after)%list /\
         Forall (fun earlier => ~ Claimed.same_identity earlier test) before).
Proof.
  intros tests. unfold Discovery.deduplicate_tests.
  split; [apply dedup_loop_subsequence |].
  split; [apply dedup_loop_keys_nodup |].
  split; [intros key; apply dedup_loop_first; intros [] |].
  split.
  { apply dedup_loop_fixed.
    + apply dedup_loop_keys_nodup.
    + intros test _ []. }
  split.
  { intros first second Hkey.
    rewrite dedup_loop_cons. cbn [Discovery.seen_mem existsb].
    rewrite dedup_loop_cons. cbn [Discovery.seen_mem existsb].
    rewrite <- Hkey, key_eqb_refl. reflexivity. }
  split; [apply test_key_identity |].
  split.
  { intros first second Hdiffer.
    apply dedup_loop_fixed; [| intros test _ []].
    apply nodup_keys_pairwise.
    constructor; [| constructor; [constructor | constructor]].
    constructor; [exact Hdiffer | constructor]. }
  split; [apply nodup_keys_pairwise, dedup_loop_keys_nodup |].
  apply dedup_keeps_first_of_each.
Qed.

(** ** The PDF validator *)

Lemma on_exception_rejects (e : PDFValidator.RequestError) :
  fst (PDFValidator.on_exception e) = false.
Proof.
  destruct e; reflexivity.
Qed.

Lemma chunk_is_pdf_signature (chunk : option (list Byte.byte)) :
  PDFValidator.chunk_is_pdf chunk = true ->
  exists bytes, chunk = Some bytes /\
                PDFValidator.startswith bytes PDFValidator.pdf_signature = true.
Proof.
  unfold PDFValidator.chunk_is_pdf. destruct chunk as [bytes |]; [| discriminate].
  intros H. apply andb_true_iff in H as [_ H]. exists bytes. auto.
Qed.

Lemma check_final_url_accepts (response : PDFValidator.Response) :
  fst (PDFValidator.check_final_url response) = true ->
  Claimed.accepted_by_url response.
Proof.
  unfold PDFValidator.check_final_url, Claimed.accepted_by_url.
  destruct (Py.contains ".pdf" (Py.lower (PDFValidator.url response)));
    [reflexivity | discriminate].
Qed.

(** C2, as the specification states it, fails on a URL that merely
    contains ".pdf": an HTML page served with status 200 at
    [https://example.org/guide.pdf?download=1] is accepted, although its
    Content-Type is not PDF and neither the URL nor the final URL ends in
    ".pdf" (so the signature is never read). *)
Lemma is_valid_pdf_url_extension_counterexample :
  PDFValidator.is_valid_pdf "https://example.org/guide.pdf?download=1"
    (PDFValidator.mkExchange
       (PDFValidator.Returns (PDFValidator.mkParsed "https" "example.org"))
       (PDFValidator.Returns
          (PDFValidator.mkResponse 200 (Some "text/html; charset=utf-8"%string)
             "https://example.org/guide.pdf?download=1"
             (PDFValidator.Returns (Some [Byte.x3c; Byte.x68; Byte.x74; Byte.x6d; Byte.x6c; Byte.x3e]))))
       (PDFValidator.Fails PDFValidator.ConnectionError)
       (PDFValidator.Fails PDFValidator.ConnectionError))
  = (true, "Valid PDF (URL extension)"%string) /\
  ~ Claimed.accepted_by_content_type
      (PDFValidator.mkResponse 200 (Some "text/html; charset=utf-8"%string)
         "https://example.org/guide.pdf?download=1"
         (PDFValidator.Returns (Some [Byte.x3c; Byte.x68; Byte.x74; Byte.x6d; Byte.x6c; Byte.x3e]))) /\
  (forall chunk,
     ~ Claimed.accepted_by_signature "https://example.org/guide.pdf?download=1"
         (PDFValidator.mkResponse 200 (Some "text/html; charset=utf-8"%string)
            "https://example.org/guide.pdf?download=1"
            (PDFValidator.Returns (Some [Byte.x3c; Byte.x68; Byte.x74; Byte.x6d; Byte.x6c; Byte.x3e])))
         chunk).
Proof.
  split; [vm_compute; reflexivity | split].
  - unfold Claimed.accepted_by_content_type. vm_compute. discriminate.
  - intros chunk [[H | H] _]; vm_compute in H; discriminate H.
Qed.

(** C2, amended.  When [is_valid_pdf] accepts, a response with status 200
    was obtained (from HEAD, or from GET when HEAD was not 200), and one of
    three things holds: its Content-Type contains "application/pdf"; or
    the URL or the final URL ends in ".pdf" and the first bytes fetched
    begin with the PDF signature; or the final URL of the response last
    obtained contains ".pdf".  In every other case the URL is rejected. *)
Theorem is_valid_pdf_accepts_only_if :
  forall (target : string) (net : PDFValidator.Exchange),
    fst (PDFValidator.is_valid_pdf target net) = true ->
    exists response,
      (PDFValidator.head_response net = PDFValidator.Returns response \/
       PDFValidator.get_response net = PDFValidator.Returns response) /\
      PDFValidator.status_code response = 200%Z /\
      (Claimed.accepted_by_content_type response \/
       (exists response' chunk,
          PDFValidator.signature_response net = PDFValidator.Returns response' /\
          PDFValidator.first_chunk response' = PDFValidator.Returns chunk /\
          Claimed.accepted_by_signature target response chunk) \/
       (exists last,
          (last = response \/
           PDFValidator.signature_response net = PDFValidator.Returns last) /\
          Claimed.accepted_by_url last)).
Proof.
  intros target net. unfold PDFValidator.is_valid_pdf.
  destruct (PDFValidator.parsed net) as [p | e];
    [| rewrite on_exception_rejects; discriminate].
  destruct (negb (Py.truthy (PDFValidator.scheme p))
            || negb (Py.truthy (PDFValidator.netloc p))); [discriminate |].
  destruct (PDFValidator.head_response net) as [head | e] eqn:Hhead;
    [| rewrite on_exception_rejects; discriminate].
  assert (Hsource :
    forall response,
      (if negb (PDFValidator.status_code head =? 200)%Z
       then PDFValidator.get_response net
       else PDFValidator.Returns head) = PDFValidator.Returns response ->
      PDFValidator.Returns head = PDFValidator.Returns response \/
      PDFValidator.get_response net = PDFValidator.Returns response).
  { intros response.
    destruct (negb (PDFValidator.status_code head =? 200)%Z); auto. }
  destruct (if negb (PDFValidator.status_code head =? 200)%Z
            then PDFValidator.get_response net
            else PDFValidator.Returns head) as [response | e];
    [| rewrite on_exception_rejects; discriminate].
  specialize (Hsource response eq_refl).
  destruct (PDFValidator.status_code response =? 200)%Z eqn:Hstatus;
    simpl negb; cbv iota; [| discriminate].
  apply Z.eqb_eq in Hstatus.
  intros Haccept. exists response. split; [exact Hsource |].
  split; [exact Hstatus |].
  destruct (Py.contains "application/pdf"
              (Py.lower (Py.get_str (PDFValidator.content_type response))))
    eqn:Htype.
  { left. exact Htype. }
  right.
  destruct (Py.endswith (Py.lower target) ".pdf"
            || Py.endswith (Py.lower (PDFValidator.url response)) ".pdf")
    eqn:Hsuffix.
  - apply orb_true_iff in Hsuffix.
    destruct (PDFValidator.signature_response net) as [response' | e];
      [| rewrite on_exception_rejects in Haccept; discriminate].
    destruct (PDFValidator.first_chunk response') as [chunk | e] eqn:Hchunk;
      [| rewrite on_exception_rejects in Haccept; discriminate].
    destruct (PDFValidator.chunk_is_pdf chunk) eqn:Hpdf.
    + left. exists response', chunk. repeat split; try assumption.
      apply chunk_is_pdf_signature. exact Hpdf.
    + destruct (PDFValidator.chunk_truthy chunk); [discriminate |].
      right. exists response'. split; [right; reflexivity |].
      apply check_final_url_accepts. exact Haccept.
  - right. exists response. split; [left; reflexivity |].
    apply check_final_url_accepts. exact Haccept.
Qed.

Lemma is_valid_pdf_accepts_only_if_witness :
  fst (PDFValidator.is_valid_pdf "https://www.ets.org/s/praxis/pdf/5001.pdf"
         (PDFValidator.mkExchange
            (PDFValidator.Returns (PDFValidator.mkParsed "https" "www.ets.org"))
            (PDFValidator.Returns
               (PDFValidator.mkResponse 200 (Some "application/octet-stream"%string)
                  "https://www.ets.org/s/praxis/pdf/5001.pdf"
                  (PDFValidator.Returns None)))
            (PDFValidator.Fails PDFValidator.Timeout)
            (PDFValidator.Returns
               (PDFValidator.mkResponse 200 (Some "application/octet-stream"%string)
                  "https://www.ets.org/s/praxis/pdf/5001.pdf"
                  (PDFValidator.Returns
                     (Some [Byte.x25; Byte.x50; Byte.x44; Byte.x46;
                            Byte.x2d; Byte.x31; Byte.x2e; Byte.x34]))))))
  = true /\
  exists response,
    PDFValidator.status_code response = 200%Z /\
    (PDFValidator.head_response
       (PDFValidator.mkExchange
          (PDFValidator.Returns (PDFValidator.mkParsed "https" "www.ets.org"))
          (PDFValidator.Returns
             (PDFValidator.mkResponse 200 (Some "application/octet-stream"%string)
                "https://www.ets.org/s/praxis/pdf/5001.pdf"
                (PDFValidator.Returns None)))
          (PDFValidator.Fails PDFValidator.Timeout)
          (PDFValidator.Returns
             (PDFValidator.mkResponse 200 (Some "application/octet-stream"%string)
                "https://www.ets.org/s/praxis/pdf/5001.pdf"
                (PDFValidator.Returns
                   (Some [Byte.x25; Byte.x50; Byte.x44; Byte.x46;
                          Byte.x2d; Byte.x31; Byte.x2e; Byte.x34])))))
     = PDFValidator.Returns response \/
     PDFValidator.get_response
       (PDFValidator.mkExchange
          (PDFValidator.Returns (PDFValidator.mkParsed "https" "www.ets.org"))
          (PDFValidator.Returns
             (PDFValidator.mkResponse 200 (Some "application/octet-stream"%string)
                "https://www.ets.org/s/praxis/pdf/5001.pdf"
                (PDFValidator.Returns None)))
          (PDFValidator.Fails PDFValidator.Timeout)
          (PDFValidator.Returns
             (PDFValidator.mkResponse 200 (Some "application/octet-stream"%string)
                "https://www.ets.org/s/praxis/pdf/5001.pdf"
                (PDFValidator.Returns
                   (Some [Byte.x25; Byte.x50; Byte.x44; Byte.x46;
                          Byte.x2d; Byte.x31; Byte.x2e; Byte.x34])))))
     = PDFValidator.Returns response).
Proof.
  assert (Haccept :
    fst (PDFValidator.is_valid_pdf "https://www.ets.org/s/praxis/pdf/5001.pdf"
         (PDFValidator.mkExchange
            (PDFValidator.Returns (PDFValidator.mkParsed "https" "www.ets.org"))
            (PDFValidator.Returns
               (PDFValidator.mkResponse 200 (Some "application/octet-stream"%string)
                  "https://www.ets.org/s/praxis/pdf/5001.pdf"
                  (PDFValidator.Returns None)))
            (PDFValidator.Fails PDFValidator.Timeout)
            (PDFValidator.Returns
               (PDFValidator.mkResponse 200 (Some "application/octet-stream"%string)
                  "https://www.ets.org/s/praxis/pdf/5001.pdf"
                  (PDFValidator.Returns
                     (Some [Byte.x25; Byte.x50; Byte.x44; Byte.x46;
                            Byte.x2d; Byte.x31; Byte.x2e; Byte.x34]))))))
    = true) by (vm_compute; reflexivity).
  split; [exact Haccept |].
  destruct (@is_valid_pdf_accepts_only_if _ _ Haccept)
    as [response [Hsource [Hstatus _]]].
  exists response. split; [exact Hstatus | exact Hsource].
Defined.

(** ** The orchestrator *)

Section RunFacts.

Variable faulty : Orchestrator.Call -> Orchestrator.Database -> option string.
Variable discover : string -> string -> Result (list Orchestrator.TestData).

(** A database call either fails, leaving the database as it was, or
    runs its statement. *)
Lemma sql_cases {A} (call : Orchestrator.Call)
      (statement : Orchestrator.M Orchestrator.Database A)
      (db db' : Orchestrator.Database) (r : Result A) :
  Orchestrator.sql faulty call statement db = (r, db') ->
  (exists e, faulty call db = Some e /\ r = Raise e /\ db' = db) \/
  (faulty call db = None /\ statement db = (r, db')).
Proof.
  unfold Orchestrator.sql. destruct (faulty call db) as [e |].
  - intros H. injection H as <- <-. left. exists e. auto.
  - intros H. right. auto.
Qed.

Lemma insert_objective_effect test obj db r db' :
  Orchestrator.insert_objective faulty test obj db = (r, db') ->
  Orchestrator.audits db' = Orchestrator.audits db /\
  match r with
  | Ok _ => length (Orchestrator.objectives db')
            = S (length (Orchestrator.objectives db))
  | Raise _ => db' = db
  end.
Proof.
  unfold Orchestrator.insert_objective. intros H.
  apply sql_cases in H as [[e [_ [-> ->]]] | [_ H]].
  - auto.
  - injection H as <- <-. simpl. split; [reflexivity |].
    rewrite length_app. simpl. lia.
Qed.

Lemma upsert_test_effect state data db r db' :
  Orchestrator.upsert_test faulty state data db = (r, db') ->
  Orchestrator.audits db' = Orchestrator.audits db /\
  Orchestrator.objectives db' = Orchestrator.objectives db.
Proof.
  unfold Orchestrator.upsert_test. intros H.
  apply sql_cases in H as [[e [_ [_ ->]]] | [_ H]].
  - auto.
  - destruct (existsb (Orchestrator.same_test state data) (Orchestrator.tests db));
      injection H as <- <-; simpl; auto.
Qed.

Lemma complete_audit_effect audit new_status counts new_notes db r db' :
  Orchestrator.complete_audit faulty audit new_status counts new_notes db = (r, db') ->
  Orchestrator.objectives db' = Orchestrator.objectives db /\
  match r with
  | Ok _ => faulty (Orchestrator.CallCompleteAudit audit new_status counts new_notes) db
            = None /\
            Orchestrator.audits db'
            = map (Orchestrator.close_row audit new_status counts new_notes)
                  (Orchestrator.audits db)
  | Raise _ => db' = db
  end.
Proof.
  unfold Orchestrator.complete_audit. intros H.
  apply sql_cases in H as [[e [_ [-> ->]]] | [Hok H]].
  - auto.
  - injection H as <- <-. simpl. auto.
Qed.

(** What the body of the inner loop does: the table of audits and the
    count of tests stay; when it returns, an accepted objective has been
    stored and counted once, under its provenance, and a rejected one has
    left no trace. *)
Lemma store_objective_effect test obj c d r c' d' :
  Orchestrator.store_objective faulty test obj (c, d) = (r, (c', d')) ->
  Orchestrator.audits d' = Orchestrator.audits d /\
  Orchestrator.tests_found c' = Orchestrator.tests_found c /\
  (r = Ok tt ->
   Orchestrator.objectives_inferred c'
   = (Orchestrator.objectives_inferred c
      + length (filter is_inferred (Claimed.gate [obj])))%nat /\
   Orchestrator.objectives_found c'
   = (Orchestrator.objectives_found c
      + length (filter (fun o => negb (is_inferred o)) (Claimed.gate [obj])))%nat /\
   length (Orchestrator.objectives d')
   = (length (Orchestrator.objectives d) + length (Claimed.gate [obj]))%nat).
Proof.
  unfold Orchestrator.store_objective, Claimed.gate. cbn [filter].
  destruct (fst (Validation.validate_objective obj)).
  - unfold Orchestrator.bind, Orchestrator.on_db, Orchestrator.update_counts.
    destruct (Orchestrator.insert_objective faulty test obj d) as [[id | e] d1] eqn:Hins;
      apply insert_objective_effect in Hins as [Haud Hobj];
      intros H; injection H as <- <- <-.
    + split; [exact Haud |]. cbn [filter].
      destruct (is_inferred obj); simpl; (split; [reflexivity |]);
        intros _; repeat split; lia.
    + split; [exact Haud |]. split; [reflexivity |]. discriminate.
  - unfold Orchestrator.ret. intros H. injection H as <- <- <-.
    simpl. repeat split; lia.
Qed.

Lemma store_loop_effect test objectives :
  forall c d r c' d',
    Orchestrator.for_each objectives (Orchestrator.store_objective faulty test) (c, d)
    = (r, (c', d')) ->
    Orchestrator.audits d' = Orchestrator.audits d /\
    Orchestrator.tests_found c' = Orchestrator.tests_found c /\
    (r = Ok tt ->
     Orchestrator.objectives_inferred c'
     = (Orchestrator.objectives_inferred c
        + length (filter is_inferred (Claimed.gate objectives)))%nat /\
     Orchestrator.objectives_found c'
     = (Orchestrator.objectives_found c
        + length (filter (fun o => negb (is_inferred o)) (Claimed.gate objectives)))%nat /\
     length (Orchestrator.objectives d')
     = (length (Orchestrator.objectives d) + length (Claimed.gate objectives))%nat).
Proof.
  induction objectives as [| obj rest IH]; intros c d r c' d'.
  - simpl. unfold Orchestrator.ret. intros H. injection H as <- <- <-.
    simpl. repeat split; lia.
  - cbn [Orchestrator.for_each]. unfold Orchestrator.bind.
    destruct (Orchestrator.store_objective faulty test obj (c, d))
      as [[[] | e] [c1 d1]] eqn:Hone.
    + apply store_objective_effect in Hone as [Haud1 [Htests1 Hok1]].
      destruct (Hok1 eq_refl) as [Hinf1 [Hfound1 Hlen1]].
      intros Hrest. apply IH in Hrest as [Haud [Htests Hok]].
      split; [congruence |]. split; [congruence |].
      intros Hr. destruct (Hok Hr) as [Hinf [Hfound Hlen]].
      unfold Claimed.gate in *. cbn [filter] in *.
      destruct (fst (Validation.validate_objective obj)); cbn [filter] in *;
        [destruct (is_inferred obj) |]; simpl in *; repeat split; lia.
    + apply store_objective_effect in Hone as [Haud1 [Htests1 _]].
      intros H. injection H as <- <- <-.
      split; [exact Haud1 |]. split; [exact Htests1 |]. discriminate.
Qed.

(** What the body of the outer loop does for one test. *)
Lemma process_test_effect state data c d r c' d' :
  Orchestrator.process_test faulty state data (c, d) = (r, (c', d')) ->
  Orchestrator.audits d' = Orchestrator.audits d /\
  (r = Ok tt ->
   Orchestrator.tests_found c' = (Orchestrator.tests_found c + 1)%nat /\
   Orchestrator.objectives_inferred c'
   = (Orchestrator.objectives_inferred c
      + length (filter is_inferred (Claimed.accepted data)))%nat /\
   Orchestrator.objectives_found c'
   = (Orchestrator.objectives_found c
      + length (filter (fun o => negb (is_inferred o)) (Claimed.accepted data)))%nat /\
   length (Orchestrator.objectives d')
   = (length (Orchestrator.objectives d) + length (Claimed.accepted data))%nat).
Proof.
  unfold Orchestrator.process_test, Orchestrator.bind, Orchestrator.on_db,
    Orchestrator.update_counts.
  destruct (Orchestrator.upsert_test faulty state data d) as [[test | e] d1] eqn:Hup;
    apply upsert_test_effect in Hup as [Haud1 Hobj1].
  - intros Hloop. apply store_loop_effect in Hloop as [Haud [Htests Hok]].
    split; [congruence |].
    intros Hr. destruct (Hok Hr) as [Hinf [Hfound Hlen]].
    simpl in Htests, Hinf, Hfound.
    unfold Claimed.accepted.
    repeat split; try assumption. rewrite <- Hobj1. exact Hlen.
  - intros H. injection H as <- <- <-.
    split; [exact Haud1 | discriminate].
Qed.

Lemma tests_loop_effect state tests :
  forall c d r c' d',
    Orchestrator.for_each tests (Orchestrator.process_test faulty state) (c, d)
    = (r, (c', d')) ->
    Orchestrator.audits d' = Orchestrator.audits d /\
    (r = Ok tt ->
     Orchestrator.tests_found c' = (Orchestrator.tests_found c + length tests)%nat /\
     Orchestrator.objectives_inferred c'
     = (Orchestrator.objectives_inferred c
        + list_sum (map (fun data => length (filter is_inferred (Claimed.accepted data)))
                        tests))%nat /\
     Orchestrator.objectives_found c'
     = (Orchestrator.objectives_found c
        + list_sum (map (fun data => length (filter (fun o => negb (is_inferred o))
                                                    (Claimed.accepted data)))
                        tests))%nat /\
     length (Orchestrator.objectives d')
     = (length (Orchestrator.objectives d) + Claimed.accepted_count tests)%nat).
Proof.
  unfold Claimed.accepted_count.
  induction tests as [| data rest IH]; intros c d r c' d'.
  - simpl. unfold Orchestrator.ret. intros H. injection H as <- <- <-.
    simpl. repeat split; lia.
  - cbn [Orchestrator.for_each]. unfold Orchestrator.bind.
    destruct (Orchestrator.process_test faulty state data (c, d))
      as [[[] | e] [c1 d1]] eqn:Hone.
    + apply process_test_effect in Hone as [Haud1 Hok1].
      destruct (Hok1 eq_refl) as [Htests1 [Hinf1 [Hfound1 Hlen1]]].
      intros Hrest. apply IH in Hrest as [Haud Hok].
      split; [congruence |].
      intros Hr. destruct (Hok Hr) as [Htests [Hinf [Hfound Hlen]]].
      simpl. repeat split; lia.
    + apply process_test_effect in Hone as [Haud1 _].
      intros H. injection H as <- <- <-.
      split; [exact Haud1 | discriminate].
Qed.

(** What the [try] block does as a whole.  When it returns, the tests of
    the state have all been processed and the audit rows with the id of the
    audit have been closed with the counts reached; when it raises, the
    table of audits is as it was. *)
Lemma guarded_work_effect name abbrev state audit c d r c' d' :
  Orchestrator.guarded_work faulty discover name abbrev state audit (c, d)
  = (r, (c', d')) ->
  match r with
  | Ok _ =>
      exists tests,
        discover name abbrev = Ok tests /\
        Orchestrator.tests_found c' = (Orchestrator.tests_found c + length tests)%nat /\
        Orchestrator.objectives_inferred c'
        = (Orchestrator.objectives_inferred c
           + list_sum (map (fun data => length (filter is_inferred (Claimed.accepted data)))
                           tests))%nat /\
        Orchestrator.objectives_found c'
        = (Orchestrator.objectives_found c
           + list_sum (map (fun data => length (filter (fun o => negb (is_inferred o))
                                                       (Claimed.accepted data)))
                           tests))%nat /\
        length (Orchestrator.objectives d')
        = (length (Orchestrator.objectives d) + Claimed.accepted_count tests)%nat /\
        Orchestrator.audits d'
        = map (Orchestrator.close_row audit (Orchestrator.closing_status c') c'
                 (Some (Orchestrator.closing_notes c')))
              (Orchestrator.audits d)
  | Raise _ => Orchestrator.audits d' = Orchestrator.audits d
  end.
Proof.
  unfold Orchestrator.guarded_work, Orchestrator.bind at 1, Orchestrator.lift.
  destruct (discover name abbrev) as [tests | e0].
  2:{ intros H. injection H as <- <- <-. reflexivity. }
  unfold Orchestrator.bind at 1.
  destruct (Orchestrator.for_each tests (Orchestrator.process_test faulty state) (c, d))
    as [[[] | e1] [c1 d1]] eqn:Hloop;
    apply tests_loop_effect in Hloop as [Haud1 Hok1].
  2:{ intros H. injection H as <- <- <-. exact Haud1. }
  destruct (Hok1 eq_refl) as [Htests [Hinf [Hfound Hlen]]].
  unfold Orchestrator.bind, Orchestrator.get_counts, Orchestrator.on_db.
  destruct (Orchestrator.complete_audit faulty audit
              (Orchestrator.closing_status c1) c1
              (Some (Orchestrator.closing_notes c1)) d1)
    as [[[] | e2] d2] eqn:Hclose;
    apply complete_audit_effect in Hclose as [Hobj2 Hrow2];
    intros H; injection H as <- <- <-.
  - destruct Hrow2 as [_ Hrow2]. exists tests.
    repeat split; try assumption.
    + rewrite Hobj2. exact Hlen.
    + rewrite Hrow2, Haud1. reflexivity.
  - subst d2. exact Haud1.
Qed.

Lemma upsert_state_effect name abbrev db r db1 :
  Orchestrator.upsert_state faulty name abbrev db = (r, db1) ->
  Orchestrator.audits db1 = Orchestrator.audits db /\
  Orchestrator.objectives db1 = Orchestrator.objectives db.
Proof.
  unfold Orchestrator.upsert_state. intros H.
  apply sql_cases in H as [[e [_ [_ ->]]] | [_ H]]; [auto |].
  assert (Hins : Orchestrator.audits (Orchestrator.insert_or_ignore_state name abbrev db)
                 = Orchestrator.audits db /\
                 Orchestrator.objectives (Orchestrator.insert_or_ignore_state name abbrev db)
                 = Orchestrator.objectives db).
  { unfold Orchestrator.insert_or_ignore_state.
    destruct (existsb _ (Orchestrator.states db)); simpl; auto. }
  destruct (find _ _); injection H as <- <-; exact Hins.
Qed.

Lemma start_audit_effect state db1 audit db2 :
  Orchestrator.start_audit faulty state db1 = (Ok audit, db2) ->
  audit = S (length (Orchestrator.audits db1)) /\
  Orchestrator.audits db2
  = (Orchestrator.audits db1
     ++ [Orchestrator.mkAuditRow audit state "running"
           (Orchestrator.mkCounts 0 0 0 0) None])%list /\
  Orchestrator.objectives db2 = Orchestrator.objectives db1.
Proof.
  unfold Orchestrator.start_audit. intros H.
  apply sql_cases in H as [[e [_ [H _]]] | [_ H]]; [discriminate |].
  injection H as <- <-. simpl. auto.
Qed.

(** Closing the audit that was started last touches its row only, when
    the ids are in order. *)
Lemma close_last_row (rows : list Orchestrator.AuditRow) state new_status counts new_notes :
  map Orchestrator.audit_id rows = seq 1 (length rows) ->
  map (Orchestrator.close_row (S (length rows)) new_status counts new_notes)
      (rows ++ [Orchestrator.mkAuditRow (S (length rows)) state "running"
                  (Orchestrator.mkCounts 0 0 0 0) None])%list
  = (rows ++ [Orchestrator.mkAuditRow (S (length rows)) state new_status
                counts new_notes])%list.
Proof.
  intros Hids. rewrite map_app. f_equal.
  - transitivity (map (fun r => r) rows); [| apply map_id].
    apply map_ext_in.
    intros r Hr. unfold Orchestrator.close_row.
    assert (Hin : In (Orchestrator.audit_id r) (seq 1 (length rows))).
    { rewrite <- Hids. apply in_map. exact Hr. }
    apply in_seq in Hin.
    destruct (Nat.eqb_spec (Orchestrator.audit_id r) (S (length rows)));
      [lia | reflexivity].
  - simpl. unfold Orchestrator.close_row. simpl.
    rewrite Nat.eqb_refl. reflexivity.
Qed.

Lemma ids_in_order_extended (db db' : Orchestrator.Database) (row : Orchestrator.AuditRow) :
  Claimed.audit_ids_in_order db ->
  Orchestrator.audits db' = (Orchestrator.audits db ++ [row])%list ->
  Orchestrator.audit_id row = S (length (Orchestrator.audits db)) ->
  Claimed.audit_ids_in_order db'.
Proof.
  unfold Claimed.audit_ids_in_order. intros Hids Hrows Hid.
  rewrite Hrows, map_app, length_app, Hids. simpl.
  rewrite Nat.add_1_r, seq_S, Hid. reflexivity.
Qed.

(** One unit, when the steps outside the [try] block succeed: the call
    returns the counts, whatever happened inside the block, and has added
    one audit row, closed according to the outcome of the block. *)
Lemma process_state_outcome name abbrev db state db1 audit db2 :
  Claimed.audit_ids_in_order db ->
  faulty (Orchestrator.CallGetStateLogger name) db = None ->
  Orchestrator.upsert_state faulty name abbrev db = (Ok state, db1) ->
  Orchestrator.start_audit faulty state db1 = (Ok audit, db2) ->
  (forall counts e d,
     faulty (Orchestrator.CallCompleteAudit audit "error" counts (Some e)) d = None) ->
  exists counts db' row,
    Orchestrator.process_state_with faulty discover name abbrev db = (Ok counts, db') /\
    Orchestrator.audits db' = (Orchestrator.audits db ++ [row])%list /\
    Orchestrator.audit_id row = audit /\
    audit = S (length (Orchestrator.audits db)) /\
    Orchestrator.audit_counts row = counts /\
    Claimed.closed_as
      (Orchestrator.guarded_work faulty discover name abbrev state audit
         (Orchestrator.mkCounts 0 0 0 0, db2))
      row.
Proof.
  intros Hids Hlog Hstate Hstart Hclose.
  pose proof Hstate as Haud1. apply upsert_state_effect in Haud1 as [Haud1 _].
  pose proof Hstart as Hid. apply start_audit_effect in Hid as [Hid [Haud2 _]].
  rewrite Haud1 in Hid, Haud2.
  unfold Orchestrator.process_state_with, Orchestrator.bind.
  unfold Orchestrator.get_state_logger, Orchestrator.sql at 1.
  rewrite Hlog. unfold Orchestrator.ret.
  rewrite Hstate, Hstart. unfold Orchestrator.try_except.
  destruct (Orchestrator.guarded_work faulty discover name abbrev state audit
              (Orchestrator.mkCounts 0 0 0 0, db2))
    as [[[] | e] [c3 d3]] eqn:Hwork;
    pose proof Hwork as Heffect; apply guarded_work_effect in Heffect.
  - destruct Heffect as [tests [_ [_ [_ [_ [_ Hrows]]]]]].
    rewrite Haud2, Hid, (close_last_row _ _ _ _ _ Hids) in Hrows.
    eexists c3, d3, _. split; [reflexivity |].
    split; [exact Hrows |]. simpl.
    repeat split; congruence.
  - unfold Orchestrator.on_failure, Orchestrator.bind, Orchestrator.get_counts,
      Orchestrator.on_db.
    destruct (Orchestrator.complete_audit faulty audit "error" c3 (Some e) d3)
      as [[[] | e'] d4] eqn:Hfinal.
    + apply complete_audit_effect in Hfinal as [_ [_ Hrow4]].
      rewrite Heffect, Haud2, Hid, (close_last_row _ _ _ _ _ Hids) in Hrow4.
      eexists c3, d4, _. split; [reflexivity |].
      split; [exact Hrow4 |]. simpl.
      repeat split; congruence.
    + exfalso.
      unfold Orchestrator.complete_audit, Orchestrator.sql in Hfinal.
      rewrite Hclose in Hfinal. discriminate.
Qed.

End RunFacts.

(** ** The batch *)

Lemma closed_as_terminal outcome (row : Orchestrator.AuditRow) :
  Claimed.closed_as outcome row ->
  Orchestrator.status row = "complete"%string \/
  Orchestrator.status row = "partial"%string \/
  Orchestrator.status row = "error"%string.
Proof.
  destruct outcome as [[[] | e] [c d]]; simpl.
  - intros [Hs _]. destruct (0 <? Orchestrator.tests_found c)%nat; auto.
  - intros [Hs _]. auto.
Qed.

(** The loop of the batch from any totals: under the premise on the steps
    outside the [try] blocks it runs to its end, adds one closed audit row
    per unit, and adds the counts of these rows to the totals. *)
Lemma pipeline_loop_outcome faulty discover units :
  forall totals0 db,
    Claimed.audit_ids_in_order db ->
    Claimed.unguarded_steps_succeed faulty discover units db ->
    exists totals db' rows,
      Orchestrator.pipeline_loop faulty discover units totals0 db = (Ok totals, db') /\
      faulty Orchestrator.CallGenerateReports db' = None /\
      Orchestrator.audits db' = (Orchestrator.audits db ++ rows)%list /\
      Claimed.audits_closed faulty discover units rows db /\
      Forall (fun row => Orchestrator.status row = "complete"%string \/
                         Orchestrator.status row = "partial"%string \/
                         Orchestrator.status row = "error"%string) rows /\
      Orchestrator.states_processed totals
      = (Orchestrator.states_processed totals0 + length rows)%nat /\
      Orchestrator.total_tests totals
      = (Orchestrator.total_tests totals0
         + list_sum (map (fun r => Orchestrator.tests_found (Orchestrator.audit_counts r)) rows))%nat /\
      Orchestrator.total_verified totals
      = (Orchestrator.total_verified totals0
         + list_sum (map (fun r => Orchestrator.objectives_found (Orchestrator.audit_counts r)) rows))%nat /\
      Orchestrator.total_inferred totals
      = (Orchestrator.total_inferred totals0
         + list_sum (map (fun r => Orchestrator.objectives_inferred (Orchestrator.audit_counts r)) rows))%nat /\
      Orchestrator.total_objectives totals
      = (Orchestrator.total_objectives totals0
         + (list_sum (map (fun r => Orchestrator.objectives_found (Orchestrator.audit_counts r)) rows)
            + list_sum (map (fun r => Orchestrator.objectives_inferred (Orchestrator.audit_counts r)) rows)))%nat.
Proof.
  induction units as [| [name abbrev] rest IH]; intros totals0 db Hids Hsteps.
  - exists totals0, db, []. simpl in Hsteps. simpl. unfold Orchestrator.ret.
    rewrite app_nil_r. repeat split; auto; lia.
  - simpl in Hsteps.
    destruct Hsteps
      as [[state [db1 [audit [db2 [Hlog [Hstate [Hstart Hclose]]]]]]] Hrest].
    destruct (@process_state_outcome faulty discover name abbrev db state db1 audit db2
                Hids Hlog Hstate Hstart Hclose)
      as [counts [db' [row [Hrun [Hrows [Hrowid [Hid [Hcounts Hclosed]]]]]]]].
    assert (Hafter : Claimed.database_after faulty discover name abbrev db = db').
    { unfold Claimed.database_after. rewrite Hrun. reflexivity. }
    rewrite Hafter in Hrest.
    assert (Hids' : Claimed.audit_ids_in_order db').
    { eapply ids_in_order_extended; eauto. congruence. }
    destruct (IH (Orchestrator.add_counts totals0 counts) db' Hids' Hrest)
      as [totals [db'' [rows [Hloop [Hreports [Hrows' [Hall [Hterm [H1 [H2 [H3 [H4 H5]]]]]]]]]]]].
    exists totals, db'', (row :: rows).
    split.
    { cbn [Orchestrator.pipeline_loop]. unfold Orchestrator.bind.
      rewrite Hrun. exact Hloop. }
    split; [exact Hreports |].
    split.
    { rewrite Hrows', Hrows, <- app_assoc. reflexivity. }
    split.
    { cbn [Claimed.audits_closed]. rewrite Hafter. split; [| exact Hall].
      exists state, db1, db2. rewrite Hrowid. auto. }
    split.
    { constructor; [| exact Hterm]. eapply closed_as_terminal; eauto. }
    simpl in H1, H2, H3, H4, H5. simpl. rewrite Hcounts.
    repeat split; lia.
Qed.

(** C3, as the specification states it, fails in three ways, all outside
    the [try] block of [process_state].  With a full disk the test of the
    first unit cannot be written, and neither can the "error" status: the
    handler raises in its turn, the batch stops with that exception, the
    audit of the first unit stays "running" and the second unit is never
    reached.  With no failure of the database at all, a unit whose
    abbreviation is already taken by another name makes [upsert_state]
    raise before any audit exists, which stops the batch as well.  And a
    unit whose log file cannot be opened (a state name with a slash in
    it) makes [get_state_logger] raise before anything is written: the
    batch stops with no state and no audit. *)
Lemma batch_aborted_counterexample :
  fst (Orchestrator.run_full_pipeline Scenarios.disk_full
         [("Alabama", "AL"); ("Alaska", "AK")]%string Orchestrator.empty_database)
  = Raise "database or disk is full" /\
  map Orchestrator.status
      (Orchestrator.audits
         (snd (Orchestrator.run_full_pipeline Scenarios.disk_full
                 [("Alabama", "AL"); ("Alaska", "AK")]%string
                 Orchestrator.empty_database)))
  = ["running"%string] /\
  fst (Orchestrator.run_full_pipeline Orchestrator.no_fault
         [("Alabama", "AL"); ("Alaska", "AL"); ("Arizona", "AZ")]%string
         Orchestrator.empty_database)
  = Raise "'NoneType' object is not subscriptable" /\
  map Orchestrator.status
      (Orchestrator.audits
         (snd (Orchestrator.run_full_pipeline Orchestrator.no_fault
                 [("Alabama", "AL"); ("Alaska", "AL"); ("Arizona", "AZ")]%string
                 Orchestrator.empty_database)))
  = ["complete"%string] /\
  Orchestrator.run_full_pipeline (Scenarios.log_fails_for "A/B")
    [("A/B", "AB"); ("Alaska", "AK")]%string Orchestrator.empty_database
  = (Raise "[Errno 2] No such file or directory", Orchestrator.empty_database).
Proof.
  repeat split; vm_compute; reflexivity.
Qed.

(** C3, amended.  Let the ids of the audits be in order, and let the steps
    that the batch takes outside the [try] blocks succeed: for every unit
    the log file of the state is opened, the state record is obtained, the
    audit is started, and the write that closes it as "error" does not
    fail; and the reports are generated after the last unit.  Then
    whatever is raised inside the [try] block of any unit, the batch runs
    to its end and returns its totals; every unit has added one audit row,
    closed once: as "complete" when its block ended without an exception
    and counted a test, as "partial" when it ended without an exception
    and counted none, as "error" with the message as notes when it raised;
    and the totals count every unit and sum the counts of these rows. *)
Theorem unit_failures_stay_in_their_unit :
  forall (faulty : Orchestrator.Call -> Orchestrator.Database -> option string)
         (discover : string -> string -> Result (list Orchestrator.TestData))
         (units : list (string * string)) (db : Orchestrator.Database),
    Claimed.audit_ids_in_order db ->
    Claimed.unguarded_steps_succeed faulty discover units db ->
    exists totals db' rows,
      Orchestrator.run_full_pipeline_with faulty discover units db = (Ok totals, db') /\
      Orchestrator.audits db' = (Orchestrator.audits db ++ rows)%list /\
      length rows = length units /\
      Claimed.audits_closed faulty discover units rows db /\
      Forall (fun row => Orchestrator.status row = "complete"%string \/
                         Orchestrator.status row = "partial"%string \/
                         Orchestrator.status row = "error"%string) rows /\
      Claimed.totals_cover totals rows.
Proof.
  intros faulty discover units db Hids Hsteps.
  destruct (@pipeline_loop_outcome faulty discover units
              (Orchestrator.mkTotals 0 0 0 0 0) db Hids Hsteps)
    as [totals [db' [rows [Hloop [Hreports [Hrows [Hall [Hterm [H1 [H2 [H3 [H4 H5]]]]]]]]]]]].
  exists totals, db', rows.
  split.
  { unfold Orchestrator.run_full_pipeline_with, Orchestrator.bind.
    rewrite Hloop.
    unfold Orchestrator.generate_all_reports, Orchestrator.sql.
    rewrite Hreports. reflexivity. }
  split; [exact Hrows |].
  split.
  { clear - Hall. revert rows db Hall.
    induction units as [| [name abbrev] rest IH]; intros [| row rows] db Hall;
      simpl in Hall; try contradiction; try reflexivity.
    destruct Hall as [_ Hall]. simpl. f_equal. eapply IH; eauto. }
  split; [exact Hall |]. split; [exact Hterm |].
  unfold Claimed.totals_cover. simpl in H1, H2, H3, H4, H5.
  repeat split; lia.
Qed.

Lemma unit_failures_stay_in_their_unit_witness :
  Claimed.audit_ids_in_order Orchestrator.empty_database /\
  Claimed.unguarded_steps_succeed Orchestrator.no_fault
    (Scenarios.discovery_fails_for "Alaska") Scenarios.three_states
    Orchestrator.empty_database /\
  exists totals db' rows,
    Orchestrator.run_full_pipeline_with Orchestrator.no_fault
      (Scenarios.discovery_fails_for "Alaska") Scenarios.three_states
      Orchestrator.empty_database = (Ok totals, db') /\
    map Orchestrator.status rows = ["complete"; "error"; "complete"]%string /\
    map Orchestrator.notes rows
    = [Some "Demo mode: generated 3 tests";
       Some "search failed: connection timed out";
       Some "Demo mode: generated 3 tests"]%string /\
    Orchestrator.states_processed totals = 3%nat /\
    Orchestrator.total_tests totals = 6%nat.
Proof.
  assert (Hids : Claimed.audit_ids_in_order Orchestrator.empty_database)
    by reflexivity.
  assert (Hsteps :
    Claimed.unguarded_steps_succeed Orchestrator.no_fault
      (Scenarios.discovery_fails_for "Alaska") Scenarios.three_states
      Orchestrator.empty_database).
  { unfold Scenarios.three_states.
    repeat (cbn [Claimed.unguarded_steps_succeed];
            split;
            [ do 4 eexists;
              split; [reflexivity |];
              split; [vm_compute; reflexivity |];
              split; [vm_compute; reflexivity | intros; reflexivity] | ]).
    reflexivity. }
  split; [exact Hids |]. split; [exact Hsteps |].
  destruct (@unit_failures_stay_in_their_unit _ _ _ _ Hids Hsteps)
    as [totals [db' [rows [Hrun [Hrows [Hlen [_ [_ Hcover]]]]]]]].
  exists totals, db', rows.
  split; [exact Hrun |].
  assert (Hdb : db' = snd (Orchestrator.run_full_pipeline_with Orchestrator.no_fault
                            (Scenarios.discovery_fails_for "Alaska")
                            Scenarios.three_states Orchestrator.empty_database))
    by (rewrite Hrun; reflexivity).
  simpl in Hrows.
  destruct Hcover as [Hn [Ht _]].
  repeat split.
  - rewrite <- Hrows, Hdb. vm_compute. reflexivity.
  - rewrite <- Hrows, Hdb. vm_compute. reflexivity.
  - rewrite Hn, Hlen. reflexivity.
  - rewrite Ht, <- Hrows, Hdb. vm_compute. reflexivity.
Defined.

(** ** The counts of one unit *)

Lemma filter_split_length {A} (f : A -> bool) (l : list A) :
  (length (filter f l) + length (filter (fun x => negb (f x)) l))%nat = length l.
Proof.
  induction l as [| x r IH]; simpl; [reflexivity |].
  destruct (f x); simpl; lia.
Qed.

Lemma provenance_split_sum (tests : list Orchestrator.TestData) :
  (list_sum (map (fun data => length (filter (fun o => negb (is_inferred o))
                                             (Claimed.accepted data))) tests)
   + list_sum (map (fun data => length (filter is_inferred (Claimed.accepted data)))
                   tests))%nat
  = Claimed.accepted_count tests.
Proof.
  unfold Claimed.accepted_count.
  induction tests as [| data rest IH]; simpl; [reflexivity |].
  pose proof (filter_split_length is_inferred (Claimed.accepted data)). lia.
Qed.

(** After the rows with id [audit] have been closed, the row that a
    look-up by this id finds carries the values of the closing call. *)
Lemma closed_row_found audit new_status counts new_notes
      (rows : list Orchestrator.AuditRow) :
  (exists r, In r rows /\ Orchestrator.audit_id r = audit) ->
  exists row,
    find (fun r => Nat.eqb (Orchestrator.audit_id r) audit)
         (map (Orchestrator.close_row audit new_status counts new_notes) rows)
    = Some row /\
    Orchestrator.status row = new_status /\
    Orchestrator.audit_counts row = counts /\
    Orchestrator.notes row = new_notes.
Proof.
  induction rows as [| r0 rest IH]; intros [r [Hin Hid]].
  - destruct Hin.
  - cbn [map find].
    destruct (Nat.eqb (Orchestrator.audit_id r0) audit) eqn:Hr0.
    + assert (E : Orchestrator.close_row audit new_status counts new_notes r0
                  = Orchestrator.mkAuditRow (Orchestrator.audit_id r0)
                      (Orchestrator.audit_state_id r0) new_status counts new_notes)
        by (unfold Orchestrator.close_row; rewrite Hr0; reflexivity).
      rewrite E. cbn [Orchestrator.audit_id]. rewrite Hr0.
      eexists. split; [reflexivity | repeat split].
    + assert (E : Orchestrator.close_row audit new_status counts new_notes r0 = r0)
        by (unfold Orchestrator.close_row; rewrite Hr0; reflexivity).
      rewrite E, Hr0. apply IH.
      destruct Hin as [-> | Hin].
      * rewrite Hid, Nat.eqb_refl in Hr0. discriminate.
      * exists r. auto.
Qed.

(** C10. Take a unit whose processing ends without an exception: its state
    record is obtained, its audit is started, and its [try] block returns.
    Then [process_state] returns the counts that the audit row of the unit
    holds (unless the log file of the state cannot be opened: then it
    raises before it has written anything), and in them [objectives_found + objectives_inferred] is the
    number of objectives of the tests of the unit that passed the
    validation gate, which is the number of rows added to the table of
    objectives: each accepted objective is counted once, under
    [objectives_inferred] when it is inferred and under [objectives_found]
    when it is not, and a rejected one is neither stored nor counted. *)
Theorem audit_counts_are_accepted_objectives :
  forall (faulty : Orchestrator.Call -> Orchestrator.Database -> option string)
         (discover : string -> string -> Result (list Orchestrator.TestData))
         (name abbrev : string) (db db1 db2 db3 : Orchestrator.Database)
         (state audit : nat) (counts : Orchestrator.Counts),
    Orchestrator.upsert_state faulty name abbrev db = (Ok state, db1) ->
    Orchestrator.start_audit faulty state db1 = (Ok audit, db2) ->
    Orchestrator.guarded_work faulty discover name abbrev state audit
      (Orchestrator.mkCounts 0 0 0 0, db2) = (Ok tt, (counts, db3)) ->
    Orchestrator.process_state_with faulty discover name abbrev db
    = match faulty (Orchestrator.CallGetStateLogger name) db with
      | None => (Ok counts, db3)
      | Some e => (Raise e, db)
      end /\
    exists tests row,
      discover name abbrev = Ok tests /\
      Orchestrator.audit_row db3 audit = Some row /\
      Orchestrator.audit_counts row = counts /\
      Orchestrator.status row <> "error"%string /\
      (Orchestrator.objectives_found counts + Orchestrator.objectives_inferred counts)%nat
      = Claimed.accepted_count tests /\
      length (Orchestrator.objectives db3)
      = (length (Orchestrator.objectives db) + Claimed.accepted_count tests)%nat /\
      Orchestrator.objectives_inferred counts
      = list_sum (map (fun data => length (filter is_inferred (Claimed.accepted data)))
                      tests) /\
      Orchestrator.objectives_found counts
      = list_sum (map (fun data => length (filter (fun o => negb (is_inferred o))
                                                  (Claimed.accepted data)))
                      tests).
Proof.
  intros faulty discover name abbrev db db1 db2 db3 state audit counts
         Hstate Hstart Hwork.
  split.
  - unfold Orchestrator.process_state_with, Orchestrator.bind.
    unfold Orchestrator.get_state_logger, Orchestrator.sql at 1.
    destruct (faulty (Orchestrator.CallGetStateLogger name) db) as [e |];
      [reflexivity |].
    unfold Orchestrator.ret.
    rewrite Hstate, Hstart. unfold Orchestrator.try_except.
    rewrite Hwork. reflexivity.
  - pose proof Hstate as Hs. apply upsert_state_effect in Hs as [_ Hobj1].
    pose proof Hstart as Ha. apply start_audit_effect in Ha as [_ [Haud2 Hobj2]].
    apply guarded_work_effect in Hwork
      as [tests [Hdisc [_ [Hinf [Hfound [Hlen Hrows]]]]]].
    simpl in Hinf, Hfound.
    destruct (@closed_row_found audit (Orchestrator.closing_status counts) counts
                (Some (Orchestrator.closing_notes counts)) (Orchestrator.audits db2))
      as [row [Hfind [Hstatus [Hcounts _]]]].
    { rewrite Haud2. eexists. split; [apply in_or_app; right; left; reflexivity |].
      reflexivity. }
    exists tests, row.
    split; [exact Hdisc |].
    split; [unfold Orchestrator.audit_row; rewrite Hrows; exact Hfind |].
    split; [exact Hcounts |].
    split.
    { rewrite Hstatus. unfold Orchestrator.closing_status.
      destruct (0 <? Orchestrator.tests_found counts)%nat; discriminate. }
    pose proof (provenance_split_sum tests) as Hsplit.
    repeat split; try assumption.
    + lia.
    + rewrite Hlen, Hobj2, Hobj1. reflexivity.
Qed.

Lemma audit_counts_are_accepted_objectives_witness :
  Orchestrator.upsert_state Orchestrator.no_fault "Alabama" "AL"
    Orchestrator.empty_database
  = (Ok 1%nat, snd (Orchestrator.upsert_state Orchestrator.no_fault "Alabama" "AL"
                      Orchestrator.empty_database)) /\
  Orchestrator.start_audit Orchestrator.no_fault 1
    (snd (Orchestrator.upsert_state Orchestrator.no_fault "Alabama" "AL"
            Orchestrator.empty_database))
  = (Ok 1%nat, Scenarios.alabama_opened) /\
  Orchestrator.guarded_work Orchestrator.no_fault Orchestrator.sample_discovery
    "Alabama" "AL" 1 1 (Orchestrator.mkCounts 0 0 0 0, Scenarios.alabama_opened)
  = (Ok tt,
     (Orchestrator.mkCounts 3 0 21 0,
      snd (snd (Orchestrator.guarded_work Orchestrator.no_fault
                  Orchestrator.sample_discovery "Alabama" "AL" 1 1
                  (Orchestrator.mkCounts 0 0 0 0, Scenarios.alabama_opened))))) /\
  Orchestrator.process_state Orchestrator.no_fault "Alabama" "AL"
    Orchestrator.empty_database
  = (Ok (Orchestrator.mkCounts 3 0 21 0),
     snd (snd (Orchestrator.guarded_work Orchestrator.no_fault
                 Orchestrator.sample_discovery "Alabama" "AL" 1 1
                 (Orchestrator.mkCounts 0 0 0 0, Scenarios.alabama_opened)))).
Proof.
  assert (Hstate :
    Orchestrator.upsert_state Orchestrator.no_fault "Alabama" "AL"
      Orchestrator.empty_database
    = (Ok 1%nat, snd (Orchestrator.upsert_state Orchestrator.no_fault "Alabama" "AL"
                        Orchestrator.empty_database))) by reflexivity.
  assert (Hstart :
    Orchestrator.start_audit Orchestrator.no_fault 1
      (snd (Orchestrator.upsert_state Orchestrator.no_fault "Alabama" "AL"
              Orchestrator.empty_database))
    = (Ok 1%nat, Scenarios.alabama_opened)) by reflexivity.
  assert (Hwork :
    Orchestrator.guarded_work Orchestrator.no_fault Orchestrator.sample_discovery
      "Alabama" "AL" 1 1 (Orchestrator.mkCounts 0 0 0 0, Scenarios.alabama_opened)
    = (Ok tt,
       (Orchestrator.mkCounts 3 0 21 0,
        snd (snd (Orchestrator.guarded_work Orchestrator.no_fault
                    Orchestrator.sample_discovery "Alabama" "AL" 1 1
                    (Orchestrator.mkCounts 0 0 0 0, Scenarios.alabama_opened))))))
    by (vm_compute; reflexivity).
  split; [exact Hstate |]. split; [exact Hstart |]. split; [exact Hwork |].
  exact (proj1 (@audit_counts_are_accepted_objectives _ _ _ _ _ _ _ _ _ _ _
                  Hstate Hstart Hwork)).
Defined.

(* ================================================================== *)
(** * Further properties of the code *)

(** ** Inference: what every call emits *)

Lemma enumerate_from_indices {A} (l : list A) :
  forall i, map fst (Py.enumerate_from i l) = seq i (length l).
Proof.
  induction l as [| x r IH]; intros i; simpl.
  - reflexivity.
  - rewrite IH. reflexivity.
Qed.

Lemma enumerate_from_items {A} (l : list A) :
  forall i, map snd (Py.enumerate_from i l) = l.
Proof.
  induction l as [| x r IH]; intros i; simpl.
  - reflexivity.
  - rewrite IH. reflexivity.
Qed.

Lemma emitted_indices url conf why (l : list string) :
  map objective_index (map (Inference.emit url conf why) (Py.enumerate l))
  = seq 0 (length l).
Proof.
  rewrite map_map. unfold Py.enumerate.
  rewrite <- (enumerate_from_indices l 0). apply map_ext. reflexivity.
Qed.

Lemma emitted_texts url conf why (l : list string) :
  map objective_text (map (Inference.emit url conf why) (Py.enumerate l)) = l.
Proof.
  rewrite map_map. unfold Py.enumerate.
  rewrite <- (enumerate_from_items l 0) at 2. apply map_ext. reflexivity.
Qed.

Lemma emitted_length url conf why (l : list string) :
  length (map (Inference.emit url conf why) (Py.enumerate l)) = length l.
Proof.
  rewrite length_map. unfold Py.enumerate.
  rewrite <- (length_map snd), enumerate_from_items. reflexivity.
Qed.

Lemma emitted_fields url conf why (l : list (nat * string)) :
  Forall (fun obj =>
            is_inferred obj = true /\
            validation_status obj = "inferred"%string /\
            evidence_excerpt obj = None /\
            evidence_url obj = url /\
            confidence obj = conf /\
            rationale obj = Some why)
         (map (Inference.emit url conf why) l).
Proof.
  induction l; simpl; constructor; auto.
  repeat split.
Qed.

(** The confidence and the rationale that the selected strategy gives to
    each of its items. *)
Lemma candidates_uniform (test_info : Inference.TestInfo) :
  exists url conf why,
    why <> ""%string /\
    (conf = 0.75 \/ conf = 0.70 \/ conf = 0.60 \/ conf = 0.40) /\
    Forall (fun obj =>
              is_inferred obj = true /\
              validation_status obj = "inferred"%string /\
              evidence_excerpt obj = None /\
              evidence_url obj = url /\
              confidence obj = conf /\
              rationale obj = Some why)
           (Inference.infer_candidates test_info) /\
    map objective_index (Inference.infer_candidates test_info)
    = seq 0 (length (Inference.infer_candidates test_info)).
Proof.
  unfold Inference.infer_candidates.
  destruct (Inference.select_strategy test_info) as [s l | | sys |];
    eexists _, _, _;
    (split; [| split; [| split; [apply emitted_fields |]]]);
    try (rewrite emitted_indices, emitted_length; reflexivity);
    try discriminate; auto.
Qed.

(** X1. The threshold never cuts a list in two: [infer_objectives] returns
    either every candidate of the selected strategy or none.  It returns
    all of them when the threshold is at most the confidence of the
    strategy (one of 0.75, 0.70, 0.60, 0.40) and none when it is above. *)
Theorem infer_objectives_all_or_nothing :
  forall (test_info : Inference.TestInfo) (threshold : Q),
    exists conf,
      (conf = 0.75 \/ conf = 0.70 \/ conf = 0.60 \/ conf = 0.40) /\
      Forall (fun obj => confidence obj = conf)
             (Inference.infer_candidates test_info) /\
      (threshold <= conf ->
       Inference.infer_objectives test_info threshold
       = Inference.infer_candidates test_info) /\
      (conf < threshold ->
       Inference.infer_objectives test_info threshold = []).
Proof.
  intros test_info threshold.
  destruct (candidates_uniform test_info)
    as [url [conf [why [_ [Hconf [Hfields _]]]]]].
  exists conf. split; [exact Hconf |].
  assert (Hall : Forall (fun obj => confidence obj = conf)
                        (Inference.infer_candidates test_info)).
  { eapply Forall_impl; [| exact Hfields]. intros obj H. apply H. }
  split; [exact Hall |].
  unfold Inference.infer_objectives, Py.ge. split.
  - intros Hle. apply filter_keeps_all.
    eapply Forall_impl; [| exact Hall].
    intros obj ->. apply Qle_bool_iff. exact Hle.
  - intros Hlt. apply filter_drops_all.
    eapply Forall_impl; [| exact Hall].
    intros obj ->.
    destruct (Qle_bool threshold conf) eqn:Hb; [| reflexivity].
    apply Qle_bool_iff in Hb. exfalso. exact (Qlt_not_le _ _ Hlt Hb).
Qed.

(** X2. Whatever [test_info] is, the candidates are indexed 0, 1, 2, ... in
    order, and each of them is marked inferred with status "inferred", has
    no evidence excerpt, a rationale that is a non-empty string, and a
    confidence between 0.40 and 0.75. *)
Theorem candidates_are_well_formed :
  forall test_info : Inference.TestInfo,
    map objective_index (Inference.infer_candidates test_info)
    = seq 0 (length (Inference.infer_candidates test_info)) /\
    Forall (fun obj =>
              is_inferred obj = true /\
              validation_status obj = "inferred"%string /\
              evidence_excerpt obj = None /\
              (exists why, rationale obj = Some why /\ why <> ""%string) /\
              0.40 <= confidence obj /\ confidence obj <= 0.75)
           (Inference.infer_candidates test_info).
Proof.
  intros test_info.
  destruct (candidates_uniform test_info)
    as [url [conf [why [Hwhy [Hconf [Hfields Hidx]]]]]].
  split; [exact Hidx |].
  eapply Forall_impl; [| exact Hfields].
  intros obj [Hinf [Hstatus [Hexc [_ [Hc Hr]]]]].
  repeat split; try assumption.
  - exists why. auto.
  - rewrite Hc.
    destruct Hconf as [-> | [-> | [-> | ->]]]; unfold Qle; simpl; lia.
  - rewrite Hc.
    destruct Hconf as [-> | [-> | [-> | ->]]]; unfold Qle; simpl; lia.
Qed.

(** The two checks that the gate makes on an inferred objective alone
    pass for every candidate. *)
Lemma candidate_passes_checks (test_info : Inference.TestInfo) (obj : Objective) :
  In obj (Inference.infer_candidates test_info) ->
  is_inferred obj = true /\
  Validation.confidence_in_range (confidence obj) = true /\
  Py.truthy_opt (rationale obj) = true.
Proof.
  intros Hobj.
  destruct (candidates_uniform test_info)
    as [url [conf [why [Hwhy [Hconf [Hfields _]]]]]].
  rewrite Forall_forall in Hfields.
  destruct (Hfields obj Hobj) as [Hinf [_ [_ [_ [Hc Hr]]]]].
  split; [exact Hinf |]. split.
  - rewrite Hc. destruct Hconf as [-> | [-> | [-> | ->]]]; reflexivity.
  - rewrite Hr. destruct why; [congruence | reflexivity].
Qed.

(** X3. The validation gate can turn down an inferred objective only for
    its text: whatever [test_info] and the threshold are, the issues that
    [validate_objective] finds in an objective returned by
    [infer_objectives] are among "too short", "no action verb" and
    "boilerplate", never an invalid confidence or a missing rationale. *)
Theorem inferred_objectives_fail_only_on_text :
  forall (test_info : Inference.TestInfo) (threshold : Q)
         (obj : Objective) (issue : Validation.Issue),
    In obj (Inference.infer_objectives test_info threshold) ->
    In issue (snd (Validation.validate_objective obj)) ->
    issue = Validation.TooShort (Validation.word_count (objective_text obj)) \/
    issue = Validation.NoActionVerb \/
    issue = Validation.Boilerplate.
Proof.
  intros test_info threshold obj issue Hobj Hissue.
  unfold Inference.infer_objectives in Hobj.
  apply filter_In in Hobj as [Hobj _].
  destruct (candidate_passes_checks test_info obj Hobj)
    as [Hinf [Hrange Hwhy]].
  unfold Validation.validate_objective in Hissue. cbn [snd] in Hissue.
  unfold Validation.objective_issues in Hissue.
  rewrite Hinf, Hrange, Hwhy in Hissue. cbn [app] in Hissue.
  repeat (apply in_app_or in Hissue as [Hissue | Hissue]);
    try match type of Hissue with
        | In _ (if ?b then _ else _) => destruct b
        end;
    cbn [In] in Hissue;
    try contradiction;
    destruct Hissue as [<- | []]; auto.
Qed.

(** The last objective of the mathematics template, "Apply statistical and
    probabilistic reasoning", has five words: the gate finds it too
    short. *)
Lemma inferred_objectives_fail_only_on_text_witness :
  In (nth 8 (Inference.infer_objectives
               (Inference.mkTestInfo None (Some "Mathematics"%string) None None) 0.5)
            (Synthesis.synthesized None 0 ""))
     (Inference.infer_objectives
        (Inference.mkTestInfo None (Some "Mathematics"%string) None None) 0.5) /\
  In (Validation.TooShort 5)
     (snd (Validation.validate_objective
             (nth 8 (Inference.infer_objectives
                       (Inference.mkTestInfo None (Some "Mathematics"%string) None None) 0.5)
                    (Synthesis.synthesized None 0 "")))) /\
  (Validation.TooShort 5
   = Validation.TooShort
       (Validation.word_count
          (objective_text
             (nth 8 (Inference.infer_objectives
                       (Inference.mkTestInfo None (Some "Mathematics"%string) None None) 0.5)
                    (Synthesis.synthesized None 0 "")))) \/
   Validation.TooShort 5 = Validation.NoActionVerb \/
   Validation.TooShort 5 = Validation.Boilerplate).
Proof.
  assert (Hobj :
    In (nth 8 (Inference.infer_objectives
                 (Inference.mkTestInfo None (Some "Mathematics"%string) None None) 0.5)
              (Synthesis.synthesized None 0 ""))
       (Inference.infer_objectives
          (Inference.mkTestInfo None (Some "Mathematics"%string) None None) 0.5)).
  { vm_compute. do 8 right. left. reflexivity. }
  assert (Hissue :
    In (Validation.TooShort 5)
       (snd (Validation.validate_objective
               (nth 8 (Inference.infer_objectives
                         (Inference.mkTestInfo None (Some "Mathematics"%string) None None) 0.5)
                      (Synthesis.synthesized None 0 ""))))).
  { vm_compute. left. reflexivity. }
  split; [exact Hobj |]. split; [exact Hissue |].
  exact (@inferred_objectives_fail_only_on_text _ _ _ _ Hobj Hissue).
Defined.

(** X4. A known subject decides alone.  For each of the six subjects of
    the templates, whatever the test name and the test system are (also a
    name with "general" or "elementary" in it), the candidates are the
    statements of the template of the subject, in order, each with
    confidence 0.75, no evidence URL, and the rationale that names the
    subject. *)
Theorem known_subject_takes_precedence :
  forall (test_info : Inference.TestInfo) (subject : string)
         (template : list string),
    Inference.subject_area test_info = Some subject ->
    Inference.lookup Inference.subject_templates subject = Some template ->
    map objective_text (Inference.infer_candidates test_info) = template /\
    Forall (fun obj =>
              confidence obj = 0.75 /\
              evidence_url obj = None /\
              rationale obj =
                Some ("Inferred from standard " ++ subject ++
                      " teacher certification competency frameworks")%string)
           (Inference.infer_candidates test_info).
Proof.
  intros test_info subject template Hsubject Hlookup.
  assert (Htruthy : Py.truthy subject = true).
  { destruct subject; [discriminate Hlookup | reflexivity]. }
  unfold Inference.infer_candidates, Inference.select_strategy.
  rewrite Hsubject. cbn [Py.get_str]. rewrite Htruthy, Hlookup.
  split; [apply emitted_texts |].
  eapply Forall_impl; [| apply emitted_fields].
  intros obj [_ [_ [_ [Hurl [Hc Hr]]]]]. auto.
Qed.

Lemma known_subject_takes_precedence_witness :
  Inference.subject_area
    (Inference.mkTestInfo (Some "General Science"%string) (Some "Science"%string)
       (Some "Praxis"%string) None) = Some "Science"%string /\
  Inference.lookup Inference.subject_templates "Science"
    = Some Inference.science_template /\
  map objective_text
    (Inference.infer_candidates
       (Inference.mkTestInfo (Some "General Science"%string) (Some "Science"%string)
          (Some "Praxis"%string) None))
  = Inference.science_template.
Proof.
  split; [reflexivity |]. split; [reflexivity |].
  apply (@known_subject_takes_precedence
           (Inference.mkTestInfo (Some "General Science"%string)
              (Some "Science"%string) (Some "Praxis"%string) None)
           "Science" Inference.science_template); reflexivity.
Defined.

(** X5. The status that the inference engine writes and the status that
    the validation engine assigns differ for the two strategies of higher
    confidence: every candidate carries the status "inferred", while
    [assign_validation_status] answers "partial" for the candidates of a
    subject template or of the InTASC standards, and "inferred" for those
    of the generic system template or of the minimal fallback. *)
Theorem assigned_status_of_candidates :
  forall (test_info : Inference.TestInfo) (obj : Objective),
    In obj (Inference.infer_candidates test_info) ->
    validation_status obj = "inferred"%string /\
    Validation.assign_validation_status obj
    = match Inference.select_strategy test_info with
      | Inference.SubjectTemplate _ _ => "partial"
      | Inference.IntascStandards => "partial"
      | Inference.GenericSystem _ => "inferred"
      | Inference.MinimalFallback => "inferred"
      end%string.
Proof.
  intros test_info obj Hobj.
  unfold Inference.infer_candidates in Hobj.
  unfold Validation.assign_validation_status.
  destruct (Inference.select_strategy test_info) as [s l | | sys |];
    apply in_map_iff in Hobj as [entry [<- _]]; split; reflexivity.
Qed.

Lemma assigned_status_of_candidates_witness :
  In (Inference.emit None 0.75
        "Inferred from standard Mathematics teacher certification competency frameworks"
        (1%nat, "Apply mathematical reasoning and problem-solving strategies"%string))
     (Inference.infer_candidates
        (Inference.mkTestInfo None (Some "Mathematics"%string) None None)) /\
  Validation.assign_validation_status
    (Inference.emit None 0.75
       "Inferred from standard Mathematics teacher certification competency frameworks"
       (1%nat, "Apply mathematical reasoning and problem-solving strategies"%string))
  = "partial"%string.
Proof.
  assert (Hin :
    In (Inference.emit None 0.75
          "Inferred from standard Mathematics teacher certification competency frameworks"
          (1%nat, "Apply mathematical reasoning and problem-solving strategies"%string))
       (Inference.infer_candidates
          (Inference.mkTestInfo None (Some "Mathematics"%string) None None))).
  { right. left. reflexivity. }
  split; [exact Hin |].
  exact (proj2 (@assigned_status_of_candidates _ _ Hin)).
Defined.

(** ** Inference: [enhance_confidence] on any list *)

Lemma same_description_refl (obj : Enhancement.Dict) :
  Described.same_description obj obj.
Proof.
  unfold Described.same_description. repeat split.
Qed.

Lemma same_description_trans (a b c : Enhancement.Dict) :
  Described.same_description a b -> Described.same_description b c ->
  Described.same_description a c.
Proof.
  unfold Described.same_description.
  intros [H1 [H2 [H3 [H4 [H5 H6]]]]] [K1 [K2 [K3 [K4 [K5 K6]]]]].
  repeat split; congruence.
Qed.

(** When the loop body returns, it has changed at most the confidence and
    the rationale of its item, and only of an inferred one; the new
    confidence is not above 1.0. *)
Lemma enhance_one_returns (urls : list string) (obj : Enhancement.Ref)
      (store after : Enhancement.Store) :
  Enhancement.enhance_one urls obj store = (Ok tt, after) ->
  (forall ref, Described.same_description (store ref) (after ref)) /\
  (forall ref,
     ref <> obj \/ Enhancement.is_inferred (store ref) = false \/ urls = [] ->
     after ref = store ref) /\
  (urls <> [] -> Enhancement.is_inferred (store obj) = true ->
   Described.not_above_one (after obj)) /\
  (forall ref, Described.not_above_one (store ref) ->
               Described.not_above_one (after ref)).
Proof.
  unfold Enhancement.enhance_one.
  destruct (Enhancement.is_inferred (store obj)) eqn:Hinf;
    [destruct urls as [| u urls'] |]; cbn [length Nat.eqb negb andb].
  1, 3: intros Hrun; injection Hrun as <-;
    (split; [intros ref; apply same_description_refl |]);
    (split; [reflexivity |]);
    (split; [intros Hurls Hyes; congruence | intros ref Href; exact Href]).
  destruct (Enhancement.confidence (store obj)) as [| | old] eqn:Hold;
    try discriminate.
  cbv zeta. rewrite write_same.
  cbn [Enhancement.rationale Enhancement.set_confidence].
  destruct (Enhancement.rationale (store obj)) as [| | why] eqn:Hwhy;
    try discriminate.
  intros Hrun. injection Hrun as <-.
  assert (Hother : forall ref, ref <> obj ->
            Enhancement.write
              (Enhancement.write store obj
                 (Enhancement.set_confidence (store obj)
                    (Py.min (PrimFloat.add old (Enhancement.boost (u :: urls')))
                            1.0)))
              obj
              (Enhancement.set_rationale
                 (Enhancement.set_confidence (store obj)
                    (Py.min (PrimFloat.add old (Enhancement.boost (u :: urls')))
                            1.0))
                 (why ++ Inference.support_note (u :: urls'))) ref
            = store ref).
  { intros ref Hne. rewrite !write_other by exact Hne. reflexivity. }
  assert (Hbound : Described.not_above_one
            (Enhancement.set_rationale
               (Enhancement.set_confidence (store obj)
                  (Py.min (PrimFloat.add old (Enhancement.boost (u :: urls')))
                          1.0))
               (why ++ Inference.support_note (u :: urls')))).
  { eexists. split; [reflexivity |]. apply clamped_not_above_one. }
  split; [| split; [| split]].
  - intros ref. destruct (Nat.eq_dec ref obj) as [-> | Hne].
    + rewrite write_same. unfold Described.same_description.
      repeat split.
    + rewrite Hother by exact Hne. apply same_description_refl.
  - intros ref [Hne | [Hno | Hnone]].
    + apply Hother. exact Hne.
    + apply Hother. intros ->. congruence.
    + discriminate Hnone.
  - intros _ _. rewrite write_same. exact Hbound.
  - intros ref Href. destruct (Nat.eq_dec ref obj) as [-> | Hne].
    + rewrite write_same. exact Hbound.
    + rewrite Hother by exact Hne. exact Href.
Qed.

Lemma enhance_loop_returns (urls : list string) :
  forall (objectives : list Enhancement.Ref) (store after : Enhancement.Store),
    Enhancement.enhance_loop objectives urls store = (Ok tt, after) ->
    (forall ref, Described.same_description (store ref) (after ref)) /\
    (forall ref,
       ~ In ref objectives \/ Enhancement.is_inferred (store ref) = false
       \/ urls = [] ->
       after ref = store ref) /\
    (urls <> [] ->
     forall obj, In obj objectives ->
                 Enhancement.is_inferred (store obj) = true ->
                 Described.not_above_one (after obj)) /\
    (forall ref, Described.not_above_one (store ref) ->
                 Described.not_above_one (after ref)).
Proof.
  induction objectives as [| obj rest IH]; intros store after Hrun.
  - injection Hrun as <-.
    split; [intros ref; apply same_description_refl |].
    split; [reflexivity |].
    split; [intros _ ref [] | intros ref Href; exact Href].
  - cbn [Enhancement.enhance_loop] in Hrun.
    destruct (Enhancement.enhance_one urls obj store)
      as [[[] | e] store1] eqn:Hone; [| discriminate].
    destruct (enhance_one_returns _ _ _ Hone) as [Hsame1 [Hkeep1 [Hnew1 Hold1]]].
    destruct (IH store1 after Hrun) as [Hsame [Hkeep [Hnew Hold]]].
    split; [| split; [| split]].
    + intros ref. eapply same_description_trans; [apply Hsame1 | apply Hsame].
    + intros ref Href.
      assert (Hfirst : store1 ref = store ref).
      { apply Hkeep1. destruct Href as [Hout | [Hno | Hnone]].
        - left. intros ->. apply Hout. left. reflexivity.
        - right. left. exact Hno.
        - right. right. exact Hnone. }
      rewrite <- Hfirst. apply Hkeep.
      destruct Href as [Hout | [Hno | Hnone]].
      * left. intros Hin. apply Hout. right. exact Hin.
      * right. left. rewrite Hfirst. exact Hno.
      * right. right. exact Hnone.
    + intros Hurls ref [<- | Hin] Hinf.
      * apply Hold. apply Hnew1; assumption.
      * apply Hnew; [exact Hurls | exact Hin |].
        destruct (Hsame1 ref) as [_ [_ [_ [_ [Hsame_inf _]]]]].
        rewrite Hsame_inf. exact Hinf.
    + intros ref Href. apply Hold. apply Hold1. exact Href.
Qed.

(** X6. [enhance_confidence] on any list, also one that holds a
    dictionary more than once.  When it returns, it returns its first
    argument; every dictionary has kept what is under its keys other than
    ['confidence'] and ['rationale']; a dictionary that is not in the
    list or not inferred is unchanged, and so is every dictionary when no
    supporting URL is given; and with a supporting URL the confidence of
    every inferred objective of the list is a number that is not above
    1.0, whatever it was before and whatever the number of supporting
    URLs. *)
Theorem enhance_confidence_never_above_one :
  forall (objectives out : list Enhancement.Ref)
         (supporting_urls : list string) (store after : Enhancement.Store),
    Enhancement.enhance_confidence objectives supporting_urls store
    = (Ok out, after) ->
    out = objectives /\
    (forall ref, Described.same_description (store ref) (after ref)) /\
    (forall ref,
       ~ In ref objectives \/ Enhancement.is_inferred (store ref) = false
       \/ supporting_urls = [] ->
       after ref = store ref) /\
    (supporting_urls <> [] ->
     forall obj, In obj objectives ->
                 Enhancement.is_inferred (store obj) = true ->
                 Described.not_above_one (after obj)).
Proof.
  intros objectives out urls store after Hrun.
  unfold Enhancement.enhance_confidence in Hrun.
  destruct (Enhancement.enhance_loop objectives urls store)
    as [[[] | e] store1] eqn:Hloop; [| discriminate].
  injection Hrun as <- <-.
  destruct (enhance_loop_returns _ _ _ Hloop) as [Hsame [Hkeep [Hnew _]]].
  split; [reflexivity |]. split; [exact Hsame |]. split; [exact Hkeep |].
  exact Hnew.
Qed.

Lemma enhance_confidence_never_above_one_witness :
  fst (Enhancement.enhance_confidence [0%nat; 1%nat; 0%nat; 0%nat; 0%nat]
         Scenarios.four_urls Scenarios.objects)
  = Ok [0%nat; 1%nat; 0%nat; 0%nat; 0%nat] /\
  Enhancement.confidence
    (snd (Enhancement.enhance_confidence [0%nat; 1%nat; 0%nat; 0%nat; 0%nat]
            Scenarios.four_urls Scenarios.objects) 0%nat)
  = Enhancement.Number 1.0 /\
  Described.not_above_one
    (snd (Enhancement.enhance_confidence [0%nat; 1%nat; 0%nat; 0%nat; 0%nat]
            Scenarios.four_urls Scenarios.objects) 0%nat).
Proof.
  split; [vm_compute; reflexivity |]. split; [vm_compute; reflexivity |].
  refine (proj2 (proj2 (proj2
            (@enhance_confidence_never_above_one
               [0%nat; 1%nat; 0%nat; 0%nat; 0%nat]
               [0%nat; 1%nat; 0%nat; 0%nat; 0%nat]
               Scenarios.four_urls Scenarios.objects _ _))) _ 0%nat _ _).
  - vm_compute. reflexivity.
  - discriminate.
  - left. reflexivity.
  - reflexivity.
Defined.

(** ** Inference: [enhance_confidence] called twice *)

(** A dictionary that the specification's update has been applied to can
    be updated again. *)
Lemma enhanced_enhanceable (urls : list string)
      (before after : Enhancement.Dict) :
  Claimed.enhanceable before ->
  Claimed.enhanced urls before after ->
  Claimed.enhanceable after.
Proof.
  unfold Claimed.enhanced. intros Hable Hclaim.
  destruct (Enhancement.is_inferred before) eqn:Hinf.
  - destruct Hclaim as [[old [_ Hscore]] [[why [_ Hwhy]] _]].
    intros _. split; eexists; eassumption.
  - subst after. exact Hable.
Qed.

(** X7. [enhance_confidence] is not idempotent.  For a non-empty list of
    supporting URLs and a list that holds no dictionary twice and whose
    inferred objectives have a number as confidence and a string as
    rationale, the call returns, a second call on its result with the same
    URLs returns too, and it has boosted each inferred objective a second
    time: the confidence is [min(min(old + boost, 1.0) + boost, 1.0)] for
    the boost [min(0.1 * count, 0.3)], and the rationale ends with the
    note twice.  What is not inferred or not in the list is still as it
    was. *)
Theorem enhance_confidence_twice :
  forall (objectives : list Enhancement.Ref) (supporting_urls : list string)
         (store : Enhancement.Store),
    supporting_urls <> [] ->
    NoDup objectives ->
    Forall (fun obj => Claimed.enhanceable (store obj)) objectives ->
    exists once twice,
      Enhancement.enhance_confidence objectives supporting_urls store
      = (Ok objectives, once) /\
      Enhancement.enhance_confidence objectives supporting_urls once
      = (Ok objectives, twice) /\
      (forall obj old why,
         In obj objectives ->
         Enhancement.is_inferred (store obj) = true ->
         Enhancement.confidence (store obj) = Enhancement.Number old ->
         Enhancement.rationale (store obj) = Str why ->
         Enhancement.confidence (twice obj)
         = Enhancement.Number
             (Py.min (PrimFloat.add
                        (Py.min (PrimFloat.add old
                                   (Claimed.boost supporting_urls)) 1.0)
                        (Claimed.boost supporting_urls)) 1.0) /\
         Enhancement.rationale (twice obj)
         = Str ((why ++ Inference.support_note supporting_urls)
                ++ Inference.support_note supporting_urls)%string) /\
      (forall ref,
         ~ In ref objectives \/ Enhancement.is_inferred (store ref) = false ->
         twice ref = store ref).
Proof.
  intros objectives urls store Hurls Hdistinct Hable.
  destruct (@enhance_loop_distinct urls Hurls objectives store Hdistinct Hable)
    as [once [Hloop1 Hall1]].
  assert (Hable1 : Forall (fun obj => Claimed.enhanceable (once obj)) objectives).
  { apply Forall_forall. intros obj Hin.
    rewrite Forall_forall in Hable.
    exact (@enhanced_enhanceable urls _ _ (Hable obj Hin) (Hall1 obj Hin)). }
  destruct (@enhance_loop_distinct urls Hurls objectives once Hdistinct Hable1)
    as [twice [Hloop2 Hall2]].
  exists once, twice.
  split; [unfold Enhancement.enhance_confidence; rewrite Hloop1; reflexivity |].
  split; [unfold Enhancement.enhance_confidence; rewrite Hloop2; reflexivity |].
  split.
  - intros obj old why Hin Hinf Hold Hwhy.
    assert (H1 := Hall1 obj Hin). assert (H2 := Hall2 obj Hin).
    unfold Claimed.enhanced in H1. rewrite Hinf in H1.
    destruct H1 as [[old1 [Hb1 Ha1]] [[why1 [Hbw1 Haw1]] [_ [_ [_ [_ [Hinf1 _]]]]]]].
    rewrite Hold in Hb1. injection Hb1 as <-.
    rewrite Hwhy in Hbw1. injection Hbw1 as <-.
    unfold Claimed.enhanced in H2. rewrite Hinf1 in H2.
    destruct H2 as [[old2 [Hb2 Ha2]] [[why2 [Hbw2 Haw2]] _]].
    rewrite Ha1 in Hb2. injection Hb2 as <-.
    rewrite Haw1 in Hbw2. injection Hbw2 as <-.
    split; assumption.
  - intros ref Href.
    destruct (enhance_loop_returns _ _ _ Hloop1) as [_ [Hkeep1 _]].
    destruct (enhance_loop_returns _ _ _ Hloop2) as [_ [Hkeep2 _]].
    assert (Hfirst : once ref = store ref).
    { apply Hkeep1. destruct Href as [Hout | Hno]; [left | right; left]; assumption. }
    rewrite <- Hfirst. apply Hkeep2.
    destruct Href as [Hout | Hno]; [left; exact Hout |].
    right. left. rewrite Hfirst. exact Hno.
Qed.

Lemma enhance_confidence_twice_witness :
  (["https://a.gov/1"; "https://b.edu/2"]%string <> []) /\
  NoDup [0%nat] /\
  Forall (fun obj => Claimed.enhanceable (Scenarios.objects obj)) [0%nat] /\
  exists once twice,
    Enhancement.enhance_confidence [0%nat] ["https://a.gov/1"; "https://b.edu/2"] Scenarios.objects
    = (Ok [0%nat], once) /\
    Enhancement.enhance_confidence [0%nat] ["https://a.gov/1"; "https://b.edu/2"] once
    = (Ok [0%nat], twice) /\
    Enhancement.confidence (once 0%nat)
    = Enhancement.Number 0.6000000000000001 /\
    Enhancement.confidence (twice 0%nat) = Enhancement.Number 0.8.
Proof.
  assert (Hurls : ["https://a.gov/1"; "https://b.edu/2"]%string <> []) by discriminate.
  assert (Hdistinct : NoDup [0%nat]).
  { constructor; [intros [] | constructor]. }
  assert (Hable : Forall (fun obj => Claimed.enhanceable (Scenarios.objects obj))
                         [0%nat]).
  { constructor; [| constructor]. intros _. split; eexists; reflexivity. }
  split; [exact Hurls |]. split; [exact Hdistinct |]. split; [exact Hable |].
  destruct (@enhance_confidence_twice [0%nat] ["https://a.gov/1"; "https://b.edu/2"]%string
              Scenarios.objects Hurls Hdistinct Hable)
    as [once [twice [Hrun1 [Hrun2 [Hboost _]]]]].
  exists once, twice. split; [exact Hrun1 |]. split; [exact Hrun2 |].
  split.
  - assert (Honce : once = snd (Enhancement.enhance_confidence [0%nat]
                                  ["https://a.gov/1"; "https://b.edu/2"] Scenarios.objects))
      by (rewrite Hrun1; reflexivity).
    rewrite Honce. vm_compute. reflexivity.
  - destruct (Hboost 0%nat 0.4%float
                "Minimal inference based on general teaching standards; official objectives not found"%string
                (or_introl eq_refl) eq_refl eq_refl eq_refl) as [Hscore _].
    rewrite Hscore. vm_compute. reflexivity.
Defined.

(** ** Inference: [synthesize_from_standards] *)

Lemma any_in_incl (small large : list string) (text : string) :
  incl small large ->
  Py.any_in small text = true -> Py.any_in large text = true.
Proof.
  intros Hincl H. apply any_in_true_iff in H as [p [Hin Hp]].
  apply any_in_true_iff. exists p. split; [apply Hincl; exact Hin | exact Hp].
Qed.



Lemma synthesize_loop_items url lines :
  forall idx obj,
    In obj (Synthesis.synthesize_loop url idx lines) ->
    exists i, obj = Synthesis.synthesized url i (objective_text obj) /\
              Synthesis.is_standard_line (objective_text obj) = true.
Proof.
  induction lines as [| raw rest IH]; intros idx obj Hin; simpl in Hin.
  - destruct Hin.
  - destruct (Synthesis.is_standard_line (PyText.strip raw)) eqn:Hline.
    + destruct Hin as [<- | Hin].
      * exists idx. split; [reflexivity | exact Hline].
      * eapply IH; eauto.
    + eapply IH; eauto.
Qed.


(** X9. The two engines disagree on a synthesized objective, and the gate
    can still refuse it.  Each objective of [synthesize_from_standards]
    carries the status "partial", while [assign_validation_status] answers
    "inferred" for it (its confidence 0.65 is below 0.7); and
    [validate_objective] finds in it no issue but "too short" (the
    synthesis counts characters, the gate words) and "boilerplate". *)
Theorem synthesized_objectives_at_the_gate :
  forall (state_standards : string) (test_info : Inference.TestInfo)
         (obj : Objective),
    In obj (Synthesis.synthesize_from_standards state_standards test_info) ->
    validation_status obj = "partial"%string /\
    Validation.assign_validation_status obj = "inferred"%string /\
    forall issue,
      In issue (snd (Validation.validate_objective obj)) ->
      issue = Validation.TooShort (Validation.word_count (objective_text obj)) \/
      issue = Validation.Boilerplate.
Proof.
  intros text test_info obj Hin.
  unfold Synthesis.synthesize_from_standards in Hin.
  apply synthesize_loop_items in Hin as [i [Hobj Hline]].
  unfold Synthesis.is_standard_line in Hline.
  apply andb_true_iff in Hline as [_ Hverb].
  assert (Haction : Py.any_in Validation.action_verbs
                      (Py.lower (objective_text obj)) = true).
  { eapply any_in_incl; [| exact Hverb].
    intros v [<- | [<- | [<- | []]]]; simpl; auto. }
  split; [rewrite Hobj; reflexivity |].
  split; [rewrite Hobj; reflexivity |].
  intros issue Hissue.
  unfold Validation.validate_objective in Hissue. cbn [snd] in Hissue.
  unfold Validation.objective_issues in Hissue.
  rewrite Haction in Hissue.
  assert (Hinf : is_inferred obj = true) by (rewrite Hobj; reflexivity).
  assert (Hrange : Validation.confidence_in_range (confidence obj) = true)
    by (rewrite Hobj; reflexivity).
  assert (Hwhy : Py.truthy_opt (rationale obj) = true)
    by (rewrite Hobj; reflexivity).
  rewrite Hinf, Hrange, Hwhy in Hissue. cbn [app] in Hissue.
  repeat (apply in_app_or in Hissue as [Hissue | Hissue]);
    try match type of Hissue with
        | In _ (if ?b then _ else _) => destruct b
        end;
    cbn [In] in Hissue;
    try contradiction;
    destruct Hissue as [<- | []]; auto.
Qed.

Lemma synthesized_objectives_at_the_gate_witness :
  In (Synthesis.synthesized (Some "https://al.gov/standards"%string) 0
        "Apply this to teaching")
     (Synthesis.synthesize_from_standards
        "Standards
   Apply this to teaching   
short line"
        (Inference.mkTestInfo None None None (Some "https://al.gov/standards"%string))) /\
  snd (Validation.validate_objective
         (Synthesis.synthesized (Some "https://al.gov/standards"%string) 0
            "Apply this to teaching"))
  = [Validation.TooShort 4] /\
  Validation.assign_validation_status
    (Synthesis.synthesized (Some "https://al.gov/standards"%string) 0
       "Apply this to teaching")
  = "inferred"%string.
Proof.
  assert (Hin :
    In (Synthesis.synthesized (Some "https://al.gov/standards"%string) 0
          "Apply this to teaching")
       (Synthesis.synthesize_from_standards
          "Standards
   Apply this to teaching   
short line"
          (Inference.mkTestInfo None None None (Some "https://al.gov/standards"%string)))).
  { vm_compute. left. reflexivity. }
  split; [exact Hin |]. split; [vm_compute; reflexivity |].
  exact (proj1 (proj2 (@synthesized_objectives_at_the_gate _ _ _ Hin))).
Defined.

(** ** Discovery: objectives parsed from fetched content *)

Lemma short_line_skipped (line : string) :
  negb (Py.truthy line) || (String.length line <? 10)%nat
  = negb (10 <=? String.length line)%nat.
Proof.
  destruct line as [| c r]; [reflexivity |].
  cbn [Py.truthy negb orb].
  destruct (Nat.ltb_spec (String.length (String c r)) 10);
    destruct (Nat.leb_spec 10 (String.length (String c r))); try reflexivity; lia.
Qed.

Lemma parse_loop_step url index raw rest :
  Extraction.parse_loop url index (raw :: rest)
  = if Described.is_objective_line (PyText.strip raw)
    then Extraction.extracted url index (PyText.strip raw)
         :: Extraction.parse_loop url (S index) rest
    else Extraction.parse_loop url index rest.
Proof.
  cbn [Extraction.parse_loop]. unfold Described.is_objective_line.
  rewrite short_line_skipped.
  destruct (10 <=? String.length (PyText.strip raw))%nat; cbn [negb andb];
    reflexivity.
Qed.

Lemma parse_loop_texts url lines :
  forall index,
    map objective_text (Extraction.parse_loop url index lines)
    = filter Described.is_objective_line (map PyText.strip lines).
Proof.
  induction lines as [| raw rest IH]; intros index.
  - reflexivity.
  - rewrite parse_loop_step. cbn [map filter].
    destruct (Described.is_objective_line (PyText.strip raw)); cbn [map];
      rewrite IH; reflexivity.
Qed.

Lemma parse_loop_indices url lines :
  forall index,
    map objective_index (Extraction.parse_loop url index lines)
    = seq index (length (Extraction.parse_loop url index lines)).
Proof.
  induction lines as [| raw rest IH]; intros index.
  - reflexivity.
  - rewrite parse_loop_step.
    destruct (Described.is_objective_line (PyText.strip raw)).
    + cbn [map length seq]. rewrite <- IH. reflexivity.
    + apply IH.
Qed.

Lemma parse_loop_items url lines :
  forall index obj,
    In obj (Extraction.parse_loop url index lines) ->
    exists i, obj = Extraction.extracted url i (objective_text obj) /\
              Described.is_objective_line (objective_text obj) = true.
Proof.
  induction lines as [| raw rest IH]; intros index obj Hin.
  - destruct Hin.
  - rewrite parse_loop_step in Hin.
    destruct (Described.is_objective_line (PyText.strip raw)) eqn:Hline.
    + destruct Hin as [<- | Hin].
      * exists index. split; [reflexivity | exact Hline].
      * eapply IH; eauto.
    + eapply IH; eauto.
Qed.

Lemma objective_line_words (line : string) :
  Described.is_objective_line line = true ->
  (10 <= String.length line)%nat /\ (6 <= Validation.word_count line)%nat.
Proof.
  unfold Described.is_objective_line, Extraction.looks_like_objective,
    Validation.word_count.
  intros H. apply andb_true_iff in H as [Hlen Hlook].
  apply Nat.leb_le in Hlen. split; [exact Hlen |].
  destruct (Nat.ltb_spec (length (Py.split line)) 6); [discriminate | assumption].
Qed.

(** X10. [_parse_objectives_from_content] emits one objective for each line
    of the content that, once stripped, has ten characters at least and
    looks like an objective, and for no other: the texts of the result are
    exactly these stripped lines, in order.  The result is indexed 0, 1,
    2, ... without gaps; each item is marked as not inferred, with
    confidence 1.0 and status "verified", has the URL of the page as
    evidence URL and the first 200 characters of its text as excerpt, and
    its text has six words at least. *)
Theorem parse_objectives_from_content_emits :
  forall content url : string,
    map objective_text (Extraction.parse_objectives_from_content content url)
    = filter Described.is_objective_line
             (map PyText.strip (PyText.split_lines content)) /\
    map objective_index (Extraction.parse_objectives_from_content content url)
    = seq 0 (length (Extraction.parse_objectives_from_content content url)) /\
    Forall (fun obj =>
              is_inferred obj = false /\
              confidence obj = 1.0 /\
              validation_status obj = "verified"%string /\
              evidence_url obj = Some url /\
              evidence_excerpt obj = Some (PyText.take 200 (objective_text obj)) /\
              (6 <= Validation.word_count (objective_text obj))%nat)
           (Extraction.parse_objectives_from_content content url).
Proof.
  intros content url. unfold Extraction.parse_objectives_from_content.
  split; [apply parse_loop_texts |].
  split; [apply parse_loop_indices |].
  apply Forall_forall. intros obj Hin.
  apply parse_loop_items in Hin as [i [Hobj Hline]].
  apply objective_line_words in Hline as [_ Hwords].
  rewrite Hobj. simpl. repeat split. exact Hwords.
Qed.

Lemma extract_objectives_cases web_fetch url obj :
  In obj (Extraction.extract_objectives web_fetch url) ->
  exists u content,
    url = Some u /\ u <> ""%string /\
    In obj (Extraction.parse_objectives_from_content content u).
Proof.
  unfold Extraction.extract_objectives.
  destruct url as [u |]; [| intros []].
  destruct u as [| c r]; [intros [] |].
  cbn [Py.truthy_opt Py.truthy negb Py.get_str].
  destruct (web_fetch (String c r)) as [content | e]; [| intros []].
  destruct (Py.truthy_opt content); [| intros []].
  intros Hin. exists (String c r), (Py.get_str content).
  split; [reflexivity |]. split; [discriminate | exact Hin].
Qed.

(** X11. What [extract_objectives] returns is labelled consistently, and
    the gate can refuse it only for its wording.  Whatever the fetch
    answers, each objective returned has a non-empty evidence URL, the one
    of the test, so that [assign_validation_status] gives it the status
    "verified" that it already carries; and [validate_objective] finds in
    it no issue but "no action verb" (a line accepted for its list marker
    alone) and "boilerplate". *)
Theorem extracted_objectives_at_the_gate :
  forall (web_fetch : string -> Result (option string)) (url : option string)
         (obj : Objective),
    In obj (Extraction.extract_objectives web_fetch url) ->
    evidence_url obj = url /\
    Py.truthy_opt url = true /\
    Validation.assign_validation_status obj = validation_status obj /\
    validation_status obj = "verified"%string /\
    forall issue,
      In issue (snd (Validation.validate_objective obj)) ->
      issue = Validation.NoActionVerb \/ issue = Validation.Boilerplate.
Proof.
  intros web_fetch url obj Hin.
  apply extract_objectives_cases in Hin as [u [content [-> [Hu Hin]]]].
  unfold Extraction.parse_objectives_from_content in Hin.
  apply parse_loop_items in Hin as [i [Hobj Hline]].
  apply objective_line_words in Hline as [_ Hwords].
  assert (Htruthy : Py.truthy u = true)
    by (destruct u; [congruence | reflexivity]).
  split; [rewrite Hobj; reflexivity |].
  split; [exact Htruthy |].
  split.
  { rewrite Hobj. unfold Validation.assign_validation_status. simpl.
    rewrite Htruthy. reflexivity. }
  split; [rewrite Hobj; reflexivity |].
  intros issue Hissue.
  unfold Validation.validate_objective in Hissue. cbn [snd] in Hissue.
  unfold Validation.objective_issues in Hissue.
  assert (Hinf : is_inferred obj = false) by (rewrite Hobj; reflexivity).
  rewrite Hinf in Hissue.
  destruct (Nat.ltb_spec (Validation.word_count (objective_text obj)) 6);
    [lia |].
  cbn [app] in Hissue.
  repeat (apply in_app_or in Hissue as [Hissue | Hissue]);
    try match type of Hissue with
        | In _ (if ?b then _ else _) => destruct b
        end;
    cbn [In] in Hissue;
    try contradiction;
    destruct Hissue as [<- | []]; auto.
Qed.

Lemma extracted_objectives_at_the_gate_witness :
  In (Extraction.extracted "https://www.ets.org/praxis/5001" 0
        "1. Knowledge of phonics and word recognition skills")
     (Extraction.extract_objectives
        (fun _ => Ok (Some "Test framework
  1. Knowledge of phonics and word recognition skills
Home | About | Contact"%string))
        (Some "https://www.ets.org/praxis/5001"%string)) /\
  snd (Validation.validate_objective
         (Extraction.extracted "https://www.ets.org/praxis/5001" 0
            "1. Knowledge of phonics and word recognition skills"))
  = [Validation.NoActionVerb] /\
  Validation.assign_validation_status
    (Extraction.extracted "https://www.ets.org/praxis/5001" 0
       "1. Knowledge of phonics and word recognition skills")
  = "verified"%string.
Proof.
  assert (Hin :
    In (Extraction.extracted "https://www.ets.org/praxis/5001" 0
          "1. Knowledge of phonics and word recognition skills")
       (Extraction.extract_objectives
          (fun _ => Ok (Some "Test framework
  1. Knowledge of phonics and word recognition skills
Home | About | Contact"%string))
          (Some "https://www.ets.org/praxis/5001"%string))).
  { vm_compute. left. reflexivity. }
  split; [exact Hin |]. split; [vm_compute; reflexivity |].
  exact (proj1 (proj2 (proj2 (@extracted_objectives_at_the_gate _ _ _ Hin)))).
Defined.

(** ** Validation: the structure of a test *)

Lemma is_valid_provider_iff (p : string) :
  Structure.is_valid_provider p = true <-> In p Structure.valid_providers.
Proof.
  unfold Structure.is_valid_provider. rewrite existsb_exists. split.
  - intros [q [Hin Heq]]. apply String.eqb_eq in Heq. subst q. exact Hin.
  - intros Hin. exists p. split; [exact Hin | apply String.eqb_refl].
Qed.

Lemma missing_nil_iff (field : string) (value : option string) :
  Structure.missing field value = [] <-> Py.truthy_opt value = true.
Proof.
  unfold Structure.missing. destruct (Py.truthy_opt value); split; intros H;
    try reflexivity; discriminate.
Qed.

Lemma app_nil_iff {A} (l r : list A) : (l ++ r)%list = [] <-> l = [] /\ r = [].
Proof.
  split.
  - apply app_eq_nil.
  - intros [-> ->]. reflexivity.
Qed.

(** X12. [validate_test_structure] answers true exactly when the test has a
    name of three characters at least, a test system and an official
    source URL that are not empty, and a provider that is missing, empty
    or one of the six recognised ones; and then its issue list is
    empty. *)
Theorem validate_test_structure_accepts_iff :
  forall test_data : Structure.TestFields,
    (fst (Structure.validate_test_structure test_data) = true <->
     (exists name, Structure.test_name test_data = Some name /\
                   (3 <= String.length name)%nat) /\
     Py.truthy_opt (Structure.test_system test_data) = true /\
     Py.truthy_opt (Structure.official_source_url test_data) = true /\
     (Py.truthy_opt (Structure.provider test_data) = true ->
      In (Py.get_str (Structure.provider test_data)) Structure.valid_providers)) /\
    (fst (Structure.validate_test_structure test_data) = true <->
     snd (Structure.validate_test_structure test_data) = []).
Proof.
  intros test_data. unfold Structure.validate_test_structure. cbn [fst snd].
  split; [| apply length_zero_iff_nil].
  rewrite length_zero_iff_nil. unfold Structure.structure_issues.
  rewrite !app_nil_iff, !missing_nil_iff.
  destruct test_data as [name system url provider].
  cbn [Structure.test_name Structure.test_system Structure.official_source_url
       Structure.provider].
  split.
  - intros [Hname [Hsystem [Hurl [Hshort Hprovider]]]].
    rewrite Hname in Hshort. cbn [andb] in Hshort.
    destruct name as [name |]; [| discriminate]. cbn [Py.get_str] in Hshort.
    split.
    { exists name. split; [reflexivity |].
      destruct (Nat.ltb_spec (String.length name) 3); [discriminate | assumption]. }
    split; [exact Hsystem |]. split; [exact Hurl |].
    intros Hgiven. rewrite Hgiven in Hprovider. cbn [andb] in Hprovider.
    apply is_valid_provider_iff.
    destruct (Structure.is_valid_provider (Py.get_str provider));
      [reflexivity | discriminate].
  - intros [[n [Hname Hlen]] [Hsystem [Hurl Hprovider]]]. subst name.
    assert (Htruthy : Py.truthy n = true).
    { destruct n; [simpl in Hlen; lia | reflexivity]. }
    cbn [Py.truthy_opt Py.get_str]. rewrite Htruthy. cbn [andb].
    split; [reflexivity |]. split; [exact Hsystem |]. split; [exact Hurl |].
    split.
    + destruct (Nat.ltb_spec (String.length n) 3); [lia | reflexivity].
    + destruct (Py.truthy_opt provider); [| reflexivity]. cbn [andb].
      apply is_valid_provider_iff in Hprovider; [| reflexivity].
      rewrite Hprovider. reflexivity.
Qed.

Lemma string_length_append (a b : string) :
  String.length (a ++ b) = (String.length a + String.length b)%nat.
Proof.
  induction a as [| c a IH]; simpl; [reflexivity | rewrite IH; reflexivity].
Qed.

Lemma append_truthy (a b : string) :
  Py.truthy b = true -> Py.truthy (a ++ b) = true.
Proof.
  destruct a; simpl; auto.
Qed.

(** X13. The sample tests of the demonstration mode are well formed: for
    every state name and abbreviation, also empty ones, each of the three
    tests of [_generate_sample_tests] passes [validate_test_structure]
    without an issue. *)
Theorem sample_tests_are_well_formed :
  forall name abbrev : string,
    Forall (fun data =>
              Structure.validate_test_structure (Structure.fields_of data)
              = (true, []))
           (Orchestrator.generate_sample_tests name abbrev).
Proof.
  intros name abbrev. unfold Orchestrator.generate_sample_tests.
  repeat constructor.
  unfold Structure.validate_test_structure, Structure.structure_issues,
    Structure.missing, Structure.fields_of.
  cbn [Structure.test_name Structure.test_system Structure.official_source_url
       Structure.provider Orchestrator.test_name Orchestrator.test_system
       Orchestrator.official_source_url Orchestrator.provider
       Py.truthy_opt Py.get_str].
  rewrite !append_truthy by reflexivity.
  rewrite string_length_append.
  replace (String.length name + String.length " Teaching Foundations" <? 3)%nat
    with false
    by (symmetry; apply Nat.ltb_ge; simpl; lia).
  reflexivity.
Qed.

(** ** The two lists of authoritative domains *)

Lemma lower_append (a b : string) :
  Py.lower (a ++ b) = (Py.lower a ++ Py.lower b)%string.
Proof.
  induction a as [| c a IH]; simpl; [reflexivity | rewrite IH; reflexivity].
Qed.

Lemma prefix_append (p rest : string) : String.prefix p (p ++ rest) = true.
Proof.
  induction p as [| c p IH]; simpl.
  - destruct rest; reflexivity.
  - destruct (Ascii.ascii_dec c c) as [_ | Hne]; [exact IH | congruence].
Qed.

Lemma contains_inside (before p after : string) :
  Py.contains p (before ++ p ++ after) = true.
Proof.
  induction before as [| c before IH].
  - simpl. destruct (p ++ after)%string eqn:E; unfold Py.contains; fold Py.contains;
      rewrite <- ?E, prefix_append; reflexivity.
  - cbn [append]. unfold Py.contains; fold Py.contains.
    rewrite IH. apply orb_true_r.
Qed.

(** X14. Both checks of authority look for their patterns anywhere in the
    host name, in any letter case: a host whose lower-case form has one of
    the patterns somewhere inside it is accepted by
    [_is_authoritative_domain], and also by [_is_authoritative_source]
    unless the pattern is "act.org", the one pattern that only the
    validation engine has.  So "realestate.com" is authoritative for both,
    because of "state.". *)
Theorem authority_is_a_substring_test :
  forall (netloc before pattern after : string),
    In pattern Structure.authoritative_patterns ->
    Py.lower netloc = (before ++ pattern ++ after)%string ->
    Structure.is_authoritative_domain netloc = true /\
    (pattern <> "act.org"%string ->
     Extraction.is_authoritative_netloc netloc = true).
Proof.
  intros netloc before pattern after Hin Hlower.
  unfold Structure.is_authoritative_domain, Extraction.is_authoritative_netloc.
  rewrite Hlower. split.
  - apply any_in_true_iff. exists pattern. split; [exact Hin |].
    apply contains_inside.
  - intros Hother. apply any_in_true_iff. exists pattern. split.
    + unfold Structure.authoritative_patterns in Hin.
      unfold Extraction.authoritative_domains.
      cbn [In] in *.
      repeat (destruct Hin as [Hin | Hin]; [subst pattern; tauto |]).
      destruct Hin.
    + apply contains_inside.
Qed.

Lemma authority_is_a_substring_test_witness :
  Structure.is_authoritative_domain "RealEstate.com" = true /\
  Extraction.is_authoritative_netloc "RealEstate.com" = true.
Proof.
  destruct (@authority_is_a_substring_test "RealEstate.com" "reale" "state." "com")
    as [Hdomain Hsource].
  - simpl. tauto.
  - reflexivity.
  - split; [exact Hdomain |]. apply Hsource. discriminate.
Defined.

(** X15. Every host that the discovery engine takes for authoritative is
    authoritative for the validation engine as well; the converse fails
    for "www.act.org". *)
Theorem discovery_authority_implies_validation_authority :
  (forall netloc : string,
     Extraction.is_authoritative_netloc netloc = true ->
     Structure.is_authoritative_domain netloc = true) /\
  Structure.is_authoritative_domain "www.act.org" = true /\
  Extraction.is_authoritative_netloc "www.act.org" = false.
Proof.
  split; [| split; reflexivity].
  intros netloc. unfold Extraction.is_authoritative_netloc,
    Structure.is_authoritative_domain.
  apply any_in_incl.
  intros p Hp. unfold Extraction.authoritative_domains in Hp.
  unfold Structure.authoritative_patterns. cbn [In] in *.
  repeat (destruct Hp as [Hp | Hp]; [subst p; tauto |]).
  destruct Hp.
Qed.

(** ** Validation: the metrics of a set of objectives *)

Lemma list_sum_cons (n : nat) (l : list nat) :
  list_sum (n :: l) = (n + list_sum l)%nat.
Proof.
  reflexivity.
Qed.

Lemma tally_one_step (valid issues inferred verified : nat) (total : float)
      (obj : Objective) :
  Structure.tally_one (valid, issues, inferred, verified, total) obj
  = ((valid + length (Claimed.gate [obj]))%nat,
     (issues + Described.issue_total [obj])%nat,
     (inferred + length (filter is_inferred [obj]))%nat,
     (verified + length (filter (fun o => negb (is_inferred o)) [obj]))%nat,
     PrimFloat.add total (Py.binary64 (confidence obj))).
Proof.
  unfold Structure.tally_one, Claimed.gate, Described.issue_total.
  cbn [filter map]. rewrite list_sum_cons.
  unfold Validation.validate_objective. cbn [fst snd].
  destruct (Nat.eqb_spec (length (Validation.objective_issues obj)) 0) as [E | E];
    destruct (is_inferred obj); cbn [negb length list_sum fold_right];
    repeat (apply pair_equal_spec; split); solve [lia | reflexivity].
Qed.

Lemma tally_fold (objectives : list Objective) :
  forall (valid issues inferred verified : nat) (total : float),
    fold_left Structure.tally_one objectives
              (valid, issues, inferred, verified, total)
    = ((valid + length (Claimed.gate objectives))%nat,
       (issues + Described.issue_total objectives)%nat,
       (inferred + length (filter is_inferred objectives))%nat,
       (verified + length (filter (fun obj => negb (is_inferred obj)) objectives))%nat,
       fold_left (fun acc obj =>
                    PrimFloat.add acc (Py.binary64 (confidence obj)))
                 objectives total).
Proof.
  induction objectives as [| obj rest IH];
    intros valid issues inferred verified total.
  - unfold Described.issue_total. simpl.
    repeat (apply pair_equal_spec; split); solve [lia | reflexivity].
  - cbn [fold_left]. rewrite tally_one_step, IH.
    unfold Claimed.gate, Described.issue_total.
    cbn [filter map]. rewrite !list_sum_cons.
    destruct (fst (Validation.validate_objective obj));
      destruct (is_inferred obj); cbn [negb length list_sum fold_right];
      repeat (apply pair_equal_spec; split); solve [lia | reflexivity].
Qed.

Lemma issue_total_zero_iff (objectives : list Objective) :
  Described.issue_total objectives = 0%nat <->
  length (Claimed.gate objectives) = length objectives.
Proof.
  unfold Described.issue_total, Claimed.gate.
  induction objectives as [| obj objs IH]; [simpl; tauto |].
  cbn [map filter]. rewrite list_sum_cons.
  assert (Hle := filter_length_le
                   (fun obj => fst (Validation.validate_objective obj)) objs).
  change (fst (Validation.validate_objective obj))
    with (Nat.eqb (length (snd (Validation.validate_objective obj))) 0).
  destruct (Nat.eqb_spec (length (snd (Validation.validate_objective obj))) 0)
    as [E | E]; cbn [length]; lia.
Qed.

(** X16. The metrics of [validate_objectives_set] add up.  The total is
    the length of the list; the valid objectives are those that pass
    [validate_objective] one by one; every objective is counted either as
    inferred or as verified; the issues found are all the issues of all
    the objectives, so that there is none exactly when every objective is
    valid.  The average confidence is 0.0 for the empty list; for any
    other list it is the quotient, in floats, of the confidences added to
    0.0 from the first to the last by the length of the list. *)
Theorem validate_objectives_set_adds_up :
  forall objectives : list Objective,
    let metrics := Structure.validate_objectives_set objectives in
    Structure.total_objectives metrics = length objectives /\
    Structure.valid_objectives metrics = length (Claimed.gate objectives) /\
    Structure.inferred_count metrics = length (filter is_inferred objectives) /\
    (Structure.inferred_count metrics + Structure.verified_count metrics)%nat
    = Structure.total_objectives metrics /\
    (Structure.valid_objectives metrics <= Structure.total_objectives metrics)%nat /\
    Structure.issues_found metrics = Described.issue_total objectives /\
    (Structure.issues_found metrics = 0%nat <->
     Structure.valid_objectives metrics = Structure.total_objectives metrics) /\
    Structure.avg_confidence metrics
    = match objectives with
      | [] => 0.0%float
      | _ :: _ =>
          PrimFloat.div (Described.confidence_sum objectives)
                        (Py.float_of_len (length objectives))
      end.
Proof.
  intros objectives. destruct objectives as [| first rest].
  { simpl. repeat split; try reflexivity; try lia. }
  unfold Structure.validate_objectives_set.
  rewrite tally_fold. cbn zeta.
  cbn [Structure.total_objectives Structure.valid_objectives
       Structure.inferred_count Structure.verified_count
       Structure.issues_found Structure.avg_confidence Nat.add].
  set (objectives := first :: rest) in *.
  assert (Hsplit := filter_split_length is_inferred objectives).
  assert (Hgate : (length (Claimed.gate objectives) <= length objectives)%nat)
    by apply filter_length_le.
  assert (Hissues := issue_total_zero_iff objectives).
  split; [reflexivity |]. split; [reflexivity |]. split; [reflexivity |].
  split; [exact Hsplit |]. split; [exact Hgate |]. split; [reflexivity |].
  split; [exact Hissues |].
  reflexivity.
Qed.

(** The average of three confidences of 0.7 is a float below 0.7, and the
    scores of the code are the floats of their decimal literals. *)
Lemma avg_confidence_rounds :
  Structure.avg_confidence
    (Structure.validate_objectives_set
       (map (Inference.emit None 0.70 "Inferred from templates")
            [(0%nat, "a"); (1%nat, "b"); (2%nat, "c")]))
  = 0.6999999999999998%float /\
  map Py.binary64 [0.85; 0.75; 0.70; 0.60; 0.40; 0.5; 1.0]
  = [0.85; 0.75; 0.70; 0.60; 0.40; 0.5; 1.0]%float.
Proof.
  split; vm_compute; reflexivity.
Qed.

(** ** The PDF validator: [validate_multiple] and the reasons *)

Lemma validate_loop_accumulates urls :
  forall checked,
    PDFSearch.validate_loop urls checked
    = PDFSearch.mkFound
        (PDFSearch.found (PDFSearch.validate_loop urls []))
        (PDFSearch.found_url (PDFSearch.validate_loop urls []))
        (checked ++ PDFSearch.checked_urls (PDFSearch.validate_loop urls []))%list.
Proof.
  induction urls as [| [target net] rest IH]; intros checked.
  - simpl. rewrite app_nil_r. reflexivity.
  - cbn [PDFSearch.validate_loop].
    destruct (PDFValidator.is_valid_pdf target net) as [[|] why].
    + reflexivity.
    + rewrite IH. rewrite (IH ([] ++ _)%list).
      cbn [PDFSearch.found PDFSearch.found_url PDFSearch.checked_urls app].
      rewrite <- app_assoc. reflexivity.
Qed.

Lemma validate_multiple_step target net rest :
  PDFSearch.validate_multiple ((target, net) :: rest)
  = if Described.verdict (target, net)
    then PDFSearch.mkFound true (Some target) [Described.check (target, net)]
    else PDFSearch.mkFound
           (PDFSearch.found (PDFSearch.validate_multiple rest))
           (PDFSearch.found_url (PDFSearch.validate_multiple rest))
           (Described.check (target, net)
            :: PDFSearch.checked_urls (PDFSearch.validate_multiple rest)).
Proof.
  unfold PDFSearch.validate_multiple, Described.verdict, Described.check.
  cbn [PDFSearch.validate_loop fst snd app].
  destruct (PDFValidator.is_valid_pdf target net) as [[|] why]; cbn [fst snd].
  - reflexivity.
  - rewrite validate_loop_accumulates. reflexivity.
Qed.

(** X17. [validate_multiple] stops at the first valid URL.  Either no URL
    of the list is valid, and then it answers "not found" with no URL and
    has checked every URL of the list, in order; or the list has a first
    valid URL, and then it answers "found" with that URL and has checked
    the URLs before it and that one, in order, and none after it. *)
Theorem validate_multiple_stops_at_first_valid :
  forall urls : list (string * PDFValidator.Exchange),
    (Forall (fun entry => Described.verdict entry = false) urls /\
     PDFSearch.validate_multiple urls
     = PDFSearch.mkFound false None (map Described.check urls)) \/
    (exists before entry after,
       urls = (before ++ entry :: after)%list /\
       Forall (fun e => Described.verdict e = false) before /\
       Described.verdict entry = true /\
       PDFSearch.validate_multiple urls
       = PDFSearch.mkFound true (Some (fst entry))
           (map Described.check (before ++ [entry])%list)).
Proof.
  induction urls as [| [target net] rest IH].
  - left. split; [constructor | reflexivity].
  - rewrite validate_multiple_step.
    destruct (Described.verdict (target, net)) eqn:Hverdict.
    + right. exists [], (target, net), rest.
      split; [reflexivity |]. split; [constructor |].
      split; [exact Hverdict | reflexivity].
    + destruct IH as [[Hnone Hrun] | [before [entry [after [Hlist [Hbefore [Hvalid Hrun]]]]]]].
      * left. split; [constructor; assumption |]. rewrite Hrun. reflexivity.
      * right. exists ((target, net) :: before), entry, after.
        split; [rewrite Hlist; reflexivity |].
        split; [constructor; assumption |].
        split; [exact Hvalid |]. rewrite Hrun. reflexivity.
Qed.

Lemma on_exception_reason (e : PDFValidator.RequestError) :
  fst (PDFValidator.on_exception e)
  = String.prefix "Valid PDF" (snd (PDFValidator.on_exception e)).
Proof.
  destruct e; reflexivity.
Qed.

Lemma check_final_url_reason (response : PDFValidator.Response) :
  fst (PDFValidator.check_final_url response)
  = String.prefix "Valid PDF" (snd (PDFValidator.check_final_url response)).
Proof.
  unfold PDFValidator.check_final_url.
  destruct (Py.contains ".pdf" (Py.lower (PDFValidator.url response)));
    reflexivity.
Qed.

(** X18. The reason tells the verdict: [is_valid_pdf] answers true exactly
    when the reason it gives begins with "Valid PDF"; a reason of a
    rejection ("Invalid URL format", "HTTP <code>", "Request timeout",
    "Error: ...", ...) never does. *)
Theorem is_valid_pdf_reason_tells_verdict :
  forall (target : string) (net : PDFValidator.Exchange),
    fst (PDFValidator.is_valid_pdf target net)
    = String.prefix "Valid PDF" (snd (PDFValidator.is_valid_pdf target net)).
Proof.
  intros target net. unfold PDFValidator.is_valid_pdf.
  destruct (PDFValidator.parsed net) as [p | e]; [| apply on_exception_reason].
  destruct (negb (Py.truthy (PDFValidator.scheme p))
            || negb (Py.truthy (PDFValidator.netloc p))); [reflexivity |].
  destruct (PDFValidator.head_response net) as [head | e];
    [| apply on_exception_reason].
  destruct (if negb (PDFValidator.status_code head =? 200)%Z
            then PDFValidator.get_response net
            else PDFValidator.Returns head) as [response | e];
    [| apply on_exception_reason].
  destruct (negb (PDFValidator.status_code response =? 200)%Z); [reflexivity |].
  destruct (Py.contains "application/pdf"
              (Py.lower (Py.get_str (PDFValidator.content_type response))));
    [reflexivity |].
  destruct (Py.endswith (Py.lower target) ".pdf"
            || Py.endswith (Py.lower (PDFValidator.url response)) ".pdf");
    [| apply check_final_url_reason].
  destruct (PDFValidator.signature_response net) as [response' | e];
    [| apply on_exception_reason].
  destruct (PDFValidator.first_chunk response') as [chunk | e];
    [| apply on_exception_reason].
  destruct (PDFValidator.chunk_is_pdf chunk); [reflexivity |].
  destruct (PDFValidator.chunk_truthy chunk); [reflexivity |].
  apply check_final_url_reason.
Qed.

(** ** The PDF searcher *)



(** ** The database: [upsert_state] and [upsert_test] *)

Lemma existsb_false {A} (f : A -> bool) (l : list A) :
  (forall x, In x l -> f x = false) -> existsb f l = false.
Proof.
  induction l as [| x r IH]; intros H; simpl; [reflexivity |].
  rewrite (H x) by (left; reflexivity). apply IH.
  intros y Hy. apply H. right. exact Hy.
Qed.

Lemma find_none_iff {A} (f : A -> bool) (l : list A) :
  find f l = None <-> forall x, In x l -> f x = false.
Proof.
  split; [apply find_none |].
  induction l as [| x r IH]; intros H; simpl; [reflexivity |].
  rewrite (H x) by (left; reflexivity). apply IH.
  intros y Hy. apply H. right. exact Hy.
Qed.

Lemma find_last {A} (f : A -> bool) (l : list A) (x : A) :
  (forall y, In y l -> f y = false) -> f x = true ->
  find f (l ++ [x]) = Some x.
Proof.
  induction l as [| y r IH]; intros Hl Hx; simpl.
  - rewrite Hx. reflexivity.
  - rewrite (Hl y) by (left; reflexivity). apply IH; [| exact Hx].
    intros z Hz. apply Hl. right. exact Hz.
Qed.

(** A state whose name is in the table: no row is written, whatever the
    abbreviation, and the id of the first row with the name is returned;
    the insertion that was ignored has used up an id. *)
Lemma upsert_state_known faulty name abbrev db row :
  faulty (Orchestrator.CallUpsertState name abbrev) db = None ->
  find (fun r => String.eqb (Orchestrator.state_name r) name)
       (Orchestrator.states db) = Some row ->
  Orchestrator.upsert_state faulty name abbrev db
  = (Ok (Orchestrator.state_id row), Described.state_id_used_up db).
Proof.
  intros Hcall Hfind.
  unfold Orchestrator.upsert_state, Orchestrator.sql,
    Orchestrator.insert_or_ignore_state.
  rewrite Hcall.
  assert (Hexists : existsb (fun r => String.eqb (Orchestrator.state_name r) name
                                      || String.eqb (Orchestrator.state_abbrev r) abbrev)
                            (Orchestrator.states db) = true).
  { apply find_some in Hfind as [Hin Hname].
    apply existsb_exists. exists row. split; [exact Hin |].
    rewrite Hname. reflexivity. }
  rewrite Hexists. cbn [Orchestrator.states]. rewrite Hfind. reflexivity.
Qed.

(** A state whose name and abbreviation are both new gets the next id of
    the sequence. *)
Lemma upsert_state_fresh name abbrev db :
  (forall r, In r (Orchestrator.states db) ->
             Orchestrator.state_name r <> name /\
             Orchestrator.state_abbrev r <> abbrev) ->
  Orchestrator.upsert_state Orchestrator.no_fault name abbrev db
  = (Ok (S (Orchestrator.state_seq db)),
     Orchestrator.mkDatabase
       (Orchestrator.states db
        ++ [Orchestrator.mkStateRow (S (Orchestrator.state_seq db)) name abbrev])%list
       (Orchestrator.tests db) (Orchestrator.objectives db)
       (Orchestrator.audits db) (S (Orchestrator.state_seq db))
       (S (Orchestrator.state_seq db)) (Orchestrator.test_seq db)).
Proof.
  intros Hnew.
  unfold Orchestrator.upsert_state, Orchestrator.sql, Orchestrator.no_fault,
    Orchestrator.insert_or_ignore_state.
  rewrite existsb_false.
  2:{ intros r Hr. destruct (Hnew r Hr) as [Hname Habbrev].
      apply orb_false_iff. split; apply String.eqb_neq; assumption. }
  cbn [Orchestrator.states].
  rewrite find_last.
  - reflexivity.
  - intros r Hr. apply String.eqb_neq. apply (Hnew r Hr).
  - apply String.eqb_refl.
Qed.

Lemma used_up_keeps_states (times : nat) (db : Orchestrator.Database) :
  Orchestrator.states (Nat.iter times Described.state_id_used_up db)
  = Orchestrator.states db.
Proof.
  induction times as [| n IH]; [reflexivity |].
  cbn [Nat.iter nat_rect]. unfold Described.state_id_used_up at 1.
  cbn [Orchestrator.states]. exact IH.
Qed.

(** X20. [upsert_state] gives a state one id for good, and uses up an id
    at each call.  Once it has returned an id for a name, every later
    call for that name that SQLite answers returns the same id, whatever
    abbreviation it is given; it leaves the four tables as they were (the
    abbreviation of the row is not updated), but the insertion that was
    ignored has taken an id from the sequence of the table: after [times]
    such calls the sequence is [times] further.  The id returned is that
    of a row of the table with this name. *)
Theorem upsert_state_is_idempotent :
  forall (faulty : Orchestrator.Call -> Orchestrator.Database -> option string)
         (name abbrev : string) (db db1 : Orchestrator.Database) (id : nat),
    Orchestrator.upsert_state faulty name abbrev db = (Ok id, db1) ->
    (exists row, In row (Orchestrator.states db1) /\
                 Orchestrator.state_id row = id /\
                 Orchestrator.state_name row = name) /\
    forall (abbrev' : string) (times : nat),
      faulty (Orchestrator.CallUpsertState name abbrev')
             (Nat.iter times Described.state_id_used_up db1) = None ->
      Orchestrator.upsert_state faulty name abbrev'
        (Nat.iter times Described.state_id_used_up db1)
      = (Ok id, Nat.iter (S times) Described.state_id_used_up db1).
Proof.
  intros faulty name abbrev db db1 id Hrun.
  unfold Orchestrator.upsert_state in Hrun.
  apply sql_cases in Hrun as [[e [_ [Hraise _]]] | [_ Hrun]]; [discriminate |].
  destruct (find (fun r => String.eqb (Orchestrator.state_name r) name)
                 (Orchestrator.states
                    (Orchestrator.insert_or_ignore_state name abbrev db)))
    as [row |] eqn:Hfind; [| discriminate].
  injection Hrun as <- <-.
  split.
  - pose proof Hfind as Hrow. apply find_some in Hrow as [Hin Hname].
    apply String.eqb_eq in Hname. exists row. auto.
  - intros abbrev' times Hcall.
    apply upsert_state_known; [exact Hcall |].
    rewrite used_up_keeps_states. exact Hfind.
Qed.

Lemma upsert_state_is_idempotent_witness :
  Orchestrator.upsert_state Orchestrator.no_fault "Alabama" "AL"
    Orchestrator.empty_database
  = (Ok 1%nat,
     Orchestrator.mkDatabase [Orchestrator.mkStateRow 1 "Alabama" "AL"] [] [] [] 1 1 0) /\
  Orchestrator.upsert_state Orchestrator.no_fault "Alabama" "XX"
    (Orchestrator.mkDatabase [Orchestrator.mkStateRow 1 "Alabama" "AL"] [] [] [] 1 1 0)
  = (Ok 1%nat,
     Orchestrator.mkDatabase [Orchestrator.mkStateRow 1 "Alabama" "AL"] [] [] [] 1 2 0) /\
  fst (Orchestrator.upsert_state Orchestrator.no_fault "Alaska" "AK"
         (Orchestrator.mkDatabase [Orchestrator.mkStateRow 1 "Alabama" "AL"] [] [] [] 1 2 0))
  = Ok 3%nat.
Proof.
  assert (Hrun :
    Orchestrator.upsert_state Orchestrator.no_fault "Alabama" "AL"
      Orchestrator.empty_database
    = (Ok 1%nat,
       Orchestrator.mkDatabase [Orchestrator.mkStateRow 1 "Alabama" "AL"] [] [] [] 1 1 0))
    by reflexivity.
  split; [exact Hrun |].
  split; [| reflexivity].
  exact (proj2 (@upsert_state_is_idempotent _ _ _ _ _ _ Hrun) "XX"%string 0%nat eq_refl).
Defined.

(** X21. An abbreviation that is taken stops the unit before its audit.
    Let the log file of the state open and SQLite answer the call.  When
    no state of the table has the name but one has the abbreviation,
    [INSERT OR IGNORE] writes no row, [upsert_state] raises the
    [TypeError] of [fetchone()[0]], and [process_state] raises it in turn,
    outside its [try] block: no audit row is started and the four tables
    are as they were, whatever the discovery step would have done; only
    an id of the sequence of [states] is used up. *)
Theorem taken_abbreviation_stops_the_unit :
  forall (faulty : Orchestrator.Call -> Orchestrator.Database -> option string)
         (discover : string -> string -> Result (list Orchestrator.TestData))
         (name abbrev : string) (db : Orchestrator.Database),
    faulty (Orchestrator.CallGetStateLogger name) db = None ->
    faulty (Orchestrator.CallUpsertState name abbrev) db = None ->
    (forall r, In r (Orchestrator.states db) -> Orchestrator.state_name r <> name) ->
    (exists r, In r (Orchestrator.states db) /\ Orchestrator.state_abbrev r = abbrev) ->
    Orchestrator.upsert_state faulty name abbrev db
    = (Raise "'NoneType' object is not subscriptable",
       Described.state_id_used_up db) /\
    Orchestrator.process_state_with faulty discover name abbrev db
    = (Raise "'NoneType' object is not subscriptable",
       Described.state_id_used_up db).
Proof.
  intros faulty discover name abbrev db Hlog Hcall Hname [taken [Hin Habbrev]].
  assert (Hrun : Orchestrator.upsert_state faulty name abbrev db
                 = (Raise "'NoneType' object is not subscriptable",
                    Described.state_id_used_up db)).
  { unfold Orchestrator.upsert_state, Orchestrator.sql,
      Orchestrator.insert_or_ignore_state.
    rewrite Hcall.
    assert (Hexists : existsb (fun r => String.eqb (Orchestrator.state_name r) name
                                        || String.eqb (Orchestrator.state_abbrev r) abbrev)
                              (Orchestrator.states db) = true).
    { apply existsb_exists. exists taken. split; [exact Hin |].
      rewrite Habbrev, String.eqb_refl. apply orb_true_r. }
    rewrite Hexists. cbn [Orchestrator.states].
    assert (Hfind : find (fun r => String.eqb (Orchestrator.state_name r) name)
                         (Orchestrator.states db) = None).
    { apply find_none_iff. intros r Hr. apply String.eqb_neq. apply Hname. exact Hr. }
    rewrite Hfind. reflexivity. }
  split; [exact Hrun |].
  unfold Orchestrator.process_state_with, Orchestrator.bind.
  unfold Orchestrator.get_state_logger, Orchestrator.sql at 1.
  rewrite Hlog. unfold Orchestrator.ret.
  rewrite Hrun. reflexivity.
Qed.

Lemma taken_abbreviation_stops_the_unit_witness :
  Orchestrator.process_state Orchestrator.no_fault "Alaska" "AL"
    (Orchestrator.mkDatabase [Orchestrator.mkStateRow 1 "Alabama" "AL"] [] [] [] 1 1 0)
  = (Raise "'NoneType' object is not subscriptable",
     Orchestrator.mkDatabase [Orchestrator.mkStateRow 1 "Alabama" "AL"] [] [] [] 1 2 0).
Proof.
  apply (@taken_abbreviation_stops_the_unit Orchestrator.no_fault
           Orchestrator.sample_discovery "Alaska" "AL"
           (Orchestrator.mkDatabase [Orchestrator.mkStateRow 1 "Alabama" "AL"] [] [] [] 1 1 0)).
  - reflexivity.
  - reflexivity.
  - intros r [<- | []]. discriminate.
  - eexists. split; [left; reflexivity | reflexivity].
Defined.

Lemma same_test_without_code state data row :
  Orchestrator.test_code data = None ->
  Orchestrator.same_test state data row = false.
Proof.
  intros Hcode. unfold Orchestrator.same_test, Orchestrator.opt_eqb.
  rewrite Hcode.
  destruct (Orchestrator.test_code (Orchestrator.test_data row));
    apply andb_false_r.
Qed.

Lemma same_test_after_update state data row :
  Orchestrator.same_test state data (Orchestrator.update_test data row)
  = Orchestrator.same_test state data row.
Proof.
  reflexivity.
Qed.

(** A test that conflicts with no row is inserted under the next id of
    the sequence. *)
Lemma upsert_test_fresh state data db :
  existsb (Orchestrator.same_test state data) (Orchestrator.tests db) = false ->
  Orchestrator.upsert_test Orchestrator.no_fault state data db
  = (Ok (S (Orchestrator.test_seq db)),
     Orchestrator.mkDatabase
       (Orchestrator.states db)
       (Orchestrator.tests db
        ++ [Orchestrator.mkTestRow (S (Orchestrator.test_seq db)) state data])%list
       (Orchestrator.objectives db) (Orchestrator.audits db)
       (S (Orchestrator.test_seq db))
       (Orchestrator.state_seq db) (S (Orchestrator.test_seq db))).
Proof.
  intros Hnew.
  unfold Orchestrator.upsert_test, Orchestrator.sql, Orchestrator.no_fault.
  rewrite Hnew. reflexivity.
Qed.

(** After an upsert of a test with a code, a row of the table conflicts
    with the test. *)
Lemma upsert_test_leaves_conflict state data code db :
  Orchestrator.test_code data = Some code ->
  existsb (Orchestrator.same_test state data)
          (Orchestrator.tests
             (snd (Orchestrator.upsert_test Orchestrator.no_fault state data db)))
  = true.
Proof.
  intros Hcode.
  unfold Orchestrator.upsert_test, Orchestrator.sql, Orchestrator.no_fault.
  destruct (existsb (Orchestrator.same_test state data) (Orchestrator.tests db))
    eqn:Hold; cbn [snd Orchestrator.tests].
  - apply existsb_exists in Hold as [row [Hin Hsame]].
    apply existsb_exists.
    exists (Orchestrator.update_test data row). split.
    + apply in_map_iff. exists row. rewrite Hsame. auto.
    + rewrite same_test_after_update. exact Hsame.
  - rewrite existsb_app. cbn [existsb].
    unfold Orchestrator.same_test, Orchestrator.opt_eqb.
    cbn [Orchestrator.test_state_id Orchestrator.test_data].
    rewrite Hcode, Nat.eqb_refl, !String.eqb_refl.
    cbn [andb orb]. apply orb_true_r.
Qed.

(** X22. A test is stored once when it has a code and once more at each
    upsert when it has none, and every upsert uses up an id.  Take the
    database that one [upsert_test] has left.  For a test whose
    [test_code] is [None] (the state exam of the sample tests), a second
    [upsert_test] of the same data inserts one more row, under the next id
    of the sequence, and returns that id: a [NULL] code conflicts with
    nothing.  For a test with a code, the second upsert adds no row and
    changes no id; what it returns is the row id of the last insertion of
    the connection, whichever table that insertion was in; and it has
    taken an id from the sequence all the same, so that the ids of the
    tests inserted later have a gap. *)
Theorem second_upsert_test :
  forall (state : nat) (data : Orchestrator.TestData) (db : Orchestrator.Database),
    let db1 := snd (Orchestrator.upsert_test Orchestrator.no_fault state data db) in
    let second := Orchestrator.upsert_test Orchestrator.no_fault state data db1 in
    Orchestrator.test_seq (snd second) = S (Orchestrator.test_seq db1) /\
    match Orchestrator.test_code data with
    | None =>
        fst second = Ok (S (Orchestrator.test_seq db1)) /\
        Orchestrator.tests (snd second)
        = (Orchestrator.tests db1
           ++ [Orchestrator.mkTestRow (S (Orchestrator.test_seq db1)) state data])%list
    | Some _ =>
        fst second = Ok (Orchestrator.lastrowid db1) /\
        length (Orchestrator.tests (snd second)) = length (Orchestrator.tests db1) /\
        map Orchestrator.test_id (Orchestrator.tests (snd second))
        = map Orchestrator.test_id (Orchestrator.tests db1)
    end.
Proof.
  intros state data db db1 second. subst second.
  destruct (Orchestrator.test_code data) as [code |] eqn:Hcode.
  - pose proof (@upsert_test_leaves_conflict state data code db Hcode) as Hconflict.
    fold db1 in Hconflict.
    unfold Orchestrator.upsert_test at 1 2 3 4, Orchestrator.sql, Orchestrator.no_fault.
    rewrite Hconflict. cbn [fst snd Orchestrator.tests Orchestrator.test_seq].
    split; [reflexivity |].
    split; [reflexivity |]. rewrite length_map. split; [reflexivity |].
    rewrite map_map. apply map_ext. intros row.
    destruct (Orchestrator.same_test state data row); reflexivity.
  - rewrite upsert_test_fresh.
    + split; [reflexivity |]. split; reflexivity.
    + apply existsb_false. intros row _.
      apply same_test_without_code. exact Hcode.
Qed.

(** ** A batch in demonstration mode when nothing around it fails *)

(** Without failures of the database the inner loop always returns; it
    leaves the states, the tests and the two sequences as they were and
    appends the rows of the objectives that pass the gate, in order. *)
Lemma store_objective_no_fault test obj c d :
  exists c' d' rows,
    Orchestrator.store_objective Orchestrator.no_fault test obj (c, d)
    = (Ok tt, (c', d')) /\
    Orchestrator.states d' = Orchestrator.states d /\
    Orchestrator.tests d' = Orchestrator.tests d /\
    Orchestrator.state_seq d' = Orchestrator.state_seq d /\
    Orchestrator.test_seq d' = Orchestrator.test_seq d /\
    Orchestrator.objectives d' = (Orchestrator.objectives d ++ rows)%list /\
    map Orchestrator.objective_data rows = Claimed.gate [obj].
Proof.
  unfold Orchestrator.store_objective, Claimed.gate. cbn [filter].
  destruct (fst (Validation.validate_objective obj)).
  - unfold Orchestrator.bind, Orchestrator.on_db, Orchestrator.insert_objective,
      Orchestrator.sql, Orchestrator.no_fault, Orchestrator.update_counts.
    eexists _, _, [_]. split; [reflexivity |].
    cbn [Orchestrator.states Orchestrator.tests Orchestrator.objectives map
         Orchestrator.objective_data Orchestrator.state_seq Orchestrator.test_seq].
    repeat split.
  - exists c, d, []. unfold Orchestrator.ret. rewrite app_nil_r.
    repeat split.
Qed.

Lemma store_loop_no_fault test objectives :
  forall c d,
    exists c' d' rows,
      Orchestrator.for_each objectives
        (Orchestrator.store_objective Orchestrator.no_fault test) (c, d)
      = (Ok tt, (c', d')) /\
      Orchestrator.states d' = Orchestrator.states d /\
      Orchestrator.tests d' = Orchestrator.tests d /\
      Orchestrator.state_seq d' = Orchestrator.state_seq d /\
      Orchestrator.test_seq d' = Orchestrator.test_seq d /\
      Orchestrator.objectives d' = (Orchestrator.objectives d ++ rows)%list /\
      map Orchestrator.objective_data rows = Claimed.gate objectives.
Proof.
  induction objectives as [| obj rest IH]; intros c d.
  - exists c, d, []. simpl. unfold Orchestrator.ret. rewrite app_nil_r.
    repeat split.
  - destruct (store_objective_no_fault test obj c d)
      as [c1 [d1 [rows1 [Hone [Hstates1 [Htests1 [Hsseq1 [Htseq1 [Hobjs1 Hdata1]]]]]]]]].
    destruct (IH c1 d1)
      as [c2 [d2 [rows2 [Hrest [Hstates2 [Htests2 [Hsseq2 [Htseq2 [Hobjs2 Hdata2]]]]]]]]].
    exists c2, d2, (rows1 ++ rows2)%list.
    split.
    { cbn [Orchestrator.for_each]. unfold Orchestrator.bind.
      rewrite Hone. exact Hrest. }
    split; [congruence |]. split; [congruence |].
    split; [congruence |]. split; [congruence |].
    split; [rewrite Hobjs2, Hobjs1, app_assoc; reflexivity |].
    rewrite map_app, Hdata1, Hdata2. unfold Claimed.gate.
    rewrite <- filter_app. reflexivity.
Qed.

(** One test that conflicts with no row of the table: it is inserted under
    the next id of the sequence, and the objectives inferred for it that
    pass the gate are stored. *)
Lemma process_test_no_fault state data c d :
  existsb (Orchestrator.same_test state data) (Orchestrator.tests d) = false ->
  exists c' d' rows,
    Orchestrator.process_test Orchestrator.no_fault state data (c, d)
    = (Ok tt, (c', d')) /\
    Orchestrator.states d' = Orchestrator.states d /\
    Orchestrator.tests d'
    = (Orchestrator.tests d
       ++ [Orchestrator.mkTestRow (S (Orchestrator.test_seq d)) state data])%list /\
    Orchestrator.state_seq d' = Orchestrator.state_seq d /\
    Orchestrator.test_seq d' = S (Orchestrator.test_seq d) /\
    Orchestrator.objectives d' = (Orchestrator.objectives d ++ rows)%list /\
    map Orchestrator.objective_data rows = Claimed.accepted data.
Proof.
  intros Hnew.
  unfold Orchestrator.process_test, Orchestrator.bind at 1, Orchestrator.on_db.
  rewrite (upsert_test_fresh _ _ _ Hnew).
  unfold Orchestrator.bind at 1, Orchestrator.update_counts.
  match goal with
  | |- context [Orchestrator.for_each ?objs ?body (?c1, ?d1)] =>
      destruct (store_loop_no_fault (S (Orchestrator.test_seq d)) objs c1 d1)
        as [c2 [d2 [rows [Hloop [Hstates [Htests [Hsseq [Htseq [Hobjs Hdata]]]]]]]]]
  end.
  exists c2, d2, rows.
  split; [exact Hloop |].
  cbn [Orchestrator.states Orchestrator.tests Orchestrator.objectives
       Orchestrator.state_seq Orchestrator.test_seq]
    in Hstates, Htests, Hobjs, Hsseq, Htseq.
  repeat split; assumption.
Qed.

Lemma fresh_by_state state data (rows : list Orchestrator.TestRow) :
  Forall (fun r => Orchestrator.test_state_id r <> state) rows ->
  existsb (Orchestrator.same_test state data) rows = false.
Proof.
  intros Hrows. apply existsb_false. intros r Hr.
  rewrite Forall_forall in Hrows. specialize (Hrows r Hr).
  unfold Orchestrator.same_test.
  apply Nat.eqb_neq in Hrows. rewrite Hrows. reflexivity.
Qed.

(** The three sample tests of a state whose id no test of the table has:
    all three are inserted, none updates another. *)
Lemma sample_tests_no_fault name abbrev state c d :
  Forall (fun r => Orchestrator.test_state_id r <> state) (Orchestrator.tests d) ->
  exists c' d' new rows,
    Orchestrator.for_each (Orchestrator.generate_sample_tests name abbrev)
      (Orchestrator.process_test Orchestrator.no_fault state) (c, d)
    = (Ok tt, (c', d')) /\
    Orchestrator.states d' = Orchestrator.states d /\
    Orchestrator.tests d' = (Orchestrator.tests d ++ new)%list /\
    length new = 3%nat /\
    Forall (fun r => Orchestrator.test_state_id r = state) new /\
    Orchestrator.state_seq d' = Orchestrator.state_seq d /\
    Orchestrator.test_seq d' = (3 + Orchestrator.test_seq d)%nat /\
    Orchestrator.objectives d' = (Orchestrator.objectives d ++ rows)%list /\
    map Orchestrator.objective_data rows
    = Described.unit_objectives (name, abbrev).
Proof.
  intros Hfresh.
  unfold Described.unit_objectives. cbn [fst snd].
  unfold Orchestrator.generate_sample_tests.
  match goal with
  | |- context [Orchestrator.for_each [?a; ?b; ?c0]] =>
      set (t1 := a); set (t2 := b); set (t3 := c0)
  end.
  assert (H1 : existsb (Orchestrator.same_test state t1) (Orchestrator.tests d) = false)
    by (apply fresh_by_state; exact Hfresh).
  destruct (process_test_no_fault state t1 c d H1)
    as [c1 [d1 [rows1 [E1 [S1 [T1 [Q1 [N1 [O1 D1]]]]]]]]].
  assert (H2 : existsb (Orchestrator.same_test state t2) (Orchestrator.tests d1) = false).
  { rewrite T1, existsb_app, (fresh_by_state _ Hfresh). cbn [existsb orb].
    unfold Orchestrator.same_test.
    cbn [Orchestrator.test_state_id Orchestrator.test_data].
    rewrite Nat.eqb_refl. reflexivity. }
  destruct (process_test_no_fault state t2 c1 d1 H2)
    as [c2 [d2 [rows2 [E2 [S2 [T2 [Q2 [N2 [O2 D2]]]]]]]]].
  assert (H3 : existsb (Orchestrator.same_test state t3) (Orchestrator.tests d2) = false).
  { apply existsb_false. intros r _. apply same_test_without_code. reflexivity. }
  destruct (process_test_no_fault state t3 c2 d2 H3)
    as [c3 [d3 [rows3 [E3 [S3 [T3 [Q3 [N3 [O3 D3]]]]]]]]].
  exists c3, d3,
    [Orchestrator.mkTestRow (S (Orchestrator.test_seq d)) state t1;
     Orchestrator.mkTestRow (S (Orchestrator.test_seq d1)) state t2;
     Orchestrator.mkTestRow (S (Orchestrator.test_seq d2)) state t3],
    (rows1 ++ rows2 ++ rows3)%list.
  split.
  { cbn [Orchestrator.for_each]. unfold Orchestrator.bind.
    rewrite E1, E2, E3. reflexivity. }
  split; [congruence |].
  split.
  { rewrite T3, T2, T1, <- !app_assoc. reflexivity. }
  split; [reflexivity |].
  split; [repeat constructor |].
  split; [congruence |].
  split; [rewrite N3, N2, N1; reflexivity |].
  split.
  { rewrite O3, O2, O1, <- !app_assoc. reflexivity. }
  rewrite !map_app, D1, D2, D3. cbn [flat_map]. rewrite app_nil_r. reflexivity.
Qed.

Lemma accepted_sum (f : Objective -> bool) (tests : list Orchestrator.TestData) :
  list_sum (map (fun data => length (filter f (Claimed.accepted data))) tests)
  = length (filter f (flat_map Claimed.accepted tests)).
Proof.
  induction tests as [| data rest IH]; [reflexivity |].
  cbn [map flat_map]. rewrite list_sum_cons, IH, filter_app, length_app.
  reflexivity.
Qed.

(** The [try] block of a state whose id no test of the table has, for the
    audit that was started last: it returns, and it has stored the three
    tests and their accepted objectives, counted them, and closed the
    audit as complete. *)
Lemma guarded_work_no_fault name abbrev state d :
  Forall (fun r => Orchestrator.test_state_id r <> state) (Orchestrator.tests d) ->
  exists c' d' new rows,
    Orchestrator.guarded_work Orchestrator.no_fault Orchestrator.sample_discovery
      name abbrev state (length (Orchestrator.audits d))
      (Orchestrator.mkCounts 0 0 0 0, d)
    = (Ok tt, (c', d')) /\
    Orchestrator.states d' = Orchestrator.states d /\
    Orchestrator.tests d' = (Orchestrator.tests d ++ new)%list /\
    length new = 3%nat /\
    Forall (fun r => Orchestrator.test_state_id r = state) new /\
    Orchestrator.state_seq d' = Orchestrator.state_seq d /\
    Orchestrator.test_seq d' = (3 + Orchestrator.test_seq d)%nat /\
    Orchestrator.objectives d' = (Orchestrator.objectives d ++ rows)%list /\
    map Orchestrator.objective_data rows = Described.unit_objectives (name, abbrev) /\
    Orchestrator.tests_found c' = 3%nat /\
    Orchestrator.objectives_inferred c'
    = length (filter is_inferred (Described.unit_objectives (name, abbrev))) /\
    Orchestrator.objectives_found c'
    = length (filter (fun obj => negb (is_inferred obj))
                     (Described.unit_objectives (name, abbrev))) /\
    Orchestrator.audits d'
    = map (Orchestrator.close_row (length (Orchestrator.audits d)) "complete" c'
             (Some (Orchestrator.closing_notes c')))
          (Orchestrator.audits d).
Proof.
  intros Hfresh.
  destruct (@sample_tests_no_fault name abbrev state (Orchestrator.mkCounts 0 0 0 0) d Hfresh)
    as [c1 [d1 [new [rows [Hloop [Hstates [Htests [Hnew [Hof [Hsseq [Htseq
       [Hobjs Hdata]]]]]]]]]]]].
  assert (Hwork :
    Orchestrator.guarded_work Orchestrator.no_fault Orchestrator.sample_discovery
      name abbrev state (length (Orchestrator.audits d))
      (Orchestrator.mkCounts 0 0 0 0, d)
    = (Ok tt,
       (c1, Orchestrator.mkDatabase
              (Orchestrator.states d1) (Orchestrator.tests d1)
              (Orchestrator.objectives d1)
              (map (Orchestrator.close_row (length (Orchestrator.audits d))
                      (Orchestrator.closing_status c1) c1
                      (Some (Orchestrator.closing_notes c1)))
                   (Orchestrator.audits d1))
              (Orchestrator.lastrowid d1)
              (Orchestrator.state_seq d1) (Orchestrator.test_seq d1)))).
  { unfold Orchestrator.guarded_work, Orchestrator.bind at 1,
      Orchestrator.lift, Orchestrator.sample_discovery.
    unfold Orchestrator.bind at 1. rewrite Hloop.
    unfold Orchestrator.bind, Orchestrator.get_counts, Orchestrator.on_db,
      Orchestrator.complete_audit, Orchestrator.sql, Orchestrator.no_fault.
    reflexivity. }
  pose proof Hwork as Heffect. apply guarded_work_effect in Heffect.
  destruct Heffect as [tests [Htestsrc [Hcount [Hinf [Hfound [_ Haudits]]]]]].
  unfold Orchestrator.sample_discovery in Htestsrc. injection Htestsrc as <-.
  cbn [Orchestrator.tests_found Orchestrator.objectives_inferred
       Orchestrator.objectives_found Nat.add length] in Hcount, Hinf, Hfound.
  rewrite accepted_sum in Hinf, Hfound.
  assert (Hstatus : Orchestrator.closing_status c1 = "complete"%string).
  { unfold Orchestrator.closing_status. rewrite Hcount. reflexivity. }
  rewrite Hstatus in Hwork, Haudits.
  eexists c1, _, new, rows.
  split; [exact Hwork |].
  cbn [Orchestrator.states Orchestrator.tests Orchestrator.objectives
       Orchestrator.audits Orchestrator.state_seq Orchestrator.test_seq] in *.
  repeat split; try assumption.
Qed.

(** One state of the batch whose name and abbreviation are new: the call
    returns and the batch is in the same state with one unit more. *)
Lemma process_state_no_fault units db totals name abbrev :
  Described.batch_state units db totals ->
  ~ In name (map fst units) ->
  ~ In abbrev (map snd units) ->
  exists counts db',
    Orchestrator.process_state Orchestrator.no_fault name abbrev db
    = (Ok counts, db') /\
    Described.batch_state (units ++ [(name, abbrev)])%list db'
      (Orchestrator.add_counts totals counts).
Proof.
  intros Hinv Hname Habbrev. destruct Hinv.
  assert (Hnew : forall r, In r (Orchestrator.states db) ->
                           Orchestrator.state_name r <> name /\
                           Orchestrator.state_abbrev r <> abbrev).
  { intros r Hr.
    assert (Hunit : In (Orchestrator.state_name r, Orchestrator.state_abbrev r) units).
    { rewrite <- states_stored.
      apply (in_map (fun r => (Orchestrator.state_name r, Orchestrator.state_abbrev r))).
      exact Hr. }
    split; intros Heq.
    - apply Hname. rewrite <- Heq. apply (in_map fst) in Hunit. exact Hunit.
    - apply Habbrev. rewrite <- Heq. apply (in_map snd) in Hunit. exact Hunit. }
  pose proof (@upsert_state_fresh name abbrev db Hnew) as Hstate.
  rewrite states_numbered in Hstate.
  set (db1 := Orchestrator.mkDatabase
                (Orchestrator.states db
                 ++ [Orchestrator.mkStateRow (S (length units)) name abbrev])%list
                (Orchestrator.tests db) (Orchestrator.objectives db)
                (Orchestrator.audits db) (S (length units))
                (S (length units)) (Orchestrator.test_seq db)) in Hstate.
  set (running := Orchestrator.mkAuditRow (S (length (Orchestrator.audits db)))
                    (S (length units)) "running" (Orchestrator.mkCounts 0 0 0 0) None).
  set (db2 := Orchestrator.mkDatabase
                (Orchestrator.states db1) (Orchestrator.tests db1)
                (Orchestrator.objectives db1)
                (Orchestrator.audits db1 ++ [running])%list
                (S (length (Orchestrator.audits db)))
                (Orchestrator.state_seq db1) (Orchestrator.test_seq db1)).
  assert (Hstart : Orchestrator.start_audit Orchestrator.no_fault (S (length units)) db1
                   = (Ok (S (length (Orchestrator.audits db))), db2))
    by reflexivity.
  assert (Hfresh : Forall (fun r => Orchestrator.test_state_id r <> S (length units))
                          (Orchestrator.tests db2)).
  { cbn [db2 db1 Orchestrator.tests].
    eapply Forall_impl; [| exact tests_of_known_states].
    intros r Hr. cbn beta in Hr. lia. }
  destruct (@guarded_work_no_fault name abbrev (S (length units)) db2 Hfresh)
    as [c' [d' [new [rows [Hwork [Hstates [Htests [Hnewlen [Hof [Hsseq [Htseq
       [Hobjs [Hdata [Hcount [Hinf [Hfound Haudits]]]]]]]]]]]]]]]].
  assert (Hid : length (Orchestrator.audits db2) = S (length (Orchestrator.audits db))).
  { cbn [db2 db1 Orchestrator.audits]. rewrite length_app. simpl. lia. }
  rewrite Hid in Hwork, Haudits.
  cbn [db2 db1 Orchestrator.states Orchestrator.tests Orchestrator.objectives
       Orchestrator.audits Orchestrator.state_seq Orchestrator.test_seq]
    in Hstates, Htests, Hobjs, Haudits, Hsseq, Htseq.
  unfold running in Haudits.
  rewrite (close_last_row _ _ _ _ _ audits_in_order) in Haudits.
  exists c', d'. split.
  { unfold Orchestrator.process_state, Orchestrator.process_state_with,
      Orchestrator.bind.
    unfold Orchestrator.get_state_logger, Orchestrator.sql at 1,
      Orchestrator.no_fault at 1, Orchestrator.ret.
    rewrite Hstate, Hstart. unfold Orchestrator.try_except.
    rewrite Hwork. reflexivity. }
  assert (Hsplit := filter_split_length is_inferred
                      (Described.unit_objectives (name, abbrev))).
  constructor.
  - rewrite Hstates, map_app, states_stored. reflexivity.
  - rewrite Hsseq, length_app. simpl. lia.
  - rewrite Htests, !length_app, tests_stored, Hnewlen. simpl. lia.
  - rewrite Htseq, tests_numbered, length_app. simpl. lia.
  - rewrite Htests. apply Forall_app. split.
    + eapply Forall_impl; [| exact tests_of_known_states].
      intros r Hr. cbn beta in Hr. rewrite length_app. lia.
    + eapply Forall_impl; [| exact Hof].
      intros r Hr. cbn beta in Hr. rewrite length_app, Hr. simpl. lia.
  - rewrite Hobjs, map_app, objectives_stored, Hdata, flat_map_app.
    cbn [flat_map]. rewrite app_nil_r. reflexivity.
  - unfold Claimed.audit_ids_in_order in *.
    rewrite Haudits, map_app, length_app, audits_in_order. cbn [map length].
    rewrite Nat.add_1_r, seq_S. reflexivity.
  - rewrite Haudits, !length_app, audits_stored. reflexivity.
  - rewrite Haudits. apply Forall_app. split; [exact audits_complete |].
    constructor; [| constructor]. split; [reflexivity | exact Hcount].
  - cbn [Orchestrator.add_counts Orchestrator.states_processed].
    rewrite states_counted, length_app. reflexivity.
  - cbn [Orchestrator.add_counts Orchestrator.total_tests].
    rewrite tests_counted, Hcount, length_app. simpl. lia.
  - cbn [Orchestrator.add_counts Orchestrator.total_objectives].
    rewrite objectives_counted, Hfound, Hinf, flat_map_app, length_app.
    cbn [flat_map]. rewrite app_nil_r. lia.
  - cbn [Orchestrator.add_counts Orchestrator.total_inferred].
    rewrite inferred_counted, Hinf, flat_map_app, filter_app, length_app.
    cbn [flat_map]. rewrite app_nil_r. reflexivity.
  - cbn [Orchestrator.add_counts Orchestrator.total_verified].
    rewrite verified_counted, Hfound, flat_map_app, filter_app, length_app.
    cbn [flat_map]. rewrite app_nil_r. reflexivity.
Qed.

Lemma pipeline_loop_no_fault todo :
  forall units db totals,
    Described.batch_state units db totals ->
    NoDup (map fst (units ++ todo)%list) ->
    NoDup (map snd (units ++ todo)%list) ->
    exists totals' db',
      Orchestrator.pipeline_loop Orchestrator.no_fault Orchestrator.sample_discovery
        todo totals db
      = (Ok totals', db') /\
      Described.batch_state (units ++ todo)%list db' totals'.
Proof.
  induction todo as [| [name abbrev] rest IH]; intros units db totals Hinv Hnames Habbrevs.
  - exists totals, db. rewrite app_nil_r. split; [reflexivity | exact Hinv].
  - assert (Hname : ~ In name (map fst units)).
    { rewrite map_app in Hnames. apply NoDup_remove_2 in Hnames.
      intros Hin. apply Hnames. apply in_or_app. left. exact Hin. }
    assert (Habbrev : ~ In abbrev (map snd units)).
    { rewrite map_app in Habbrevs. apply NoDup_remove_2 in Habbrevs.
      intros Hin. apply Habbrevs. apply in_or_app. left. exact Hin. }
    destruct (@process_state_no_fault units db totals name abbrev Hinv Hname Habbrev)
      as [counts [db1 [Hrun Hinv1]]].
    assert (Hlist : ((units ++ [(name, abbrev)]) ++ rest
                     = units ++ (name, abbrev) :: rest)%list).
    { rewrite <- app_assoc. reflexivity. }
    destruct (IH (units ++ [(name, abbrev)])%list db1
                 (Orchestrator.add_counts totals counts) Hinv1)
      as [totals' [db' [Hloop Hinv']]].
    { rewrite Hlist. exact Hnames. }
    { rewrite Hlist. exact Habbrevs. }
    exists totals', db'. split.
    + cbn [Orchestrator.pipeline_loop]. unfold Orchestrator.bind.
      unfold Orchestrator.process_state in Hrun. rewrite Hrun. exact Hloop.
    + rewrite <- Hlist. exact Hinv'.
Qed.

Lemma filter_of_rows (f : Objective -> bool) (rows : list Orchestrator.ObjectiveRow) :
  length (filter (fun r => f (Orchestrator.objective_data r)) rows)
  = length (filter f (map Orchestrator.objective_data rows)).
Proof.
  induction rows as [| r rest IH]; [reflexivity |].
  cbn [filter map]. destruct (f (Orchestrator.objective_data r)); cbn [length];
    rewrite IH; reflexivity.
Qed.

(** X23. A batch in demonstration mode on a fresh database runs to its
    end when nothing around it fails (every log file opens, SQLite
    answers every call, the reports are written) and the states have
    pairwise distinct names and pairwise distinct abbreviations.  It
    stores one row per state, in order, three tests per state, and, in
    order, the objectives inferred for these tests that pass the
    validation gate; no id of a sequence is lost; every state has one
    audit, closed as "complete" with three tests found; and the totals
    that the batch returns are the statistics that [get_statistics] then
    reads from the database. *)
Theorem sample_batch_completes :
  forall units : list (string * string),
    NoDup (map fst units) ->
    NoDup (map snd units) ->
    exists totals db,
      Orchestrator.run_full_pipeline Orchestrator.no_fault units
        Orchestrator.empty_database
      = (Ok totals, db) /\
      map (fun r => (Orchestrator.state_name r, Orchestrator.state_abbrev r))
          (Orchestrator.states db) = units /\
      length (Orchestrator.tests db) = (3 * length units)%nat /\
      Orchestrator.state_seq db = length units /\
      Orchestrator.test_seq db = (3 * length units)%nat /\
      map Orchestrator.objective_data (Orchestrator.objectives db)
      = flat_map Described.unit_objectives units /\
      length (Orchestrator.audits db) = length units /\
      Forall (fun row => Orchestrator.status row = "complete"%string /\
                         Orchestrator.tests_found (Orchestrator.audit_counts row) = 3%nat)
             (Orchestrator.audits db) /\
      Orchestrator.states_processed totals = length units /\
      Statistics.get_statistics db
      = Statistics.mkStats
          (Orchestrator.states_processed totals)
          (Orchestrator.total_tests totals)
          (Orchestrator.total_objectives totals)
          (Orchestrator.total_inferred totals)
          (Orchestrator.total_verified totals).
Proof.
  intros units Hnames Habbrevs.
  assert (Hstart : Described.batch_state [] Orchestrator.empty_database
                     (Orchestrator.mkTotals 0 0 0 0 0)).
  { constructor; try reflexivity; constructor. }
  destruct (@pipeline_loop_no_fault units [] Orchestrator.empty_database
              (Orchestrator.mkTotals 0 0 0 0 0) Hstart Hnames Habbrevs)
    as [totals [db [Hrun Hinv]]].
  cbn [app] in Hinv. destruct Hinv.
  exists totals, db.
  split.
  { unfold Orchestrator.run_full_pipeline, Orchestrator.run_full_pipeline_with,
      Orchestrator.bind.
    rewrite Hrun. reflexivity. }
  split; [exact states_stored |]. split; [exact tests_stored |].
  split; [exact states_numbered |]. split; [exact tests_numbered |].
  split; [exact objectives_stored |]. split; [exact audits_stored |].
  split; [exact audits_complete |]. split; [exact states_counted |].
  assert (H1 : length (Orchestrator.states db) = Orchestrator.states_processed totals).
  { rewrite states_counted, <- states_stored, length_map. reflexivity. }
  assert (H2 : length (Orchestrator.tests db) = Orchestrator.total_tests totals)
    by congruence.
  assert (H3 : length (Orchestrator.objectives db)
               = Orchestrator.total_objectives totals).
  { rewrite objectives_counted, <- objectives_stored, length_map. reflexivity. }
  assert (H4 : length (filter (fun r => is_inferred (Orchestrator.objective_data r))
                              (Orchestrator.objectives db))
               = Orchestrator.total_inferred totals).
  { rewrite inferred_counted, <- objectives_stored.
    apply (filter_of_rows is_inferred). }
  assert (H5 : length (filter (fun r => negb (is_inferred (Orchestrator.objective_data r)))
                              (Orchestrator.objectives db))
               = Orchestrator.total_verified totals).
  { rewrite verified_counted, <- objectives_stored.
    apply (filter_of_rows (fun obj => negb (is_inferred obj))). }
  unfold Statistics.get_statistics. rewrite H1, H2, H3, H4, H5. reflexivity.
Qed.

Lemma sample_batch_completes_witness :
  NoDup (map fst Extraction.US_STATES) /\
  NoDup (map snd Extraction.US_STATES) /\
  exists totals db,
    Orchestrator.run_full_pipeline Orchestrator.no_fault Extraction.US_STATES
      Orchestrator.empty_database
    = (Ok totals, db) /\
    Orchestrator.states_processed totals = 50%nat /\
    length (Orchestrator.tests db) = 150%nat /\
    length (Orchestrator.audits db) = 50%nat.
Proof.
  assert (Hnames : NoDup (map fst Extraction.US_STATES)).
  { assert (E : nodup string_dec (map fst Extraction.US_STATES)
                = map fst Extraction.US_STATES) by (vm_compute; reflexivity).
    rewrite <- E. apply NoDup_nodup. }
  assert (Habbrevs : NoDup (map snd Extraction.US_STATES)).
  { assert (E : nodup string_dec (map snd Extraction.US_STATES)
                = map snd Extraction.US_STATES) by (vm_compute; reflexivity).
    rewrite <- E. apply NoDup_nodup. }
  split; [exact Hnames |]. split; [exact Habbrevs |].
  destruct (@sample_batch_completes Extraction.US_STATES Hnames Habbrevs)
    as [totals [db [Hrun [_ [Htests [_ [_ [_ [Haudits [_ [Hcount _]]]]]]]]]]].
  exists totals, db.
  split; [exact Hrun |]. split; [exact Hcount |].
  split; [exact Htests | exact Haudits].
Defined.

(** ** A second run for a state *)

(** The rows that the inner loop adds to the table of objectives all
    carry the test id it was given, whatever fails. *)
Lemma store_loop_test_ids faulty test objectives :
  forall c d r c' d',
    Orchestrator.for_each objectives (Orchestrator.store_objective faulty test) (c, d)
    = (r, (c', d')) ->
    exists rows,
      Orchestrator.objectives d' = (Orchestrator.objectives d ++ rows)%list /\
      Forall (fun row => Orchestrator.objective_test_id row = test) rows.
Proof.
  induction objectives as [| obj rest IH]; intros c d r c' d' Hrun.
  - simpl in Hrun. unfold Orchestrator.ret in Hrun. injection Hrun as <- <- <-.
    exists []. rewrite app_nil_r. split; [reflexivity | constructor].
  - cbn [Orchestrator.for_each] in Hrun. unfold Orchestrator.bind in Hrun.
    assert (Hone : forall r1 c1 d1,
               Orchestrator.store_objective faulty test obj (c, d) = (r1, (c1, d1)) ->
               exists rows1,
                 Orchestrator.objectives d1 = (Orchestrator.objectives d ++ rows1)%list /\
                 Forall (fun row => Orchestrator.objective_test_id row = test) rows1).
    { intros r1 c1 d1. unfold Orchestrator.store_objective.
      destruct (fst (Validation.validate_objective obj)).
      - unfold Orchestrator.bind, Orchestrator.on_db, Orchestrator.insert_objective,
          Orchestrator.sql, Orchestrator.update_counts.
        destruct (faulty (Orchestrator.CallInsertObjective test obj) d);
          intros H; injection H as <- <- <-.
        + exists []. rewrite app_nil_r. split; [reflexivity | constructor].
        + eexists [_]. split; [reflexivity |]. repeat constructor.
      - unfold Orchestrator.ret. intros H. injection H as <- <- <-.
        exists []. rewrite app_nil_r. split; [reflexivity | constructor]. }
    destruct (Orchestrator.store_objective faulty test obj (c, d))
      as [[[] | e] [c1 d1]] eqn:Hfirst.
    + destruct (Hone _ _ _ eq_refl) as [rows1 [Hobjs1 Hids1]].
      apply IH in Hrun as [rows2 [Hobjs2 Hids2]].
      exists (rows1 ++ rows2)%list. split.
      * rewrite Hobjs2, Hobjs1, app_assoc. reflexivity.
      * apply Forall_app. split; assumption.
    + destruct (Hone _ _ _ eq_refl) as [rows1 [Hobjs1 Hids1]].
      injection Hrun as <- <- <-. exists rows1. split; assumption.
Qed.

(** X24. A test that is already in the table gets its objectives a second
    time, under an id that is not its own.  When a row of [tests]
    conflicts with the test and nothing fails, [process_test] (the body of
    the loop of [process_state]) returns: it adds no test row and changes
    no test id, though it uses up an id of the sequence, and it stores
    every accepted objective of the test again, each under the row id of
    the last insertion that the connection had made before, which is what
    [upsert_test] returns after an update.  When the database is the one
    that [start_audit] has just left, as it is for the first test of a
    run, that row id is the id of the audit. *)
Theorem known_test_objectives_follow_last_insert :
  forall (state : nat) (data : Orchestrator.TestData)
         (c : Orchestrator.Counts) (d : Orchestrator.Database),
    existsb (Orchestrator.same_test state data) (Orchestrator.tests d) = true ->
    (exists c' d' rows,
       Orchestrator.process_test Orchestrator.no_fault state data (c, d)
       = (Ok tt, (c', d')) /\
       map Orchestrator.test_id (Orchestrator.tests d')
       = map Orchestrator.test_id (Orchestrator.tests d) /\
       Orchestrator.test_seq d' = S (Orchestrator.test_seq d) /\
       Orchestrator.objectives d' = (Orchestrator.objectives d ++ rows)%list /\
       map Orchestrator.objective_data rows = Claimed.accepted data /\
       Forall (fun row => Orchestrator.objective_test_id row
                          = Orchestrator.lastrowid d) rows) /\
    (forall (faulty : Orchestrator.Call -> Orchestrator.Database -> option string)
            (audited : nat) (before : Orchestrator.Database) (audit : nat),
       Orchestrator.start_audit faulty audited before = (Ok audit, d) ->
       Orchestrator.lastrowid d = audit).
Proof.
  intros state data c d Hknown. split.
  - unfold Orchestrator.process_test, Orchestrator.bind at 1, Orchestrator.on_db.
    unfold Orchestrator.upsert_test, Orchestrator.sql, Orchestrator.no_fault.
    rewrite Hknown.
    unfold Orchestrator.bind at 1, Orchestrator.update_counts.
    match goal with
    | |- context [Orchestrator.for_each ?objs ?body (?c1, ?d1)] =>
        destruct (store_loop_no_fault (Orchestrator.lastrowid d) objs c1 d1)
          as [c2 [d2 [rows [Hloop [Hstates [Htests [Hsseq [Htseq [Hobjs Hdata]]]]]]]]]
    end.
    exists c2, d2, rows.
    split; [exact Hloop |].
    pose proof Hloop as Hids.
    apply store_loop_test_ids in Hids as [rows' [Hobjs' Hids]].
    rewrite Hobjs in Hobjs'. apply app_inv_head in Hobjs'. subst rows'.
    cbn [Orchestrator.tests Orchestrator.objectives Orchestrator.test_seq]
      in Htests, Hobjs, Htseq.
    split.
    { rewrite Htests, map_map. apply map_ext. intros row.
      destruct (Orchestrator.same_test state data row); reflexivity. }
    split; [exact Htseq |].
    split; [exact Hobjs |]. split; [exact Hdata | exact Hids].
  - intros faulty audited before audit Hstart.
    unfold Orchestrator.start_audit, Orchestrator.sql in Hstart.
    destruct (faulty (Orchestrator.CallStartAudit audited) before);
      [discriminate |].
    injection Hstart as <- <-. reflexivity.
Qed.

(** In a second run for Alabama the first sample test, whose id is 1,
    gets its objectives again under 2, the id of the second audit. *)
Lemma known_test_objectives_follow_last_insert_witness :
  map Orchestrator.test_id
      (filter (Orchestrator.same_test 1 Examples.praxis_5001)
              (Orchestrator.tests Examples.alabama_reopened)) = [1%nat] /\
  Orchestrator.lastrowid Examples.alabama_reopened = 2%nat /\
  exists c' d' rows,
    Orchestrator.process_test Orchestrator.no_fault 1 Examples.praxis_5001
      (Orchestrator.mkCounts 0 0 0 0, Examples.alabama_reopened)
    = (Ok tt, (c', d')) /\
    Orchestrator.objectives d'
    = (Orchestrator.objectives Examples.alabama_reopened ++ rows)%list /\
    map Orchestrator.objective_data rows = Claimed.accepted Examples.praxis_5001 /\
    Forall (fun row => Orchestrator.objective_test_id row = 2%nat) rows.
Proof.
  split; [vm_compute; reflexivity |]. split; [vm_compute; reflexivity |].
  assert (Hknown : existsb (Orchestrator.same_test 1 Examples.praxis_5001)
                           (Orchestrator.tests Examples.alabama_reopened) = true)
    by (vm_compute; reflexivity).
  destruct (proj1 (@known_test_objectives_follow_last_insert 1 Examples.praxis_5001
                     (Orchestrator.mkCounts 0 0 0 0) Examples.alabama_reopened Hknown))
    as [c' [d' [rows [Hrun [_ [_ [Hobjs [Hdata Hids]]]]]]]].
  exists c', d', rows.
  split; [exact Hrun |]. split; [exact Hobjs |]. split; [exact Hdata |].
  exact Hids.
Defined.

(** ** Deduplication, once more *)

Lemma dedup_loop_length tests :
  forall seen,
    (length (Discovery.dedup_loop tests seen []) <= length tests)%nat.
Proof.
  induction tests as [| test rest IH]; intros seen.
  - simpl. lia.
  - rewrite dedup_loop_cons.
    destruct (Discovery.seen_mem (Discovery.test_key test) seen).
    + specialize (IH seen). simpl. lia.
    + specialize (IH (Discovery.test_key test :: seen)). simpl. lia.
Qed.

(** X25. [_deduplicate_tests] changes nothing exactly when there is
    nothing to do.  Its result is never longer than its argument, and it
    is the argument itself exactly when no two candidates of the argument
    have the same test system, test name and test code (a missing field
    counting as the empty string); in particular a list of candidates
    that differ pairwise in one of the three fields loses none. *)
Theorem deduplicate_tests_is_identity_iff_distinct :
  forall tests : list Discovery.TestCandidate,
    (length (Discovery.deduplicate_tests tests) <= length tests)%nat /\
    (Discovery.deduplicate_tests tests = tests <->
     ForallOrdPairs (fun a b => ~ Claimed.same_identity a b) tests).
Proof.
  intros tests. unfold Discovery.deduplicate_tests.
  split; [apply dedup_loop_length |].
  split.
  - intros Hfixed. rewrite <- Hfixed.
    apply nodup_keys_pairwise, dedup_loop_keys_nodup.
  - intros Hpairs. apply dedup_loop_fixed; [| intros test _ []].
    apply nodup_keys_pairwise. exact Hpairs.
Qed.

(** ** Validation: the source URL *)

(** X26. [validate_source_url] accepts a URL exactly when the URL is not
    empty, it parses into a scheme and a host that are not empty, the host
    is authoritative for [_is_authoritative_domain], and the HEAD request
    returns with status 200; its reason is then "Valid and accessible".
    It never raises: a failure of the parsing or of the request is a
    rejection. *)
Theorem validate_source_url_accepts_iff :
  forall (url : option string)
         (parsed : SourceCheck.Outcome PDFValidator.Parsed)
         (head : SourceCheck.Outcome Z),
    (fst (SourceCheck.validate_source_url url parsed head) = true <->
     Py.truthy_opt url = true /\
     exists p,
       parsed = SourceCheck.Returns p /\
       PDFValidator.scheme p <> ""%string /\
       PDFValidator.netloc p <> ""%string /\
       Structure.is_authoritative_domain (PDFValidator.netloc p) = true /\
       head = SourceCheck.Returns 200%Z) /\
    (fst (SourceCheck.validate_source_url url parsed head) = true ->
     snd (SourceCheck.validate_source_url url parsed head)
     = "Valid and accessible"%string).
Proof.
  intros url parsed head. unfold SourceCheck.validate_source_url.
  destruct (Py.truthy_opt url); cbn [negb].
  2:{ split; [split; [discriminate | intros [H _]; discriminate] | discriminate]. }
  destruct parsed as [p | e].
  2:{ split; [split |].
      - destruct e; discriminate.
      - intros [_ [p [H _]]]. discriminate.
      - destruct e; discriminate. }
  destruct (Py.truthy (PDFValidator.scheme p)) eqn:Hscheme; cbn [negb orb].
  2:{ apply truthy_false_iff in Hscheme.
      split; [split; [discriminate |] | discriminate].
      intros [_ [q [Hq [Hs _]]]]. injection Hq as <-. contradiction. }
  destruct (Py.truthy (PDFValidator.netloc p)) eqn:Hnetloc; cbn [negb].
  2:{ apply truthy_false_iff in Hnetloc.
      split; [split; [discriminate |] | discriminate].
      intros [_ [q [Hq [_ [Hn _]]]]]. injection Hq as <-. contradiction. }
  destruct (Structure.is_authoritative_domain (PDFValidator.netloc p)) eqn:Hauth;
    cbn [negb].
  2:{ split; [split; [discriminate |] | discriminate].
      intros [_ [q [Hq [_ [_ [Ha _]]]]]]. injection Hq as <-. congruence. }
  assert (Hs : PDFValidator.scheme p <> ""%string)
    by (intros E; rewrite E in Hscheme; discriminate).
  assert (Hn : PDFValidator.netloc p <> ""%string)
    by (intros E; rewrite E in Hnetloc; discriminate).
  destruct head as [code | e].
  2:{ split; [split |].
      - destruct e; discriminate.
      - intros [_ [q [_ [_ [_ [_ H]]]]]]. discriminate.
      - destruct e; discriminate. }
  destruct (Z.eqb_spec code 200) as [-> | Hcode].
  - split; [split |].
    + intros _. split; [reflexivity |]. exists p. auto.
    + reflexivity.
    + reflexivity.
  - assert (Hreject : fst (if (code =? 404)%Z
                           then (false, "URL not found (404)"%string)
                           else (false, ("HTTP " ++ Py.str_int code)%string)) = false)
      by (destruct (code =? 404)%Z; reflexivity).
    split; [split |].
    + rewrite Hreject. discriminate.
    + intros [_ [q [_ [_ [_ [_ H]]]]]]. injection H as ->. contradiction.
    + rewrite Hreject. discriminate.
Qed.

(** ** Discovery: the abbreviations of the states *)

Lemma lookup_abbrev_in (d : list (string * string)) (name abbrev : string) :
  NoDup (map fst d) -> In (name, abbrev) d ->
  Extraction.lookup_abbrev d name = Some abbrev.
Proof.
  induction d as [| [k v] rest IH]; intros Hnodup Hin; [destruct Hin |].
  cbn [map fst] in Hnodup. inversion Hnodup as [| ? ? Hfirst Hrest]; subst.
  cbn [Extraction.lookup_abbrev].
  destruct Hin as [Heq | Hin].
  - injection Heq as -> ->. rewrite String.eqb_refl. reflexivity.
  - destruct (String.eqb_spec name k) as [-> | _].
    + exfalso. apply Hfirst. apply (in_map fst) in Hin. exact Hin.
    + apply IH; assumption.
Qed.

Lemma lookup_abbrev_not_in (d : list (string * string)) (name : string) :
  ~ In name (map fst d) -> Extraction.lookup_abbrev d name = None.
Proof.
  induction d as [| [k v] rest IH]; intros Hout; [reflexivity |].
  cbn [Extraction.lookup_abbrev].
  destruct (String.eqb_spec name k) as [-> | _].
  - exfalso. apply Hout. left. reflexivity.
  - apply IH. intros Hin. apply Hout. right. exact Hin.
Qed.

(** X27. The two tables of states agree.  For every state of the table
    [US_STATES] of the orchestrator, [_get_state_abbrev] of the discovery
    engine answers the abbreviation that the orchestrator uses; for a name
    that is not in the table it answers the first two characters of the
    name in upper case.  The names of the table are pairwise distinct and
    so are its abbreviations, which is what the two [UNIQUE] columns of
    the table of states need. *)
Theorem state_abbreviations_agree :
  forall (upper : string -> string) (name : string),
    (forall abbrev,
       In (name, abbrev) Extraction.US_STATES ->
       Extraction.get_state_abbrev upper name = abbrev) /\
    (~ In name (map fst Extraction.US_STATES) ->
     Extraction.get_state_abbrev upper name = upper (PyText.take 2 name)) /\
    NoDup (map fst Extraction.US_STATES) /\
    NoDup (map snd Extraction.US_STATES).
Proof.
  intros upper name.
  assert (Hnames : NoDup (map fst Extraction.US_STATES)).
  { assert (E : nodup string_dec (map fst Extraction.US_STATES)
                = map fst Extraction.US_STATES) by (vm_compute; reflexivity).
    rewrite <- E. apply NoDup_nodup. }
  assert (Habbrevs : NoDup (map snd Extraction.US_STATES)).
  { assert (E : nodup string_dec (map snd Extraction.US_STATES)
                = map snd Extraction.US_STATES) by (vm_compute; reflexivity).
    rewrite <- E. apply NoDup_nodup. }
  split; [| split; [| split; assumption]].
  - intros abbrev Hin. unfold Extraction.get_state_abbrev.
    rewrite (@lookup_abbrev_in Extraction.abbrevs name abbrev Hnames Hin).
    reflexivity.
  - intros Hout. unfold Extraction.get_state_abbrev.
    rewrite (@lookup_abbrev_not_in Extraction.abbrevs name Hout). reflexivity.
Qed.
